(** * mcp-archetypes: MCP servers and clients, embedded and verified

  The Python sources under [mcp_servers/] and [mcp_clients/] are embedded
  shallowly.  Python values are an inductive type, exceptions are an
  explicit result type, and every call that leaves the process (an HTTP
  request, an LLM call, an MCP request) is answered by an oracle of the
  environment and recorded in a trace, so that statements such as
  "exactly one sampling call is made" are statements about the trace.

  Strings are byte strings holding UTF-8 text. *)

From Stdlib Require Import String Ascii List ZArith Bool Lia DecimalString.
Import ListNotations.
Open Scope string_scope.
Set Warnings "-register-all".

(* ===================================================================== *)
(** * Python values, strings and exceptions                               *)
(* ===================================================================== *)

Module Py.

(** ** Strings *)

Definition nl : string := String "010"%char EmptyString.
Definition dq : string := String "034"%char EmptyString.
Definition sq : string := String "039"%char EmptyString.
Definition bs : string := String "092"%char EmptyString.

(** [sep.join(l)] *)
Definition join (sep : string) (l : list string) : string :=
  String.concat sep l.

(** [needle in hay] on two strings. *)
Fixpoint str_contains (needle hay : string) : bool :=
  String.prefix needle hay ||
  match hay with
  | EmptyString => false
  | String _ rest => str_contains needle rest
  end.

Definition lower_ascii (c : ascii) : ascii :=
  let n := nat_of_ascii c in
  if (65 <=? n)%nat && (n <=? 90)%nat then ascii_of_nat (n + 32) else c.

(** [s.lower()] on ASCII text: the letters A to Z are lower-cased.  Bytes
    outside ASCII are left as they are, so on a text with a capital letter
    outside ASCII this is not [str.lower]; what is proved of it for every
    text is stated for ASCII texts. *)
Fixpoint lower (s : string) : string :=
  match s with
  | EmptyString => EmptyString
  | String c rest => String (lower_ascii c) (lower rest)
  end.

(** [s.replace(old, new)] for a non-empty [old]: the occurrences are
    replaced from the left and do not overlap.  [skip] counts the
    characters of a matched occurrence that are still to be dropped. *)
Fixpoint replace_from (old new s : string) (skip : nat) : string :=
  match s with
  | EmptyString => EmptyString
  | String c rest =>
      match skip with
      | S k => replace_from old new rest k
      | O =>
          if String.prefix old s
          then new ++ replace_from old new rest (String.length old - 1)
          else String c (replace_from old new rest 0)
      end
  end.

(** With an empty [old] Python puts [new] before every character and at
    the end. *)
Fixpoint intersperse (new s : string) : string :=
  match s with
  | EmptyString => new
  | String c rest => new ++ String c (intersperse new rest)
  end.

Definition replace (s old new : string) : string :=
  match old with
  | EmptyString => intersperse new s
  | _ => replace_from old new s 0
  end.

(** [str(n)] for an [int]. *)
Definition int_str (n : Z) : string :=
  NilZero.string_of_int (Z.to_int n).

(** ** Values

    The values that reach this code are JSON-like: what [json.loads] and
    [response.json()] give, and what the code builds from them.  A float
    is carried by the text Python prints for it.  A dict is an association
    list in insertion order with distinct keys. *)

Inductive pyval : Type :=
| PNone
| PBool (b : bool)
| PInt (n : Z)
| PFloat (printed : string)
| PStr (s : string)
| PList (l : list pyval)
| PDict (d : list (string * pyval)).

Definition dict := list (string * pyval).

Fixpoint dict_get (d : dict) (k : string) : option pyval :=
  match d with
  | [] => None
  | (k', v) :: rest => if String.eqb k' k then Some v else dict_get rest k
  end.

(** [d[k] = v] *)
Fixpoint dict_set (d : dict) (k : string) (v : pyval) : dict :=
  match d with
  | [] => [(k, v)]
  | (k', v') :: rest =>
      if String.eqb k' k then (k', v) :: rest
      else (k', v') :: dict_set rest k v
  end.

Definition has_key (d : dict) (k : string) : bool :=
  match dict_get d k with Some _ => true | None => false end.

(** Truth value, as [not x] and [if x] test it. *)
Definition truthy (v : pyval) : bool :=
  match v with
  | PNone => false
  | PBool b => b
  | PInt n => negb (n =? 0)%Z
  | PFloat p => negb (String.eqb p "0.0" || String.eqb p "-0.0")
  | PStr s => negb (String.eqb s "")
  | PList l => match l with [] => false | _ => true end
  | PDict d => match d with [] => false | _ => true end
  end.

(** ** [repr] and [str] *)

Definition hex_digit (n : nat) : ascii :=
  if (n <? 10)%nat then ascii_of_nat (48 + n) else ascii_of_nat (87 + n).

(** How [repr] shows one character of an ASCII text.  A byte outside
    ASCII is shown as it is; Python escapes the code points outside ASCII
    that are not printable (U+0080 to U+00A0, U+200B, U+2028 and others),
    which this does not follow. *)
Definition repr_char (quote : ascii) (c : ascii) : string :=
  let n := nat_of_ascii c in
  if Ascii.eqb c "092"%char then bs ++ bs
  else if Ascii.eqb c quote then bs ++ String quote EmptyString
  else if Ascii.eqb c "009"%char then bs ++ "t"
  else if Ascii.eqb c "010"%char then bs ++ "n"
  else if Ascii.eqb c "013"%char then bs ++ "r"
  else if (n <? 32)%nat || (n =? 127)%nat
       then bs ++ "x" ++ String (hex_digit (n / 16))
                           (String (hex_digit (n mod 16)) EmptyString)
  else String c EmptyString.

Fixpoint repr_chars (quote : ascii) (s : string) : string :=
  match s with
  | EmptyString => EmptyString
  | String c rest => repr_char quote c ++ repr_chars quote rest
  end.

(** [repr(s)]: single quotes, unless the text has a single quote and no
    double quote. *)
Definition repr_str (s : string) : string :=
  let quote : ascii :=
    if str_contains sq s && negb (str_contains dq s)
    then "034"%char else "039"%char in
  String quote (repr_chars quote s) ++ String quote EmptyString.

Fixpoint repr (v : pyval) : string :=
  match v with
  | PNone => "None"
  | PBool true => "True"
  | PBool false => "False"
  | PInt n => int_str n
  | PFloat p => p
  | PStr s => repr_str s
  | PList l => "[" ++ join ", " (map repr l) ++ "]"
  | PDict d =>
      "{" ++ join ", " (map (fun kv => repr_str (fst kv) ++ ": " ++ repr (snd kv)) d)
          ++ "}"
  end.

(** [str(v)], which is also what an f-string field [{v}] shows. *)
Definition str (v : pyval) : string :=
  match v with
  | PStr s => s
  | _ => repr v
  end.

(** ** Exceptions *)

Inductive exn_class : Type :=
| KeyError | TypeError | IndexError | AttributeError | ValueError
| AssertionError | FileNotFoundError | OSError
| JSONDecodeError            (* a ValueError *)
| HTTPError                  (* httpx: transport errors and timeouts *)
| HTTPStatusError            (* httpx: raise_for_status *)
| FastMCPError
| RuntimeError               (* any other subclass of Exception *)
| CancelledError             (* BaseException, not an Exception *)
| KeyboardInterrupt.         (* BaseException, not an Exception *)

Record exn : Type := Exn { exn_cls : exn_class; exn_msg : string }.

(** [isinstance(e, Exception)] *)
Definition is_Exception (e : exn) : bool :=
  match exn_cls e with
  | CancelledError | KeyboardInterrupt => false
  | _ => true
  end.

Inductive result (A : Type) : Type :=
| Ok (a : A)
| Raise (e : exn).
Arguments Ok {A} a.
Arguments Raise {A} e.

Definition and_then {A B : Type} (r : result A) (k : A -> result B) : result B :=
  match r with
  | Ok a => k a
  | Raise e => Raise e
  end.

Definition type_name (v : pyval) : string :=
  match v with
  | PNone => "NoneType" | PBool _ => "bool" | PInt _ => "int"
  | PFloat _ => "float" | PStr _ => "str" | PList _ => "list"
  | PDict _ => "dict"
  end.

(** [v[key]] with a string key. *)
Definition getitem (v : pyval) (key : string) : result pyval :=
  match v with
  | PDict d =>
      match dict_get d key with
      | Some x => Ok x
      | None => Raise (Exn KeyError (repr_str key))
      end
  | PStr _ => Raise (Exn TypeError "string indices must be integers")
  | PList _ => Raise (Exn TypeError "list indices must be integers or slices, not str")
  | _ => Raise (Exn TypeError (sq ++ type_name v ++ sq ++ " object is not subscriptable"))
  end.

(** [v[i]] with an index [i >= 0]; the keys of a dict are strings here, so
    an integer is never one of them. *)
Definition getitem_int (v : pyval) (i : nat) : result pyval :=
  match v with
  | PList l =>
      match nth_error l i with
      | Some x => Ok x
      | None => Raise (Exn IndexError "list index out of range")
      end
  | PStr s =>
      match String.get i s with
      | Some c => Ok (PStr (String c EmptyString))
      | None => Raise (Exn IndexError "string index out of range")
      end
  | PDict _ => Raise (Exn KeyError (int_str (Z.of_nat i)))
  | _ => Raise (Exn TypeError (sq ++ type_name v ++ sq ++ " object is not subscriptable"))
  end.

(** [v.get(key, default)] *)
Definition get_method (v : pyval) (key : string) (default : pyval) : result pyval :=
  match v with
  | PDict d =>
      match dict_get d key with
      | Some x => Ok x
      | None => Ok default
      end
  | _ => Raise (Exn AttributeError
                  (sq ++ type_name v ++ sq ++ " object has no attribute 'get'"))
  end.

(** [key in v] with a string key. *)
Definition contains (key : string) (v : pyval) : result bool :=
  match v with
  | PDict d => Ok (has_key d key)
  | PList l =>
      Ok (existsb (fun x => match x with PStr s => String.eqb s key | _ => false end) l)
  | PStr s => Ok (str_contains key s)
  | _ => Raise (Exn TypeError
                  ("argument of type " ++ sq ++ type_name v ++ sq ++ " is not iterable"))
  end.

Fixpoint chars (s : string) : list pyval :=
  match s with
  | EmptyString => []
  | String c rest => PStr (String c EmptyString) :: chars rest
  end.

(** The items a [for] loop over [v] visits. *)
Definition iter (v : pyval) : result (list pyval) :=
  match v with
  | PList l => Ok l
  | PDict d => Ok (map (fun kv => PStr (fst kv)) d)
  | PStr s => Ok (chars s)
  | _ => Raise (Exn TypeError (sq ++ type_name v ++ sq ++ " object is not iterable"))
  end.

(** [v[:n]] *)
Definition slice_to (v : pyval) (n : nat) : result pyval :=
  match v with
  | PList l => Ok (PList (firstn n l))
  | PStr s => Ok (PStr (String.substring 0 (Nat.min n (String.length s)) s))
  | PDict _ => Raise (Exn TypeError "unhashable type: 'slice'")
  | _ => Raise (Exn TypeError (sq ++ type_name v ++ sq ++ " object is not subscriptable"))
  end.

End Py.
Import Py.

Declare Scope result_scope.
Delimit Scope result_scope with result.
Notation "x <~ r ;; k" := (and_then r (fun x => k))
  (at level 61, r at next level, right associativity) : result_scope.
Open Scope result_scope.

(* ===================================================================== *)
(** * Calls to the outside, recorded in a trace                           *)
(* ===================================================================== *)

Module Eff.

(** A computation reads the trace so far and returns a result and the
    extended trace.  The trace is kept when an exception is raised. *)
Definition M (E A : Type) : Type := list E -> result A * list E.

Definition ret {E A} (a : A) : M E A := fun t => (Ok a, t).

Definition raise {E A} (e : exn) : M E A := fun t => (Raise e, t).

Definition lift {E A} (r : result A) : M E A := fun t => (r, t).

Definition bind {E A B} (m : M E A) (k : A -> M E B) : M E B :=
  fun t =>
    match m t with
    | (Ok a, t') => k a t'
    | (Raise e, t') => (Raise e, t')
    end.

(** A call to the outside: the oracle answers from the history, and the
    call is recorded whatever the answer. *)
Definition call {E A} (ev : E) (oracle : list E -> result A) : M E A :=
  fun t => (oracle t, (t ++ [ev])%list).

(** [try: m  except <caught>: h] *)
Definition try_except {E A} (m : M E A) (caught : exn -> bool) (h : M E A) : M E A :=
  fun t =>
    match m t with
    | (Raise e, t') => if caught e then h t' else (Raise e, t')
    | r => r
    end.

Fixpoint mapM {E A B} (f : A -> M E B) (l : list A) : M E (list B) :=
  match l with
  | [] => ret []
  | a :: rest =>
      bind (f a) (fun b => bind (mapM f rest) (fun bs => ret (b :: bs)))
  end.

End Eff.
Import Eff.

Declare Scope eff_scope.
Delimit Scope eff_scope with eff.
Notation "x <- m ;; k" := (bind m (fun x => k))
(at level 61, m at next level, right associativity) : eff_scope.
Notation "m ;;; k" := (bind m (fun _ => k))
(at level 61, right associativity) : eff_scope.
Open Scope eff_scope.

(* ===================================================================== *)
(** * [json.loads]                                                        *)
(* ===================================================================== *)

(** The standard library's JSON decoder, as the blog client uses it on an
    LLM reply: a recursive-descent parser over the text.  Scope of the
    model: a number with a fraction or an exponent is carried by its
    literal; a [\u] escape is decoded to UTF-8 when it is not a surrogate
    half, and a surrogate half, which Python accepts, is not decoded. *)
Module Json.

Definition is_ws (c : ascii) : bool :=
  Ascii.eqb c " "%char || Ascii.eqb c "009"%char
  || Ascii.eqb c "010"%char || Ascii.eqb c "013"%char.

Fixpoint skip_ws (s : string) : string :=
  match s with
  | String c rest => if is_ws c then skip_ws rest else s
  | EmptyString => s
  end.

Definition is_digit (c : ascii) : bool :=
  let n := nat_of_ascii c in (48 <=? n)%nat && (n <=? 57)%nat.

Definition hex_value (c : ascii) : option N :=
  let n := N_of_ascii c in
  if (48 <=? n)%N && (n <=? 57)%N then Some (n - 48)%N
  else if (65 <=? n)%N && (n <=? 70)%N then Some (n - 55)%N
  else if (97 <=? n)%N && (n <=? 102)%N then Some (n - 87)%N
  else None.

Definition hex4 (a b c d : ascii) : option N :=
  match hex_value a, hex_value b, hex_value c, hex_value d with
  | Some x, Some y, Some z, Some w => Some (((x * 16 + y) * 16 + z) * 16 + w)%N
  | _, _, _, _ => None
  end.

(** The UTF-8 bytes of a code point below 65536 that is not a surrogate. *)
Definition utf8 (code : N) : option string :=
  if (code <? 128)%N then Some (String (ascii_of_N code) EmptyString)
  else if (code <? 2048)%N then
    Some (String (ascii_of_N (192 + code / 64))
            (String (ascii_of_N (128 + code mod 64)) EmptyString))
  else if (55296 <=? code)%N && (code <=? 57343)%N then None
  else
    Some (String (ascii_of_N (224 + code / 4096))
            (String (ascii_of_N (128 + (code / 64) mod 64))
               (String (ascii_of_N (128 + code mod 64)) EmptyString))).

Definition unescape (c : ascii) : option ascii :=
  if Ascii.eqb c "034"%char then Some "034"%char
  else if Ascii.eqb c "092"%char then Some "092"%char
  else if Ascii.eqb c "/"%char then Some "/"%char
  else if Ascii.eqb c "b"%char then Some "008"%char
  else if Ascii.eqb c "f"%char then Some "012"%char
  else if Ascii.eqb c "n"%char then Some "010"%char
  else if Ascii.eqb c "r"%char then Some "013"%char
  else if Ascii.eqb c "t"%char then Some "009"%char
  else None.

Definition prepend (p : string) (r : option (string * string)) : option (string * string) :=
  match r with
  | Some (body, rest) => Some (p ++ body, rest)
  | None => None
  end.

(** The text of a string after its opening quote: the decoded string and
    what follows the closing quote.  Control characters are refused. *)
Fixpoint scan_string (s : string) : option (string * string) :=
  match s with
  | EmptyString => None
  | String c rest =>
      if Ascii.eqb c "034"%char then Some (EmptyString, rest)
      else if Ascii.eqb c "092"%char then
        match rest with
        | String e rest' =>
            if Ascii.eqb e "u"%char then
              match rest' with
              | String h1 (String h2 (String h3 (String h4 r))) =>
                  match hex4 h1 h2 h3 h4 with
                  | Some code =>
                      match utf8 code with
                      | Some bytes => prepend bytes (scan_string r)
                      | None => None
                      end
                  | None => None
                  end
              | _ => None
              end
            else
              match unescape e with
              | Some ch => prepend (String ch EmptyString) (scan_string rest')
              | None => None
              end
        | EmptyString => None
        end
      else if (nat_of_ascii c <? 32)%nat then None
      else prepend (String c EmptyString) (scan_string rest)
  end.

Fixpoint take_digits (s : string) : string * string :=
  match s with
  | String c rest =>
      if is_digit c then let (ds, r) := take_digits rest in (String c ds, r)
      else (EmptyString, s)
  | EmptyString => (EmptyString, s)
  end.

Fixpoint digits_value (s : string) (acc : Z) : Z :=
  match s with
  | String c rest => digits_value rest (acc * 10 + Z.of_nat (nat_of_ascii c - 48))
  | EmptyString => acc
  end.

(** A number at the start of [s]: an optional minus sign, then 0 or a run
    of digits that does not start with 0, then an optional fraction (a dot
    and digits) and an optional exponent (e or E, an optional sign and
    digits). *)
Definition scan_number (s : string) : option (pyval * string) :=
  let '(sign, s1) :=
    match s with
    | String "-"%char r => ("-", r)
    | _ => (EmptyString, s)
    end in
  let int_part :=
    match s1 with
    | String c r =>
        if Ascii.eqb c "0"%char then Some ("0", r)
        else if is_digit c then Some (take_digits s1)
        else None
    | EmptyString => None
    end in
  match int_part with
  | None => None
  | Some (ds, r1) =>
      let '(frac, r2) :=
        match r1 with
        | String "."%char r =>
            let (fd, r') := take_digits r in
            match fd with
            | EmptyString => (EmptyString, r1)
            | _ => ("." ++ fd, r')
            end
        | _ => (EmptyString, r1)
        end in
      let '(exp, r3) :=
        match r2 with
        | String e r =>
            if Ascii.eqb e "e"%char || Ascii.eqb e "E"%char then
              let '(sg, r') :=
                match r with
                | String "+"%char x => ("+", x)
                | String "-"%char x => ("-", x)
                | _ => (EmptyString, r)
                end in
              let (ed, r'') := take_digits r' in
              match ed with
              | EmptyString => (EmptyString, r2)
              | _ => (String e (sg ++ ed), r'')
              end
            else (EmptyString, r2)
        | EmptyString => (EmptyString, r2)
        end in
      match frac, exp with
      | EmptyString, EmptyString =>
          let n := digits_value ds 0 in
          Some (PInt (match sign with EmptyString => n | _ => - n end)%Z, r3)
      | _, _ => Some (PFloat (sign ++ ds ++ frac ++ exp), r3)
      end
  end.

Fixpoint drop (n : nat) (s : string) : string :=
  match n, s with
  | S k, String _ rest => drop k rest
  | _, _ => s
  end.

Definition scan_literal (s : string) : option (pyval * string) :=
  if String.prefix "null" s then Some (PNone, drop 4 s)
  else if String.prefix "true" s then Some (PBool true, drop 4 s)
  else if String.prefix "false" s then Some (PBool false, drop 5 s)
  else
    match scan_number s with
    | Some r => Some r
    | None =>
        if String.prefix "NaN" s then Some (PFloat "nan", drop 3 s)
        else if String.prefix "Infinity" s then Some (PFloat "inf", drop 8 s)
        else if String.prefix "-Infinity" s then Some (PFloat "-inf", drop 9 s)
        else None
    end.

(** One JSON value at the start of [s].  Two levels of the recursion
    consume at least one character, which bounds the fuel that is needed. *)
Fixpoint value (fuel : nat) (s : string) : option (pyval * string) :=
  match fuel with
  | O => None
  | S fuel =>
      match s with
      | EmptyString => None
      | String c rest =>
          if Ascii.eqb c "034"%char then
            match scan_string rest with
            | Some (str, r) => Some (PStr str, r)
            | None => None
            end
          else if Ascii.eqb c "{"%char then
            match skip_ws rest with
            | String "}"%char r => Some (PDict [], r)
            | r => members fuel r []
            end
          else if Ascii.eqb c "["%char then
            match skip_ws rest with
            | String "]"%char r => Some (PList [], r)
            | r => elements fuel r []
            end
          else scan_literal s
      end
  end
with elements (fuel : nat) (s : string) (acc : list pyval) : option (pyval * string) :=
  match fuel with
  | O => None
  | S fuel =>
      match value fuel s with
      | Some (v, r) =>
          match skip_ws r with
          | String ","%char r' => elements fuel (skip_ws r') (acc ++ [v])%list
          | String "]"%char r' => Some (PList (acc ++ [v])%list, r')
          | _ => None
          end
      | None => None
      end
  end
with members (fuel : nat) (s : string) (acc : dict) : option (pyval * string) :=
  match fuel with
  | O => None
  | S fuel =>
      match s with
      | String "034"%char r =>
          match scan_string r with
          | Some (key, r1) =>
              match skip_ws r1 with
              | String ":"%char r2 =>
                  match value fuel (skip_ws r2) with
                  | Some (v, r3) =>
                      match skip_ws r3 with
                      | String ","%char r4 =>
                          members fuel (skip_ws r4) (dict_set acc key v)
                      | String "}"%char r4 => Some (PDict (dict_set acc key v), r4)
                      | _ => None
                      end
                  | None => None
                  end
              | _ => None
              end
          | None => None
          end
      | _ => None
      end
  end.

(** [json.loads(s)]; the position that ends Python's message is left out.
    Python's limits on the digits of an integer and on the depth of
    nesting are not modelled. *)
Definition loads (s : string) : result pyval :=
  match value (2 * String.length s + 2) (skip_ws s) with
  | Some (v, rest) =>
      match skip_ws rest with
      | EmptyString => Ok v
      | _ => Raise (Exn JSONDecodeError "Extra data")
      end
  | None => Raise (Exn JSONDecodeError "Expecting value")
  end.

End Json.

(* ===================================================================== *)
(** * HTTP requests through httpx                                         *)
(* ===================================================================== *)

Module Http.

(** What a GET request comes to.  The body of a response is given by what
    [response.json()] makes of it: [None] when it does not parse. *)
Inductive outcome : Type :=
| NetworkError (msg : string)
| Timeout
| Response (status : Z) (json : option pyval).

Definition response : Type := (Z * option pyval)%type.

Definition as_result (o : outcome) : result response :=
  match o with
  | NetworkError msg => Raise (Exn HTTPError msg)
  | Timeout => Raise (Exn HTTPError "timed out")
  | Response status json => Ok (status, json)
  end.

(** [response.raise_for_status()]: anything but 2xx raises. *)
Definition raise_for_status (r : response) : result unit :=
  if (200 <=? fst r)%Z && (fst r <=? 299)%Z then Ok tt
  else Raise (Exn HTTPStatusError ("status " ++ int_str (fst r))).

(** [response.json()] *)
Definition json (r : response) : result pyval :=
  match snd r with
  | Some v => Ok v
  | None => Raise (Exn JSONDecodeError "Expecting value")
  end.

End Http.

(* ===================================================================== *)
(** * mcp_servers/oauth_github_api_server.py                              *)
(* ===================================================================== *)

Module Weather.

Definition NWS_API_BASE : string := "https://api.weather.gov".
Definition USER_AGENT : string := "weather-app/1.0".

Inductive event : Type :=
| HttpGet (url : string) (headers : list (string * string)).

(** The network: the answer to a GET may depend on the requests so far. *)
Definition env : Type := list event -> string -> Http.outcome.

(** [client.get(url, headers=headers, timeout=30.0)]; httpx refuses a url
    that is not a string before any request is made. *)
Definition client_get (net : env) (url : pyval) (headers : list (string * string))
  : M event Http.response :=
  match url with
  | PStr u => call (HttpGet u headers) (fun t => Http.as_result (net t u))
  | _ => raise (Exn TypeError
                  ("Invalid type for url.  Expected str or httpx.URL, got "
                   ++ type_name url))
  end.

Definition nws_headers : list (string * string) :=
  [("User-Agent", USER_AGENT); ("Accept", "application/geo+json")].

Definition make_nws_request (net : env) (url : pyval) : M event pyval :=
  let headers := nws_headers in
  try_except
    (response <- client_get net url headers ;;
     lift (Http.raise_for_status response) ;;;
     lift (Http.json response))
    is_Exception
    (ret PNone).

Definition alert_text (event area severity description instruction : string) : string :=
  nl ++ "        Event: " ++ event
  ++ nl ++ "        Area: " ++ area
  ++ nl ++ "        Severity: " ++ severity
  ++ nl ++ "        Description: " ++ description
  ++ nl ++ "        Instructions: " ++ instruction
  ++ nl ++ "    ".

(** The fields of the f-string are looked up from left to right. *)
Definition format_alert (feature : pyval) : result string :=
  props <~ getitem feature "properties" ;;
  event <~ get_method props "event" (PStr "Unknown") ;;
  area <~ get_method props "areaDesc" (PStr "Unknown") ;;
  severity <~ get_method props "severity" (PStr "Unknown") ;;
  description <~ get_method props "description" (PStr "No description available") ;;
  instruction <~ get_method props "instruction" (PStr "No specific instructions provided") ;;
  Ok (alert_text (str event) (str area) (str severity) (str description) (str instruction)).

Definition separator : string := nl ++ "---" ++ nl.

Definition alerts_url (state : string) : string :=
  NWS_API_BASE ++ "/alerts/active/area/" ++ state.

Definition get_alerts (net : env) (state : string) : M event string :=
  let url := alerts_url state in
  data <- make_nws_request net (PStr url) ;;
  absent <- (if negb (truthy data) then ret true
             else present <- lift (contains "features" data) ;; ret (negb present)) ;;
  if absent : bool then ret "Unable to fetch alerts or no alerts found."
  else
    features <- lift (getitem data "features") ;;
    if negb (truthy features) then ret "No active alerts for this state."
    else
      items <- lift (iter features) ;;
      alerts <- mapM (fun feature => lift (format_alert feature)) items ;;
      ret (join separator alerts).

(** The degree sign, U+00B0, in UTF-8. *)
Definition degree_sign : string :=
  String "194"%char (String "176"%char EmptyString).

(** What the source has between the temperature and its unit: the
    character U+00C2 and then the degree sign. *)
Definition degree : string :=
  String "195"%char (String "130"%char degree_sign).

Definition period_text (name temperature unit windSpeed windDirection detailed : string)
  : string :=
  nl ++ "            " ++ name ++ ":"
  ++ nl ++ "            Temperature: " ++ temperature ++ degree ++ unit
  ++ nl ++ "            Wind: " ++ windSpeed ++ " " ++ windDirection
  ++ nl ++ "            Forecast: " ++ detailed
  ++ nl ++ "            ".

(** The f-string of the loop body: the fields are looked up from left to
    right. *)
Definition format_period (period : pyval) : result string :=
  name <~ getitem period "name" ;;
  temperature <~ getitem period "temperature" ;;
  unit <~ getitem period "temperatureUnit" ;;
  windSpeed <~ getitem period "windSpeed" ;;
  windDirection <~ getitem period "windDirection" ;;
  detailed <~ getitem period "detailedForecast" ;;
  Ok (period_text (str name) (str temperature) (str unit)
        (str windSpeed) (str windDirection) (str detailed)).

Definition points_url (latitude longitude : pyval) : string :=
  NWS_API_BASE ++ "/points/" ++ str latitude ++ "," ++ str longitude.

Definition get_forecast (net : env) (latitude longitude : pyval) : M event string :=
  let points_url := points_url latitude longitude in
  points_data <- make_nws_request net (PStr points_url) ;;
  if negb (truthy points_data) then ret "Unable to fetch forecast data for this location."
  else
    properties <- lift (getitem points_data "properties") ;;
    forecast_url <- lift (getitem properties "forecast") ;;
    forecast_data <- make_nws_request net forecast_url ;;
    if negb (truthy forecast_data) then ret "Unable to fetch detailed forecast."
    else
      properties' <- lift (getitem forecast_data "properties") ;;
      periods <- lift (getitem properties' "periods") ;;
      shown <- lift (slice_to periods 5) ;;
      items <- lift (iter shown) ;;
      forecasts <- mapM (fun period => lift (format_period period)) items ;;
      ret (join separator forecasts).

End Weather.

(* ===================================================================== *)
(** * mcp_servers/io_api_sampling_server.py                               *)
(* ===================================================================== *)

Module SpaceNews.

Definition API_BASE : string := "https://api.spaceflightnewsapi.net/v4/articles/".

Inductive event : Type :=
| HttpGet (url : string) (headers : list (string * string))
| Sample (prompt : string).

(** The world around one tool call: today's date in ISO format, the news
    API, and the sampling capability of the connected client. *)
Record env : Type := {
  today : string;
  http : list event -> string -> Http.outcome;
  sample : list event -> string -> result pyval
}.

Definition news_headers : list (string * string) := [("Accept", "application/json")].

Definition news_endpoint (date : string) : string :=
  API_BASE ++ "?published_at_gte=" ++ date.

(** [(res['title'], res['summary'])] *)
Definition title_and_summary (res : pyval) : result (pyval * pyval) :=
  title <~ getitem res "title" ;;
  summary <~ getitem res "summary" ;;
  Ok (title, summary).

Definition get_spaceflight_news_date (w : env) (date : string)
  : M event (option (list (pyval * pyval))) :=
  let headers := news_headers in
  let endpoint := news_endpoint date in
  try_except
    (response <- call (HttpGet endpoint headers)
                   (fun t => Http.as_result (http w t endpoint)) ;;
     lift (Http.raise_for_status response) ;;;
     body <- lift (Http.json response) ;;
     results <- lift (getitem body "results") ;;
     items <- lift (iter results) ;;
     news_summaries <- mapM (fun res => lift (title_and_summary res)) items ;;
     ret (Some news_summaries))
    is_Exception
    (ret None).

Definition prompt_head : string :=
  join nl
    [ "Translate the title and the summary of each news entry into the language " ].

Definition prompt_body : string :=
  join nl
    [ " (ISO639 format).";
      "                ";
      "                The input format is a  json list of key-value pairs with " ++ dq
        ++ "title" ++ dq ++ " : " ++ dq ++ "News Title" ++ dq ++ " and " ++ dq ++ "summary"
        ++ dq ++ " : " ++ dq ++ "News Summary" ++ dq ++ ".";
      "                The expected return format must be a json list of key-value pairs with keys "
        ++ dq ++ "title" ++ dq ++ " and " ++ dq ++ "summary" ++ dq
        ++ ", and the values must be translated into the specified language";
      "            ";
      "                Example Language : DE";
      "                Example Input: ";
      "                    [";
      "                        {'title' : " ++ dq
        ++ "Live Coverage: SpaceX Falcon 9 to make another attempt to launch Amazon Project Kuiper mission"
        ++ dq ++ ",";
      "                        'summary' : " ++ dq
        ++ "Liftoff from Space Launch Complex 40 at Cape Canaveral Space Force Station in Florida is scheduled for 8:57 a.m. EDT (1257 UTC), after three earlier attempts were scrubbed."
        ++ dq ++ "}";
      "                    ]";
      "                Example Output:";
      "                    [";
      "                        {";
      "                        'title' : " ++ dq
        ++ "Live Übertragung: SpaceX Falcon 9 macht erneuten Cersuch für Amazon Projekt Kuiper Mission"
        ++ dq ++ ",";
      "                        'summary' : " ++ dq
        ++ "Start von Space Launch Complex 40 auf Cape Canaveral Space Force Station in Florida ist geplant für 8:57 a.m. EDT (1257 UTC), nachdem dre vorherige Termine abgesagt wurden."
        ++ dq ++ "}";
      "                    ]";
      "";
      "                Input News Data (json-format)";
      "                " ].

Definition prompt_tail : string :=
  join nl
    [ "";
      "            " ].

Definition translation_prompt (language : string) (news_out : list pyval) : string :=
  prompt_head ++ language ++ prompt_body ++ str (PList news_out) ++ prompt_tail.

Definition reformat (news_today : list (pyval * pyval)) : list pyval :=
  map (fun news => PDict [("title", fst news); ("summary", snd news)]) news_today.

Definition get_todays_spacenews (w : env) (language : string) : M event pyval :=
  let date := today w in
  news_today <- get_spaceflight_news_date w date ;;
  match news_today with
  | None | Some [] => raise (Exn FastMCPError "API Call Failed.")
  | Some news_today =>
      let news_out := reformat news_today in
      if negb (String.eqb language "EN") then
        let prompt := translation_prompt language news_out in
        try_except
          (call (Sample prompt) (fun t => sample w t prompt))
          (fun _ => true)
          (raise (Exn FastMCPError "Translation failed, LLM Sampling not available."))
      else ret (PList news_out)
  end.

End SpaceNews.

(* ===================================================================== *)
(** * mcp_servers/io_resource_server.py                                   *)
(* ===================================================================== *)

Module Sales.

(** ** pathlib, POSIX flavour *)

Record path : Type := { anchor : string; parts : list string }.

(** The components of a path text: split at every slash. *)
Fixpoint split_slash (s : string) (cur : string) : list string :=
  match s with
  | EmptyString => [cur]
  | String c rest =>
      if Ascii.eqb c "/"%char then cur :: split_slash rest EmptyString
      else split_slash rest (cur ++ String c EmptyString)
  end.

Definition keep_part (p : string) : bool :=
  negb (String.eqb p "") && negb (String.eqb p ".").

(** [Path(s)]: exactly two leading slashes are kept, any other number of
    them is one root; empty and dot components are dropped. *)
Definition Path (s : string) : path :=
  let root :=
    if String.prefix "///" s then "/"
    else if String.prefix "//" s then "//"
    else if String.prefix "/" s then "/"
    else EmptyString in
  {| anchor := root; parts := filter keep_part (split_slash s EmptyString) |}.

(** [a / b] *)
Definition joinpath (a b : path) : path :=
  match anchor b with
  | EmptyString => {| anchor := anchor a; parts := (parts a ++ parts b)%list |}
  | _ => b
  end.

(** [p.as_posix()], which is [str(p)] here. *)
Definition as_posix (p : path) : string :=
  match anchor p, parts p with
  | EmptyString, [] => "."
  | root, ps => root ++ join "/" ps
  end.

(** ** The server *)

(** The directory of the server script, the files that exist, and what
    pandas reads from a CSV file as records ([read_csv] followed by
    [to_dict(orient='records')]). *)
Record env : Type := {
  base_path : path;
  isfile : string -> bool;
  read_csv_records : string -> result (list pyval)
}.

Definition sales_base_path (w : env) : path :=
  joinpath (base_path w) (Path "data/sales_data").

Definition not_found_message (month : string) (year : Z) (file : path) : string :=
  "Sales data for " ++ month ++ " " ++ int_str year ++ " not found at "
  ++ as_posix file ++ ". Month must be written, month must be numeric".

Definition get_sales (w : env) (year : Z) (month : string) : result (list pyval) :=
  let month := lower month in
  let sales_csv_file :=
    joinpath (sales_base_path w) (Path (month ++ "_" ++ int_str year ++ ".csv")) in
  if isfile w (as_posix sales_csv_file) then
    read_csv_records w (as_posix sales_csv_file)
  else
    Raise (Exn FileNotFoundError (not_found_message month year sales_csv_file)).

End Sales.

(* ===================================================================== *)
(** * mcp_clients/io_prompt_client_bedrock.py                             *)
(* ===================================================================== *)

Module BlogClient.

Definition BEDROCK_MODEL_ID : string := "us.deepseek.r1-v1:0".

Inductive event : Type :=
| Connect
| Disconnect
| Ping
| ListPrompts
| Print (line : string)
| GetPrompt (name : string) (arguments : dict)
| Converse (modelId : string) (messages : list pyval).

(** The file system, the MCP prompt server behind [self.client] and the
    Bedrock model.  A prompt is given by the text an f-string shows for
    it; the answers of the server and of the model may depend on the
    calls made so far. *)
Record env : Type := {
  isfile : string -> bool;
  read_file : string -> result string;
  connect : list event -> result unit;
  ping : list event -> result unit;
  list_prompts : list event -> result (list string);
  get_prompt : list event -> string -> dict -> result string;
  converse : list event -> string -> list pyval -> result pyval
}.

(** The single user message every step sends. *)
Definition user_message (prompt : string) : pyval :=
  PDict [("role", PStr "user");
         ("content",
          PList [PDict [("text",
                         PStr (nl ++ "                " ++ prompt
                               ++ nl ++ "            "))]])].

(** [res['output']['message']['content'][0]['text']] *)
Definition reply_text (res : pyval) : result pyval :=
  output <~ getitem res "output" ;;
  message <~ getitem output "message" ;;
  content <~ getitem message "content" ;;
  first <~ getitem_int content 0 ;;
  getitem first "text".

(** The body the four [run_*_prompt] methods share: fetch the prompt,
    send it as one user message, take the text of the reply. *)
Definition prompt_round_trip (w : env) (name : string) (arguments : dict)
  : M event pyval :=
  prompt <- call (GetPrompt name arguments) (fun t => get_prompt w t name arguments) ;;
  let messages := [user_message prompt] in
  res <- call (Converse BEDROCK_MODEL_ID messages)
           (fun t => converse w t BEDROCK_MODEL_ID messages) ;;
  lift (reply_text res).

(** [text.replace(old, new)] on a value that need not be a string. *)
Definition replace_method (v : pyval) (old new : string) : result string :=
  match v with
  | PStr s => Ok (replace s old new)
  | _ => Raise (Exn AttributeError
                  (sq ++ type_name v ++ sq ++ " object has no attribute 'replace'"))
  end.

Definition strip_fences (keywords_json : pyval) : result string :=
  without_open <~ replace_method keywords_json "```json" "" ;;
  Ok (replace without_open "```" "").

(** The [try] block of [run_keyword_prompt] and its handler. *)
Definition load_keywords (keywords_json : pyval) : result pyval :=
  match (stripped <~ strip_fences keywords_json ;; Json.loads stripped) with
  | Ok keywords => Ok keywords
  | Raise e =>
      if is_Exception e then Raise (Exn ValueError "Error Loading Keyword Response")
      else Raise e
  end.

Definition run_keyword_prompt (w : env) (code : string) : M event pyval :=
  keywords_json <- prompt_round_trip w "Get Keywords From Code" [("code", PStr code)] ;;
  lift (load_keywords keywords_json).

Definition run_intro_prompt (w : env) (keywords : pyval) : M event pyval :=
  prompt_round_trip w "Get Intro From Keywords" [("keywords", keywords)].

Definition run_main_prompt (w : env) (keywords : pyval) (code : string) : M event pyval :=
  prompt_round_trip w "Get Main Section From Code"
    [("keywords", keywords); ("code", PStr code)].

Definition run_aggregate_prompt (w : env) (intro main outlook : pyval) : M event pyval :=
  prompt_round_trip w "Aggregate Blog Sections"
    [("intro", intro); ("main", main); ("outlook", outlook)].

Definition outlook_text : string :=
  join nl
    [ "";
      "            If you want to learn more about MCP, or have questions on individual blog posts, visit www.evo-byte.com";
      "            " ].

Definition print (line : string) : M event unit :=
  call (Print line) (fun _ => Ok tt).

(** [async with self.client: body]: the connection is released on every
    way out of the body. *)
Definition with_client {A : Type} (w : env) (body : M event A) : M event A :=
  call Connect (connect w) ;;;
  (fun t => let (r, t') := body t in (r, (t' ++ [Disconnect])%list)).

(** The literal list the intro and the main step are called with. *)
Definition fixed_keywords : pyval := PList [PStr "MCP"; PStr "FastMCP"; PStr "Prompts"].

Definition run (w : env) (code_file : string) : M event pyval :=
  if negb (isfile w code_file) then raise (Exn AssertionError "")
  else
    code <- lift (read_file w code_file) ;;
    with_client w
      (call Ping (ping w) ;;;
       prompts <- call ListPrompts (list_prompts w) ;;
       print "Available Prompts:" ;;;
       print ("Total Prompts: " ++ int_str (Z.of_nat (List.length prompts))) ;;;
       mapM (fun name => print ("- " ++ name)) prompts ;;;
       keywords <- run_keyword_prompt w code ;;
       intro <- run_intro_prompt w fixed_keywords ;;
       main_part <- run_main_prompt w fixed_keywords code ;;
       blogpost <- run_aggregate_prompt w intro main_part (PStr outlook_text) ;;
       ret blogpost).

End BlogClient.

(* ===================================================================== *)
(** * mcp_clients/io_tools_client_bedrock.py and
      mcp_clients/oauth_github_tools_client_bedrock.py                    *)
(* ===================================================================== *)

Module ToolClient.

Definition BEDROCK_MODEL_ID : string := "amazon.nova-lite-v1:0".

Record tool : Type := {
  name : string;
  description : pyval;
  inputSchema : pyval
}.

(** An item of a tool result: only a text item has a [text]. *)
Inductive content_item : Type :=
| TextContent (text : string)
| OtherContent (type : string).

Inductive event : Type :=
| ListTools
| CallTool (tool_name tool_args : pyval)
| Converse (modelId : string) (messages : list pyval) (system toolConfig : pyval).

Record env : Type := {
  list_tools : list event -> result (list tool);
  call_tool : list event -> pyval -> pyval -> result (list content_item);
  converse : list event -> string -> list pyval -> pyval -> pyval -> result pyval
}.

Definition system_prompt_local : string :=
  join nl
    [ "";
      "                           You are an app that returns information on the weather in the US. ";
      "                           If queries are not related to wheather return the message "
        ++ dq ++ "I am just a simple weather app :( ).";
      "                           When using tools, infer required arguments from user inputs and do not ask user again"
        ++ dq ++ ".";
      "                           " ].
Definition system_prompt_oauth : string :=
  join nl
    [ "";
      "                        You are an app that returns information on the weather in the US. ";
      "                        If queries are not related to wheather return the message "
        ++ dq ++ "I am just a simple weather app :( ).";
      "                        When using tools, infer required arguments from user inputs and do not ask user again"
        ++ dq ++ ".";
      "                        " ].
(** An entry of [messages].  The assistant message holds the list object
    [assistant_message_content] itself, which later iterations extend, so
    it is kept as a reference and read when a request is sent. *)
Inductive message : Type :=
| Message (role : string) (content : list pyval)
| AssistantMessage.

Definition resolve (assistant_message_content : list pyval) (m : message) : pyval :=
  match m with
  | Message role content => PDict [("role", PStr role); ("content", PList content)]
  | AssistantMessage =>
      PDict [("role", PStr "assistant"); ("content", PList assistant_message_content)]
  end.

Definition tools_spec (t : tool) : pyval :=
  PDict [("toolSpec",
          PDict [("name", PStr (name t));
                 ("description", description t);
                 ("inputSchema", PDict [("json", inputSchema t)])])].

Definition tool_config (tools : list tool) : pyval :=
  PDict [("tools", PList (map tools_spec tools))].

(** The local variables the loop over the content blocks updates. *)
Record locals : Type := {
  final_text : list pyval;
  assistant_message_content : list pyval;
  messages : list message
}.

(** [response['output']['message']['content']] *)
Definition response_content (response : pyval) : result pyval :=
  output <~ getitem response "output" ;;
  message <~ getitem output "message" ;;
  getitem message "content".

(** [response['output']['message']['content'][0]['text']] *)
Definition first_text (response : pyval) : result pyval :=
  content <~ response_content response ;;
  first <~ getitem_int content 0 ;;
  getitem first "text".

Definition tool_result_content (items : list content_item) : list pyval :=
  flat_map (fun res => match res with
                       | TextContent text => [PDict [("text", PStr text)]]
                       | OtherContent _ => []
                       end) items.

Definition calling_line (tool_name tool_args : pyval) : string :=
  "[Calling tool " ++ str tool_name ++ " with args " ++ str tool_args ++ "]".

Definition send (w : env) (system config : pyval) (st : locals) : M event pyval :=
  let sent := map (resolve (assistant_message_content st)) (messages st) in
  call (Converse BEDROCK_MODEL_ID sent system config)
    (fun t => converse w t BEDROCK_MODEL_ID sent system config).

(** One iteration of the loop over the content blocks of the first reply. *)
Definition handle_content (w : env) (system config : pyval) (st : locals) (content : pyval)
  : M event locals :=
  has_text <- lift (contains "text" content) ;;
  st1 <- (if has_text : bool then
            text <- lift (getitem content "text") ;;
            ret {| final_text := (final_text st ++ [text])%list;
                   assistant_message_content :=
                     (assistant_message_content st ++ [content])%list;
                   messages := messages st |}
          else ret st) ;;
  has_tool <- lift (contains "toolUse" content) ;;
  if has_tool : bool then
    tool_name <- lift (u <~ getitem content "toolUse" ;; getitem u "name") ;;
    tool_args <- lift (u <~ getitem content "toolUse" ;; getitem u "input") ;;
    tool_use_id <- lift (u <~ getitem content "toolUse" ;; getitem u "toolUseId") ;;
    tool_result <- call (CallTool tool_name tool_args)
                     (fun t => call_tool w t tool_name tool_args) ;;
    let st2 :=
      {| final_text := (final_text st1 ++ [PStr (calling_line tool_name tool_args)])%list;
         assistant_message_content := (assistant_message_content st1 ++ [content])%list;
         messages :=
           (messages st1
            ++ [AssistantMessage;
                Message "user"
                  [PDict [("toolResult",
                           PDict [("toolUseId", tool_use_id);
                                  ("content",
                                   PList (tool_result_content tool_result))])]]])%list |} in
    response <- send w system config st2 ;;
    text <- lift (first_text response) ;;
    ret {| final_text := (final_text st2 ++ [text])%list;
           assistant_message_content := assistant_message_content st2;
           messages := messages st2 |}
  else ret st1.

Fixpoint handle_contents (w : env) (system config : pyval) (st : locals)
  (contents : list pyval) : M event locals :=
  match contents with
  | [] => ret st
  | content :: rest =>
      st' <- handle_content w system config st content ;;
      handle_contents w system config st' rest
  end.

(** [sep.join(items)]: every item has to be a string. *)
Fixpoint strings_of (items : list pyval) : option (list string) :=
  match items with
  | [] => Some []
  | PStr s :: rest => option_map (cons s) (strings_of rest)
  | _ :: _ => None
  end.

Definition join_values (sep : string) (items : list pyval) : result string :=
  match strings_of items with
  | Some l => Ok (join sep l)
  | None => Raise (Exn TypeError "sequence item: expected str instance")
  end.

(** [process_query], with the text of the system prompt left open: the two
    clients differ in its indentation only. *)
Definition process_query_with (system_text : string) (w : env) (query : string)
  : M event string :=
  let start :=
    {| final_text := [];
       assistant_message_content := [];
       messages := [Message "user" [PDict [("text", PStr query)]]] |} in
  let system_prompts := PList [PDict [("text", PStr system_text)]] in
  tools <- call ListTools (list_tools w) ;;
  let config := tool_config tools in
  response <- send w system_prompts config start ;;
  content <- lift (response_content response) ;;
  contents <- lift (iter content) ;;
  st <- handle_contents w system_prompts config start contents ;;
  lift (join_values nl (final_text st)).

(** io_tools_client_bedrock.py *)
Definition process_query : env -> string -> M event string :=
  process_query_with system_prompt_local.

End ToolClient.

Module OAuthToolClient.

(** oauth_github_tools_client_bedrock.py *)
Definition process_query : ToolClient.env -> string -> M ToolClient.event string :=
  ToolClient.process_query_with ToolClient.system_prompt_oauth.

End OAuthToolClient.


(* ===================================================================== *)
(** * mcp_servers/io_prompt_server.py                                     *)
(* ===================================================================== *)

(** The template of the prompt [Get Keywords From Code], an f-string
    around the code. *)
Module PromptServer.

(** The example the template shows for the answer. *)
Definition keywords_example : string :=
  "{'keywords' : ['KeywordA', 'KeywordB']}".

Definition keywords_head : string :=
  join nl
    [ "";
      "        ROLE";
      "        You are a helpful developer or code analyst.";
      "        ";
      "        TASK";
      "        The task is to analyse the input code and extract the technologies used in the code.";
      "        Define the technologies used in the code in 5 keywords. Focus on frameworks used, for instance Python libraries and";
      "        relevent protocols. Do not return basics of programming such as programming languages or core elements of a programming language standard library";
      "        ";
      "        OUTPUT";
      "        Return the keywords as STRICT JSON, with the key " ++ dq ++ "keywords" ++ dq
        ++ " and a list of keywords. Example: " ++ keywords_example;
      "        ";
      "        CODE";
      "        " ].

Definition template_end : string :=
  join nl
    [ "";
      "        " ].

Definition get_keywords_from_code (code : string) : string :=
  keywords_head ++ code ++ template_end.

End PromptServer.

(* ===================================================================== *)
(** * mcp_servers/oauth_github_api_server.py: the protected tool          *)
(* ===================================================================== *)

Module UserInfo.

(** [get_access_token()] gives the token of the request, or [None]; the
    token carries the claims of the GitHub user. *)
Definition get_user_info (token : option dict) : result pyval :=
  match token with
  | None => Raise (Exn AttributeError "'NoneType' object has no attribute 'claims'")
  | Some claims =>
      login <~ get_method (PDict claims) "login" PNone ;;
      name <~ get_method (PDict claims) "name" PNone ;;
      Ok (PDict [("github_user", login); ("name", name)])
  end.

End UserInfo.

(* ===================================================================== *)
(** * mcp_clients/io_resources_client_bedrock.py                          *)
(* ===================================================================== *)

Module ResourceClient.

Definition BEDROCK_MODEL_ID : string := "amazon.nova-lite-v1:0".

(** What [list_resources()] and [list_resource_templates()] return. *)
Record Resource : Type := {
  resource_name : string;
  resource_description : pyval;
  uri : string
}.

Record ResourceTemplate : Type := {
  template_name : string;
  template_description : pyval;
  uriTemplate : string
}.

(** The attributes [_get_resource] and the listing read of either. *)
Class Listed (A : Type) : Type := {
  name : A -> string;
  description : A -> pyval
}.

#[export] Instance Resource_Listed : Listed Resource :=
  {| name := resource_name; description := resource_description |}.

#[export] Instance ResourceTemplate_Listed : Listed ResourceTemplate :=
  {| name := template_name; description := template_description |}.

Inductive event : Type :=
| Connect
| Disconnect
| Ping
| ListResources
| ListResourceTemplates
| Print (line : string)
| ReadResource (address : string)
| Converse (modelId : string) (messages system : list pyval).

(** The MCP resource server behind [self.client] and the Bedrock model.
    What is read from a resource is given by the text an f-string shows
    for it.  [format_uri template year month] is
    [template.format(year = year, month = month)]. *)
Record env : Type := {
  connect : list event -> result unit;
  ping : list event -> result unit;
  list_resources : list event -> result (list Resource);
  list_resource_templates : list event -> result (list ResourceTemplate);
  read_resource : list event -> string -> result string;
  format_uri : string -> Z -> string -> result string;
  converse : list event -> string -> list pyval -> list pyval -> result pyval
}.

Definition not_found (resource_name : string) : exn :=
  Exn KeyError (repr_str ("Resource " ++ resource_name ++ " not found")).

(** The [for ... else]: the [else] branch is reached when the loop ends
    without [return]. *)
Fixpoint _get_resource {A : Type} `{Listed A} (resources : list A) (resource_name : string)
  : result A :=
  match resources with
  | [] => Raise (not_found resource_name)
  | resource :: rest =>
      if (resource_name =? name resource)%string then Ok resource
      else _get_resource rest resource_name
  end.

Definition system_text (readme_content : string) : string :=
  join nl
    [ "";
      "                You are a smart assistant that analyzes monthly sales data.";
      "                ";
      "                More Information in the MCP Resources:";
      "                ";
      "                " ]
  ++ readme_content
  ++ join nl
       [ "";
         "                " ].

Definition user_text (query month_sales : string) : string :=
  join nl
    [ "";
      "                    " ]
  ++ query
  ++ join nl
       [ "";
         "";
         "                    Sales Data:";
         "                    " ]
  ++ month_sales
  ++ join nl
       [ "";
         "                " ].

(** [response['output']['message']['content'][0]['text']] *)
Definition model_response (response : pyval) : result pyval :=
  output <~ getitem response "output" ;;
  message <~ getitem output "message" ;;
  content <~ getitem message "content" ;;
  first <~ getitem_int content 0 ;;
  getitem first "text".

Definition print (line : string) : M event unit :=
  call (Print line) (fun _ => Ok tt).

Definition listing {A : Type} `{Listed A} (entries : list A) : M event (list unit) :=
  mapM (fun entry => print ("- " ++ name entry ++ ": " ++ str (description entry))) entries.

(** [async with self.client: body] *)
Definition with_client {A : Type} (w : env) (body : M event A) : M event A :=
  call Connect (connect w) ;;;
  (fun t => let (r, t') := body t in (r, (t' ++ [Disconnect])%list)).

(** The two ways [run] ends without an exception of the program's own:
    it returns the text of the model, or [sys.exit(1)] ends the process
    (the module imports [sys] when it is run as a script, which is the
    case modelled). *)
Inductive outcome : Type :=
| Answer (model_response : pyval)
| Exit (status : Z).

(** [try: month_sales = read_resource(uri)  except Exception as e: ...] *)
Definition read_sales (w : env) (resource_uri : string) : M event (string + Z) :=
  fun t =>
    match call (ReadResource resource_uri) (fun t => read_resource w t resource_uri) t with
    | (Ok month_sales, t') => (Ok (inl month_sales), t')
    | (Raise e, t') =>
        if is_Exception e
        then (print ("Error fetching sales data: " ++ exn_msg e) ;;; ret (inr 1%Z)) t'
        else (Raise e, t')
    end.

Definition run (w : env) (query : string) (reference_year : Z) (reference_month : string)
  : M event outcome :=
  with_client w
    (call Ping (ping w) ;;;
     resources <- call ListResources (list_resources w) ;;
     print "Available Resources:" ;;;
     listing resources ;;;
     resource_templates <- call ListResourceTemplates (list_resource_templates w) ;;
     print "Available Resources Templates" ;;;
     listing resource_templates ;;;
     readme_resource <- lift (_get_resource resources "README") ;;
     readme_content <- call (ReadResource (uri readme_resource))
                         (fun t => read_resource w t (uri readme_resource)) ;;
     let system_prompts := [PDict [("text", PStr (system_text readme_content))]] in
     sales_data_resource <- lift (_get_resource resource_templates "get_sales") ;;
     resource_uri <- lift (format_uri w (uriTemplate sales_data_resource)
                             reference_year reference_month) ;;
     fetched <- read_sales w resource_uri ;;
     match fetched with
     | inr status => ret (Exit status)
     | inl month_sales =>
         let messages :=
           [PDict [("role", PStr "user");
                   ("content", PList [PDict [("text", PStr (user_text query month_sales))]])]] in
         response <- call (Converse BEDROCK_MODEL_ID messages system_prompts)
                       (fun t => converse w t BEDROCK_MODEL_ID messages system_prompts) ;;
         text <- lift (model_response response) ;;
         ret (Answer text)
     end).

End ResourceClient.

(* ===================================================================== *)
(** * mcp_clients/io_prompt_client_bedrock.py: the entry point            *)
(* ===================================================================== *)

Module BlogMain.
Import BlogClient.

(** The process around the client: the two constructors [MCPClient.__init__]
    calls, which belong to boto3 and to FastMCP. *)
Record process : Type := {
  world : env;
  new_bedrock_client : result unit;
  new_client : string -> result unit
}.

Inductive outcome : Type :=
| Returned
| Exit (status : Z).

(** [sys.argv[i]] *)
Definition argv_item (argv : list string) (i : nat) : result string :=
  match nth_error argv i with
  | Some a => Ok a
  | None => Raise (Exn IndexError "list index out of range")
  end.

(** [MCPClient.__init__] *)
Definition MCPClient (p : process) (mcp_server_script : string) : M event unit :=
  lift (new_bedrock_client p) ;;;
  (if negb (isfile (world p) mcp_server_script)
   then raise (Exn AssertionError "MCP Server Script not Found")
   else lift (new_client p mcp_server_script)).

Definition usage : string :=
  "Usage: python io_resources_client_bedrock.py <path_to_server_script> <path_to_code_file>".

Definition main (p : process) (argv : list string) : M event outcome :=
  if (List.length argv <? 2)%nat then
    print usage ;;;
    ret (Exit 1)
  else
    print "Starting the MCP Client for EvoPromptServer" ;;;
    script <- lift (argv_item argv 1) ;;
    MCPClient p script ;;;
    code_file <- lift (argv_item argv 2) ;;
    blogpost <- run (world p) code_file ;;
    print (str blogpost) ;;;
    ret Returned.

End BlogMain.

(* ===================================================================== *)
(** * The chat loops of io_tools_client_bedrock.py and
      oauth_github_tools_client_bedrock.py                                *)
(* ===================================================================== *)

Module ChatLoop.

(** The console and the MCP session.  What [process_query] does is
    recorded as it is in [ToolClient], inside [Session]. *)
Inductive event : Type :=
| Print (text : string)
| Input (prompt : string)
| Connect (url : string)
| Disconnect
| Session (e : ToolClient.event).

(** [input] answers with the line read, without its line end; at the end
    of the input it raises [EOFError], an [Exception].  [user_info] is
    the [data] of the result of [call_tool("get_user_info")]. *)
Record env : Type := {
  session : ToolClient.env;
  input : list event -> result string;
  connect : list event -> result unit;
  user_info : list event -> result pyval
}.

Definition bytes (codes : list nat) : string :=
  fold_right (fun n s => String (ascii_of_nat n) s) EmptyString codes.

(** The characters [str.isspace] holds of, in UTF-8: U+0009 to U+000D,
    U+001C to U+0020, U+0085, U+00A0, U+1680, U+2000 to U+200A, U+2028,
    U+2029, U+202F, U+205F and U+3000. *)
Definition whitespace : list string :=
  map bytes
    [ [9]; [10]; [11]; [12]; [13]; [28]; [29]; [30]; [31]; [32];
      [194; 133]; [194; 160]; [225; 154; 128];
      [226; 128; 128]; [226; 128; 129]; [226; 128; 130]; [226; 128; 131];
      [226; 128; 132]; [226; 128; 133]; [226; 128; 134]; [226; 128; 135];
      [226; 128; 136]; [226; 128; 137]; [226; 128; 138];
      [226; 128; 168]; [226; 128; 169]; [226; 128; 175]; [226; 129; 159];
      [227; 128; 128] ]%nat.

Fixpoint drop_prefix (p s : string) : option string :=
  match p, s with
  | EmptyString, _ => Some s
  | String a p', String b s' => if Ascii.eqb a b then drop_prefix p' s' else None
  | String _ _, EmptyString => None
  end.

Fixpoint drop_any (prefixes : list string) (s : string) : option string :=
  match prefixes with
  | [] => None
  | p :: rest =>
      match drop_prefix p s with
      | Some s' => Some s'
      | None => drop_any rest s
      end
  end.

Fixpoint lstrip_of (prefixes : list string) (fuel : nat) (s : string) : string :=
  match fuel with
  | O => s
  | S fuel' =>
      match drop_any prefixes s with
      | Some s' => lstrip_of prefixes fuel' s'
      | None => s
      end
  end.

Fixpoint reverse (s : string) : string :=
  match s with
  | EmptyString => EmptyString
  | String c rest => reverse rest ++ String c EmptyString
  end.

Definition lstrip (s : string) : string :=
  lstrip_of whitespace (String.length s) s.

Definition rstrip (s : string) : string :=
  reverse (lstrip_of (map reverse whitespace) (String.length s) (reverse s)).

(** [s.strip()] *)
Definition strip (s : string) : string := rstrip (lstrip s).

Definition print (text : string) : M event unit :=
  call (Print text) (fun _ => Ok tt).

Definition session_events (t : list event) : list ToolClient.event :=
  flat_map (fun e => match e with Session x => [x] | _ => [] end) t.

(** A computation of the session, run where it stands in the program:
    the session sees its own history, and what it adds is recorded. *)
Definition in_session {A : Type} (m : M ToolClient.event A) : M event A :=
  fun t =>
    let past := session_events t in
    let (r, t') := m past in
    (r, (t ++ map Session (skipn (List.length past) t'))%list).

(** [try: body  except Exception as e: h] *)
Definition try_except_as {E A : Type} (m : M E A) (h : exn -> M E A) : M E A :=
  fun t =>
    match m t with
    | (Raise e, t') => if is_Exception e then h e t' else (Raise e, t')
    | r => r
    end.

(** How far the program has come when the turns allowed are used up. *)
Inductive progress : Type :=
| Finished
| Running.

(** One pass through the body of [while True]; [true] stands for [break].
    Lower-casing is the ASCII one: no other character lower-cases to a
    letter of [quit]. *)
Definition turn (process_query : string -> M ToolClient.event string) (w : env)
  : M event bool :=
  try_except_as
    (line <- call (Input (nl ++ "Query: ")) (input w) ;;
     let query := strip line in
     if (lower query =? "quit")%string then ret true
     else
       response <- in_session (process_query query) ;;
       print (nl ++ response) ;;;
       ret false)
    (fun e => print (nl ++ "Error: " ++ exn_msg e) ;;; ret false).

(** [while True], for at most [turns] passes. *)
Fixpoint while_true (body : M event bool) (turns : nat) : M event progress :=
  match turns with
  | O => ret Running
  | S turns' =>
      stop <- body ;;
      if stop then ret Finished else while_true body turns'
  end.

Definition banner : M event unit :=
  print (nl ++ nl ++ "The MCP Weather Client Started") ;;;
  print "Type your weather-releated queries or 'quit'".

(** io_tools_client_bedrock.py *)
Definition chat_loop (w : env) (turns : nat) : M event progress :=
  banner ;;;
  while_true (turn (ToolClient.process_query (session w)) w) turns.

(** The call of the protected tool [main] starts with. *)
Definition smoke_test (w : env) : M event unit :=
  try_except_as
    (data <- call (Session (ToolClient.CallTool (PStr "get_user_info") PNone)) (user_info w) ;;
     github_user <- lift (getitem data "github_user") ;;
     print ("GitHub user: " ++ str github_user))
    (fun e => print (nl ++ "Error: " ++ exn_msg e)).

Definition server_url : string := "http://localhost:8000/mcp".

(** oauth_github_tools_client_bedrock.py.  The connection is released
    when the body of [async with] is left, which it is not while the loop
    is running. *)
Definition main (w : env) (turns : nat) : M event progress :=
  call (Connect server_url) (connect w) ;;;
  (fun t =>
     let (r, t') :=
       (print "Authenticated with GitHub!" ;;;
        tools <- in_session (call ToolClient.ListTools (ToolClient.list_tools (session w))) ;;
        print (nl ++ "Connected to server with tools:" ++ nl ++ " "
               ++ join nl (map ToolClient.name tools)) ;;;
        smoke_test w ;;;
        banner ;;;
        while_true (turn (OAuthToolClient.process_query (session w)) w) turns) t in
     match r with
     | Ok Running => (r, t')
     | _ => (r, (t' ++ [Disconnect])%list)
     end).

End ChatLoop.

(* ===================================================================== *)
(** * The vocabulary of the properties and worked inputs                  *)
(* ===================================================================== *)

Module Traces.

(** A result that [except Exception] lets through as it is, or catches. *)
Definition catchable {A : Type} (r : result A) : Prop :=
  match r with
  | Ok _ => True
  | Raise e => is_Exception e = true
  end.

(** [m] only adds events that satisfy [P]. *)
Definition preserves {E A : Type} (P : E -> Prop) (m : M E A) : Prop :=
  forall t, Forall P t -> Forall P (snd (m t)).

(** [m] keeps the events it starts from. *)
Definition extends {E A : Type} (m : M E A) : Prop :=
  forall t ev, In ev t -> In ev (snd (m t)).

End Traces.
Import Traces.

Module WeatherSpec.

Import Weather.

(** An outcome of a request that leaves a fetch helper without data: a
    network error, a timeout, a status that is not 2xx, or a body that
    does not parse. *)
Definition failed (o : Http.outcome) : Prop :=
  match o with
  | Http.NetworkError _ => True
  | Http.Timeout => True
  | Http.Response status json => ~ (200 <= status <= 299)%Z \/ json = None
  end.

(** The data a 2xx response with a parsed body carries, and [None] in
    every other case. *)
Definition nws_data (o : Http.outcome) : pyval :=
  match o with
  | Http.Response status (Some v) =>
      if (200 <=? status)%Z && (status <=? 299)%Z then v else PNone
  | _ => PNone
  end.

(** No data, or a response object without a [features] field. *)
Definition no_features (data : pyval) : Prop :=
  data = PNone \/ exists d, data = PDict d /\ dict_get d "features" = None.

(** The [properties] object of a feature. *)
Definition properties_of (feature : pyval) : option dict :=
  match feature with
  | PDict d =>
      match dict_get d "properties" with
      | Some (PDict props) => Some props
      | _ => None
      end
  | _ => None
  end.

(** A field as it is shown, or the default when the field is missing. *)
Definition field_or (props : dict) (key default : string) : string :=
  match dict_get props key with
  | Some v => str v
  | None => default
  end.

(** The block of an alert as it is printed, line by line. *)
Definition shown_alert (event area severity description instruction : string) : string :=
  nl ++ "        Event: " ++ event
  ++ nl ++ "        Area: " ++ area
  ++ nl ++ "        Severity: " ++ severity
  ++ nl ++ "        Description: " ++ description
  ++ nl ++ "        Instructions: " ++ instruction
  ++ nl ++ "    ".

Definition rendered_alert (props : dict) : string :=
  shown_alert (field_or props "event" "Unknown")
    (field_or props "areaDesc" "Unknown")
    (field_or props "severity" "Unknown")
    (field_or props "description" "No description available")
    (field_or props "instruction" "No specific instructions provided").

(** The six fields a forecast period is rendered from. *)
Record period_fields : Type := {
  p_name : pyval;
  p_temperature : pyval;
  p_unit : pyval;
  p_windSpeed : pyval;
  p_windDirection : pyval;
  p_detailed : pyval
}.

Definition fields_of (period : pyval) : option period_fields :=
  match period with
  | PDict d =>
      match dict_get d "name", dict_get d "temperature", dict_get d "temperatureUnit",
            dict_get d "windSpeed", dict_get d "windDirection",
            dict_get d "detailedForecast" with
      | Some n, Some t, Some u, Some ws, Some wd, Some df =>
          Some {| p_name := n; p_temperature := t; p_unit := u;
                  p_windSpeed := ws; p_windDirection := wd; p_detailed := df |}
      | _, _, _, _, _, _ => None
      end
  | _ => None
  end.

(** The degree symbol U+00B0, and what the forecast shows in its place:
    the two characters U+00C2 U+00B0.  Both in UTF-8. *)
Definition degree_symbol : string :=
  String "194"%char (String "176"%char EmptyString).

Definition shown_degree : string :=
  String "195"%char (String "130"%char (String "194"%char (String "176"%char EmptyString))).

(** The block of a period, line by line, with [sign] between the
    temperature and its unit. *)
Definition shown_period (sign name temperature unit windSpeed windDirection detailed : string)
  : string :=
  nl ++ "            " ++ name ++ ":"
  ++ nl ++ "            Temperature: " ++ temperature ++ sign ++ unit
  ++ nl ++ "            Wind: " ++ windSpeed ++ " " ++ windDirection
  ++ nl ++ "            Forecast: " ++ detailed
  ++ nl ++ "            ".

Definition rendered_period (f : period_fields) : string :=
  shown_period shown_degree (str (p_name f)) (str (p_temperature f)) (str (p_unit f))
    (str (p_windSpeed f)) (str (p_windDirection f)) (str (p_detailed f)).

(** [data["properties"][key]] *)
Definition property (data : pyval) (key : string) : result pyval :=
  properties <~ getitem data "properties" ;; getitem properties key.

(** *** Worked inputs *)

Definition respond (body : pyval) : env := fun _ _ => Http.Response 200 (Some body).

(** One alert without [event], [severity] and [instruction]. *)
Definition kern_alert : pyval :=
  PDict [("type", PStr "Feature");
         ("properties",
          PDict [("areaDesc", PStr "Kern County"); ("description", PStr "Heat")])].

(** Three responses the NWS does not send: a feature without
    [properties], a [features] field that is null, and a body that is a
    number. *)
Definition bare_features : env :=
  respond (PDict [("features", PList [PDict [("type", PStr "Feature")]])]).

Definition null_features : env := respond (PDict [("features", PNone)]).

Definition number_body : env := respond (PInt 5).

Definition one_alert : env := respond (PDict [("features", PList [kern_alert])]).

Definition period (n : Z) : pyval :=
  PDict [("number", PInt n); ("name", PStr ("Period " ++ int_str n));
         ("temperature", PInt (60 + n)); ("temperatureUnit", PStr "F");
         ("windSpeed", PStr "5 mph"); ("windDirection", PStr "NW");
         ("detailedForecast", PStr "Sunny.")].

(** The fields [period n] is rendered from. *)
Definition row (n : Z) : period_fields :=
  {| p_name := PStr ("Period " ++ int_str n); p_temperature := PInt (60 + n);
     p_unit := PStr "F"; p_windSpeed := PStr "5 mph"; p_windDirection := PStr "NW";
     p_detailed := PStr "Sunny." |}.

(** The block of [period n] with [sign] before the unit. *)
Definition period_block (sign : string) (n : Z) : string :=
  shown_period sign ("Period " ++ int_str n) (int_str (60 + n)) "F" "5 mph" "NW" "Sunny.".

Definition forecast_link : string := "https://api.weather.gov/gridpoints/HNX/1,2/forecast".

Definition points_body : pyval :=
  PDict [("properties", PDict [("forecast", PStr forecast_link)])].

(** A network that answers the forecast link with [forecast] and every
    other url with [points]. *)
Definition two_step (points forecast : pyval) : env :=
  fun _ url =>
    if String.eqb url forecast_link then Http.Response 200 (Some forecast)
    else Http.Response 200 (Some points).

(** Eight periods, the last three of them not even objects. *)
Definition eight_periods : list pyval :=
  [period 1; period 2; period 3; period 4; period 5; PNone; PInt 7; PStr "eight"].

Definition forecast_body (periods : list pyval) : pyval :=
  PDict [("properties", PDict [("periods", PList periods)])].

Definition lat : pyval := PFloat "35.37".
Definition lon : pyval := PFloat "-119.02".

End WeatherSpec.

Module SpaceNewsSpec.

Import SpaceNews.

Definition is_sample (e : event) : bool :=
  match e with
  | Sample _ => true
  | HttpGet _ _ => false
  end.

(** The number of sampling calls in a trace. *)
Definition sample_calls (tr : list event) : nat := List.length (filter is_sample tr).

(** The one request to the news API a tool call makes. *)
Definition fetch_event (w : env) : event :=
  HttpGet (news_endpoint (today w)) news_headers.

(** *** Worked inputs *)

Definition article (id : Z) (title summary : string) : pyval :=
  PDict [("id", PInt id); ("title", PStr title); ("summary", PStr summary);
         ("news_site", PStr "Spaceflight Now")].

Definition two_articles : pyval :=
  PDict [("count", PInt 2);
         ("results", PList [article 1 "Falcon 9 launches" "Liftoff at 8:57.";
                            article 2 "Artemis update" "A new date."])].

Definition two_news : list (pyval * pyval) :=
  [(PStr "Falcon 9 launches", PStr "Liftoff at 8:57.");
   (PStr "Artemis update", PStr "A new date.")].

(** A world whose news API always answers [o] and whose client answers a
    sampling request with [s]. *)
Definition world (o : Http.outcome) (s : result pyval) : env :=
  {| today := "2025-06-01"; http := fun _ _ => o; sample := fun _ _ => s |}.

Definition no_sampling : result pyval :=
  Raise (Exn RuntimeError "Client does not support sampling").

End SpaceNewsSpec.

Module SalesSpec.

Import Sales.

(** The hint the not-found message is said to end with, with its
    bracketed words written out. *)
Definition documented_hint : string := "Month must be written out, year must be numeric.".

(** The file the resource reads for a year and a month. *)
Definition sales_file (w : env) (year : Z) (month : string) : string :=
  as_posix (joinpath (sales_base_path w)
              (Path (lower month ++ "_" ++ int_str year ++ ".csv"))).

(** *** Worked input: a server directory without any sales file. *)
Definition no_files : env :=
  {| base_path := Path "/srv/mcp_servers";
     isfile := fun _ => false;
     read_csv_records := fun _ => Ok [] |}.

Definition march_rows : list pyval :=
  [PDict [("id", PInt 1); ("amount", PInt 250)];
   PDict [("id", PInt 2); ("amount", PInt 90)]].

(** A directory that holds the sales of March 2024 only. *)
Definition march_only : env :=
  {| base_path := Path "/srv/mcp_servers";
     isfile := String.eqb "/srv/mcp_servers/data/sales_data/march_2024.csv";
     read_csv_records := fun _ => Ok march_rows |}.

End SalesSpec.

Module BlogSpec.

Import BlogClient.

(** The keyword list as the specification writes it. *)
Definition literal_keywords : pyval := PList [PStr "MCP"; PStr "FastMCP"; PStr "Prompts"].

(** A prompt request of the intro step or of the main step carries the
    literal keyword list. *)
Definition fixed_keyword_event (e : event) : Prop :=
  match e with
  | GetPrompt name arguments =>
      (name = "Get Intro From Keywords" ->
       arguments = [("keywords", PList [PStr "MCP"; PStr "FastMCP"; PStr "Prompts"])])
      /\ (name = "Get Main Section From Code" ->
          exists code,
            arguments = [("keywords", PList [PStr "MCP"; PStr "FastMCP"; PStr "Prompts"]);
                         ("code", PStr code)])
  | _ => True
  end.

(** *** Worked inputs *)

(** A Converse response whose message has the one text block [text]. *)
Definition model_reply (text : string) : pyval :=
  PDict [("output",
          PDict [("message",
                  PDict [("role", PStr "assistant");
                         ("content", PList [PDict [("text", PStr text)]])])])].

(** The reply with fences around an object that holds the keywords A and
    B. *)
Definition fenced_reply : string :=
  "```json" ++ nl ++ "{" ++ dq ++ "keywords" ++ dq ++ ": [" ++ dq ++ "A" ++ dq ++ ","
  ++ dq ++ "B" ++ dq ++ "]}" ++ nl ++ "```".

(** A world in which every call succeeds and the model always answers
    [reply]. *)
Definition world (reply : string) : env :=
  {| isfile := fun _ => true;
     read_file := fun _ => Ok "from fastmcp import FastMCP";
     connect := fun _ => Ok tt;
     ping := fun _ => Ok tt;
     list_prompts := fun _ => Ok ["Greet MCP Server"; "Get Keywords From Code"];
     get_prompt := fun _ name _ => Ok ("PROMPT " ++ name);
     converse := fun _ _ _ => Ok (model_reply reply) |}.

End BlogSpec.

Module ToolSpec.

Import ToolClient.

(** The text of a text block: an object with a string under [text] and
    without [toolUse]. *)
Definition block_text (block : pyval) : option string :=
  match block with
  | PDict d =>
      match dict_get d "toolUse", dict_get d "text" with
      | None, Some (PStr s) => Some s
      | _, _ => None
      end
  | _ => None
  end.

(** The name, the arguments and the call id of a tool-use block: an
    object without [text] whose [toolUse] object has the three fields. *)
Definition tool_use_of (block : pyval) : option (pyval * pyval * pyval) :=
  match block with
  | PDict d =>
      match dict_get d "text", dict_get d "toolUse" with
      | None, Some (PDict u) =>
          match dict_get u "name", dict_get u "input", dict_get u "toolUseId" with
          | Some name, Some input, Some id => Some (name, input, id)
          | _, _, _ => None
          end
      | _, _ => None
      end
  | _ => None
  end.

Definition user_query (query : string) : pyval :=
  PDict [("role", PStr "user"); ("content", PList [PDict [("text", PStr query)]])].

Definition system_prompts (system_text : string) : pyval :=
  PList [PDict [("text", PStr system_text)]].

(** The messages of the follow-up request: the query, the assistant
    message with the blocks up to the tool-use block, and the tool result
    under the call id. *)
Definition follow_up_messages (query : string) (assistant_blocks : list pyval)
  (id : pyval) (items : list content_item) : list pyval :=
  [user_query query;
   PDict [("role", PStr "assistant"); ("content", PList assistant_blocks)];
   PDict [("role", PStr "user");
          ("content",
           PList [PDict [("toolResult",
                          PDict [("toolUseId", id);
                                 ("content", PList (tool_result_content items))])]])]].

(** A request to the model, with the system prompt and the tools every
    request of a query carries. *)
Definition request (system_text : string) (tools : list tool) (sent : list pyval) : event :=
  Converse BEDROCK_MODEL_ID sent (system_prompts system_text) (tool_config tools).

Definition is_tool_call (e : event) : bool :=
  match e with CallTool _ _ => true | _ => false end.

Definition is_converse (e : event) : bool :=
  match e with Converse _ _ _ _ => true | _ => false end.

Definition tool_calls (tr : list event) : nat := List.length (filter is_tool_call tr).
Definition llm_calls (tr : list event) : nat := List.length (filter is_converse tr).

(** The text the single-follow-up property names: the initial texts, the
    diagnostic line and the text of the follow-up reply. *)
Definition claimed_text (initial_texts : list string) (line follow_up : string) : string :=
  join nl (initial_texts ++ [line; follow_up])%list.

(** *** Worked inputs *)

Definition weather_tools : list tool :=
  [{| name := "get_alerts";
      description := PStr "Get weather alerts for a US state.";
      inputSchema := PDict [("type", PStr "object")] |}].

Definition text_block (s : string) : pyval := PDict [("text", PStr s)].

Definition alerts_call : pyval :=
  PDict [("toolUse",
          PDict [("toolUseId", PStr "tooluse_1"); ("name", PStr "get_alerts");
                 ("input", PDict [("state", PStr "CA")])])].

Definition reply_of (blocks : list pyval) : pyval :=
  PDict [("output",
          PDict [("message",
                  PDict [("role", PStr "assistant"); ("content", PList blocks)])])].

(** A world whose model answers the first request with the blocks
    [first] and every later one with [later]. *)
Definition world (first later : list pyval) : env :=
  {| list_tools := fun _ => Ok weather_tools;
     call_tool := fun _ _ _ => Ok [TextContent "No active alerts for this state."];
     converse := fun t _ _ _ _ =>
                   match t with
                   | [ListTools] => Ok (reply_of first)
                   | _ => Ok (reply_of later)
                   end |}.

Definition alerts_line : string := "[Calling tool get_alerts with args {'state': 'CA'}]".

(** A first reply with one tool-use block between two text blocks. *)
Definition text_around_call : list pyval :=
  [text_block "Checking."; alerts_call; text_block "One moment."].

Definition has_tool_use (block : pyval) : bool :=
  match contains "toolUse" block with
  | Ok b => b
  | Raise _ => false
  end.

End ToolSpec.

(* ===================================================================== *)
(** * Vocabulary and worked inputs of the further properties              *)
(* ===================================================================== *)

Module TracesMore.

(** [m] appends events to the trace, all of which satisfy [P]. *)
Definition adds {E A : Type} (P : E -> Prop) (m : M E A) : Prop :=
  forall t, exists added, snd (m t) = (t ++ added)%list /\ Forall P added.

End TracesMore.
Import TracesMore.

Module WeatherMore.

Import Weather WeatherSpec.

(** The exceptions a malformed feature or period ends in. *)
Definition lookup_error (e : exn) : Prop :=
  exn_cls e = KeyError \/ exn_cls e = TypeError \/ exn_cls e = AttributeError.

(** The request a url value leads to: none when it is not a string. *)
Definition request_of (url : pyval) : list event :=
  match url with
  | PStr u => [HttpGet u nws_headers]
  | _ => []
  end.

Definition is_text (v : pyval) : bool :=
  match v with
  | PStr _ => true
  | _ => false
  end.

(** An alert whose instruction is null, as the weather service sends it
    for most alerts. *)
Definition null_instruction : pyval :=
  PDict [("properties",
          PDict [("event", PStr "Heat Advisory"); ("areaDesc", PStr "Kern County");
                 ("severity", PStr "Moderate"); ("description", PStr "Hot.");
                 ("instruction", PNone)])].

(** A feature without a [properties] object. *)
Definition bare_feature : pyval := PDict [("type", PStr "Feature")].

(** A points response whose forecast link is null. *)
Definition null_link : pyval := PDict [("properties", PDict [("forecast", PNone)])].

End WeatherMore.

Module SpaceNewsMore.

Import SpaceNews SpaceNewsSpec.

(** The title and the summary of an article object. *)
Definition article_fields (res : pyval) : option (pyval * pyval) :=
  match res with
  | PDict d =>
      match dict_get d "title", dict_get d "summary" with
      | Some title, Some summary => Some (title, summary)
      | _, _ => None
      end
  | _ => None
  end.

(** Two results, the second without a summary. *)
Definition one_bad_article : pyval :=
  PDict [("count", PInt 2);
         ("results", PList [article 1 "Falcon 9 launches" "Liftoff at 8:57.";
                            PDict [("id", PInt 2); ("title", PStr "Artemis update")]])].

End SpaceNewsMore.

Module SalesMore.

Import Sales SalesSpec.

Fixpoint has_slash (s : string) : bool :=
  match s with
  | EmptyString => false
  | String c rest => Ascii.eqb c "/"%char || has_slash rest
  end.

(** A text of ASCII characters only. *)
Fixpoint is_ascii (s : string) : bool :=
  match s with
  | EmptyString => true
  | String c rest => (nat_of_ascii c <? 128)%nat && is_ascii rest
  end.

(** The name of the sales file of a month and a year. *)
Definition file_name (year : Z) (month : string) : string :=
  lower month ++ "_" ++ int_str year ++ ".csv".

(** Another server directory, with every file present. *)
Definition elsewhere : env :=
  {| base_path := Path "/opt/other";
     isfile := fun _ => true;
     read_csv_records := fun _ => Ok [] |}.

End SalesMore.

Module BlogMore.

Import BlogClient BlogSpec.

(** An event of a session: anything but opening and closing the
    connection. *)
Definition inside_session (e : event) : Prop := e <> Connect /\ e <> Disconnect.

(** The events of a session before its first prompt request, when the
    server lists [prompts]. *)
Definition preamble (prompts : list string) : list event :=
  ([Connect; Ping; ListPrompts; Print "Available Prompts:";
    Print ("Total Prompts: " ++ int_str (Z.of_nat (List.length prompts)))]
   ++ map (fun name => Print ("- " ++ name)) prompts)%list.

(** The names of the prompts a trace asks for, in order. *)
Definition prompt_names (tr : list event) : list string :=
  flat_map (fun e => match e with GetPrompt name _ => [name] | _ => [] end) tr.

(** The request to the model that carries [prompt]. *)
Definition ask (prompt : string) : event :=
  Converse BEDROCK_MODEL_ID [user_message prompt].

Definition is_text (v : pyval) : bool :=
  match v with
  | PStr _ => true
  | _ => false
  end.

Fixpoint no_backtick (s : string) : bool :=
  match s with
  | EmptyString => true
  | String c rest => negb (Ascii.eqb c "`"%char) && no_backtick rest
  end.

(** What the handler of the keyword step makes of the result of parsing. *)
Definition as_value_error (r : result pyval) : result pyval :=
  match r with
  | Ok v => Ok v
  | Raise e =>
      if is_Exception e then Raise (Exn ValueError "Error Loading Keyword Response")
      else Raise e
  end.

(** A world like [world reply] that lists the prompts [prompts]. *)
Definition listing (prompts : list string) (reply : string) : env :=
  {| isfile := fun _ => true;
     read_file := fun _ => Ok "from fastmcp import FastMCP";
     connect := fun _ => Ok tt;
     ping := fun _ => Ok tt;
     list_prompts := fun _ => Ok prompts;
     get_prompt := fun _ name _ => Ok ("PROMPT " ++ name);
     converse := fun _ _ _ => Ok (model_reply reply) |}.

End BlogMore.

Module ToolMore.

Import ToolClient ToolSpec.

(** The local variables at the start of the loop over the content
    blocks. *)
Definition start (query : string) : locals :=
  {| final_text := [];
     assistant_message_content := [];
     messages := [Message "user" [PDict [("text", PStr query)]]] |}.

Definition is_tool_use (block : pyval) : bool :=
  match tool_use_of block with
  | Some _ => true
  | None => false
  end.

(** A content block of one of the two kinds the loop handles. *)
Definition known_block (block : pyval) : Prop :=
  block_text block <> None \/ tool_use_of block <> None.

(** A world in which every tool call returns and every follow-up
    request, the request to the model that comes right after a tool call,
    is answered by a reply that starts with a text block.  Nothing is
    asked of the first reply. *)
Definition obliging (w : env) : Prop :=
  (forall t name args, exists items, call_tool w t name args = Ok items)
  /\ (forall t name args model sent system config,
        exists reply text,
          converse w (t ++ [CallTool name args]) model sent system config = Ok reply
          /\ first_text reply = Ok (PStr text)).

(** The tool result message of a call. *)
Definition tool_result_message (id : pyval) (items : list content_item) : pyval :=
  PDict [("role", PStr "user");
         ("content",
          PList [PDict [("toolResult",
                         PDict [("toolUseId", id);
                                ("content", PList (tool_result_content items))])]])].

Definition assistant_message (blocks : list pyval) : pyval :=
  PDict [("role", PStr "assistant"); ("content", PList blocks)].

(** *** Worked inputs *)

Definition forecast_call : pyval :=
  PDict [("toolUse",
          PDict [("toolUseId", PStr "tooluse_2"); ("name", PStr "get_forecast");
                 ("input", PDict [("latitude", PFloat "35.37");
                                  ("longitude", PFloat "-119.02")])])].

(** A first reply of two tool-use blocks and no text. *)
Definition calls_only : list pyval := [alerts_call; forecast_call].

(** A first reply with a text and two tool-use blocks. *)
Definition two_calls : list pyval := [text_block "Checking."; alerts_call; forecast_call].

Definition tool_error : exn := Exn RuntimeError "Error calling tool 'get_alerts'".

(** A world whose tool calls fail with [e]. *)
Definition failing_tool (first : list pyval) (e : exn) : env :=
  {| list_tools := fun _ => Ok weather_tools;
     call_tool := fun _ _ _ => Raise e;
     converse := fun _ _ _ _ _ => Ok (reply_of first) |}.

End ToolMore.

(* ===================================================================== *)
(** * Vocabulary for the resource client, the entry points and the chat
      loops                                                               *)
(* ===================================================================== *)

Module ResourceSpec.
Import ResourceClient.

(** A resource is read, or the model is asked. *)
Definition is_request (ev : event) : bool :=
  match ev with
  | ReadResource _ | Converse _ _ _ => true
  | _ => false
  end.

(** The lines the listing of [entries] prints. *)
Definition listed {A : Type} `{Listed A} (entries : list A) : list event :=
  map (fun entry => Print ("- " ++ name entry ++ ": " ++ str (description entry))) entries.

(** What [run] has done when it looks for the README. *)
Definition preamble (resources : list Resource) (templates : list ResourceTemplate)
  : list event :=
  ([Connect; Ping; ListResources; Print "Available Resources:"]
   ++ listed resources
   ++ [ListResourceTemplates; Print "Available Resources Templates"]
   ++ listed templates)%list.

Definition system_message (readme_content : string) : pyval :=
  PDict [("text", PStr (system_text readme_content))].

Definition user_message (query month_sales : string) : pyval :=
  PDict [("role", PStr "user");
         ("content", PList [PDict [("text", PStr (user_text query month_sales))]])].

(** A server that is connected to and lists [resources] and [templates]. *)
Definition serves (w : env) (resources : list Resource) (templates : list ResourceTemplate)
  : Prop :=
  (forall t, connect w t = Ok tt)
  /\ (forall t, ping w t = Ok tt)
  /\ (forall t, list_resources w t = Ok resources)
  /\ (forall t, list_resource_templates w t = Ok templates).

(** *** Worked inputs *)

Definition readme : Resource :=
  {| resource_name := "README";
     resource_description := PStr "ReadMe File for MCP Server";
     uri := "file:///srv/data/README.md" |}.

Definition sales_template : ResourceTemplate :=
  {| template_name := "get_sales";
     template_description := PStr "Provides Sales Stats per month and per year";
     uriTemplate := "resource://sales/{year}/{month}" |}.

Definition model_reply (text : string) : pyval :=
  PDict [("output",
          PDict [("message",
                  PDict [("role", PStr "assistant");
                         ("content", PList [PDict [("text", PStr text)]])])])].

(** A server with the given resources and templates, whose sales
    resource is read with the result [sales]. *)
Definition world (resources : list Resource) (templates : list ResourceTemplate)
  (sales : result string) : env :=
  {| connect := fun _ => Ok tt;
     ping := fun _ => Ok tt;
     list_resources := fun _ => Ok resources;
     list_resource_templates := fun _ => Ok templates;
     read_resource := fun _ address =>
       if (address =? uri readme)%string then Ok "# Sales data" else sales;
     format_uri := fun template year month =>
       Ok ("resource://sales/" ++ int_str year ++ "/" ++ month);
     converse := fun _ _ _ _ => Ok (model_reply "March was the best month.") |}.

End ResourceSpec.

Module BlogMainSpec.
Import BlogClient BlogMain.

(** A process whose constructors succeed, around the world of
    [BlogSpec]. *)
Definition ready (reply : string) : process :=
  {| world := BlogSpec.world reply;
     new_bedrock_client := Ok tt;
     new_client := fun _ => Ok tt |}.

End BlogMainSpec.

Module ChatSpec.
Import ChatLoop.

Definition prompt : string := nl ++ "Query: ".

Definition is_input (ev : event) : bool :=
  match ev with
  | Input _ => true
  | _ => false
  end.

(** The number of lines asked for. *)
Definition inputs (t : list event) : nat := List.length (filter is_input t).

(** What the handler of the loop prints for [e]. *)
Definition error_line (e : exn) : event := Print (nl ++ "Error: " ++ exn_msg e).

(** The console gives no line any more. *)
Definition closed (w : env) : Prop :=
  forall t, exists e, input w t = Raise e /\ is_Exception e = true.

(** [claims.get(key)] *)
Definition claim (claims : dict) (key : string) : pyval :=
  match dict_get claims key with
  | Some v => v
  | None => PNone
  end.

Definition user_info_call : event :=
  Session (ToolClient.CallTool (PStr "get_user_info") PNone).

(** What [main] has done when it calls [get_user_info]. *)
Definition connected (tools : list ToolClient.tool) : list event :=
  [ Connect server_url;
    Print "Authenticated with GitHub!";
    Session ToolClient.ListTools;
    Print (nl ++ "Connected to server with tools:" ++ nl ++ " "
           ++ join nl (map ToolClient.name tools)) ].

Definition opening (tools : list ToolClient.tool) : list event :=
  (connected tools ++ [user_info_call])%list.

Definition banner_lines : list event :=
  [ Print (nl ++ nl ++ "The MCP Weather Client Started");
    Print "Type your weather-releated queries or 'quit'" ].

(** Leaving the body of [async with]. *)
Definition released (r : result progress * list event) : result progress * list event :=
  match fst r with
  | Ok Running => r
  | _ => (fst r, (snd r ++ [Disconnect])%list)
  end.

(** *** Worked inputs *)

(** [EOFError], a subclass of [Exception]. *)
Definition end_of_input : exn := Exn RuntimeError "EOF when reading a line".

(** A console at the end of its input, in front of the weather tools. *)
Definition at_end_of_input : env :=
  {| session := ToolSpec.world [ToolSpec.text_block "Sunny."] [];
     input := fun _ => Raise end_of_input;
     connect := fun _ => Ok tt;
     user_info := fun _ => Raise (Exn RuntimeError "Unknown tool: get_user_info") |}.

(** A console that answers [line] to every prompt, and a server that
    knows the user by [claims]. *)
Definition console (line : string) (claims : dict) : env :=
  {| session := ToolSpec.world [ToolSpec.text_block "Sunny."] [];
     input := fun _ => Ok line;
     connect := fun _ => Ok tt;
     user_info := fun _ => UserInfo.get_user_info (Some claims) |}.

End ChatSpec.

(* ===================================================================== *)
(** * Properties                                                          *)
(* ===================================================================== *)

(** ** Python strings and paths on examples *)

Example replace_does_not_overlap : replace "aaa" "aa" "b" = "ba".
Proof. reflexivity. Qed.

Example replace_strips_fences :
  replace (replace ("```json" ++ nl ++ "[1]" ++ nl ++ "```") "```json" "") "```" ""
  = nl ++ "[1]" ++ nl.
Proof. reflexivity. Qed.

Example lower_month : lower "March" = "march".
Proof. reflexivity. Qed.

Example repr_of_arguments :
  repr (PDict [("state", PStr "CA"); ("days", PInt 3); ("note", PStr "it's hot")])
  = "{'state': 'CA', 'days': 3, 'note': " ++ dq ++ "it's hot" ++ dq ++ "}".
Proof. reflexivity. Qed.

Example path_is_normalised :
  Sales.as_posix (Sales.joinpath (Sales.Path "/srv//app/./") (Sales.Path "data/sales_data"))
  = "/srv/app/data/sales_data".
Proof. reflexivity. Qed.

Example loads_keeps_the_last_duplicate :
  Json.loads ("{" ++ dq ++ "a" ++ dq ++ ": 1, " ++ dq ++ "b" ++ dq ++ ": [true, null], "
              ++ dq ++ "a" ++ dq ++ ": -2}")
  = Ok (PDict [("a", PInt (-2)); ("b", PList [PBool true; PNone])]).
Proof. reflexivity. Qed.

Example loads_refuses_a_trailing_comma :
  Json.loads "[1, 2,]" = Raise (Exn JSONDecodeError "Expecting value").
Proof. reflexivity. Qed.

(** ** The monad *)

Section EffLemmas.

Context {E : Type}.

Lemma bind_ok {A B : Type} (m : M E A) (k : A -> M E B) t a t' :
  m t = (Ok a, t') -> bind m k t = k a t'.
Proof. intros H. unfold bind. rewrite H. reflexivity. Qed.

Lemma bind_lift_ok {A B : Type} (r : result A) (k : A -> M E B) t a :
  r = Ok a -> bind (lift r) k t = k a t.
Proof. intros ->. reflexivity. Qed.

Lemma mapM_lift_ok {A B : Type} (f : A -> result B) (l : list A) (out : list B) t :
  map f l = map Ok out ->
  mapM (fun a => lift (f a)) l t = (Ok out, t : list E).
Proof.
  revert out. induction l as [|a l IH]; intros [|b out] H; simpl in H; try discriminate.
  - reflexivity.
  - injection H as Ha Hl. simpl. unfold bind at 1. unfold lift at 1. rewrite Ha.
    unfold bind at 1. rewrite (IH out Hl). reflexivity.
Qed.

Lemma mapM_lift_catchable {A B : Type} (f : A -> result B) (l : list A) t :
  (forall a, catchable (f a)) ->
  exists r, mapM (fun a => lift (f a)) l t = (r, t : list E) /\ catchable r.
Proof.
  intros Hf. induction l as [|a l [r [IH Hr]]]; simpl.
  - eexists. split; [reflexivity | exact I].
  - unfold bind at 1. unfold lift at 1. specialize (Hf a).
    destruct (f a) as [b|e].
    + unfold bind at 1. rewrite IH. destruct r as [bs|e].
      * eexists. split; [reflexivity | exact I].
      * eexists. split; [reflexivity | exact Hr].
    + eexists. split; [reflexivity | exact Hf].
Qed.

End EffLemmas.

(** ** Python values *)

Lemma getitem_catchable v k : catchable (getitem v k).
Proof.
  destruct v; simpl; try reflexivity.
  destruct (dict_get d k); simpl; reflexivity.
Qed.

Lemma iter_catchable v : catchable (iter v).
Proof. destruct v; simpl; reflexivity. Qed.

Lemma dict_get_some_truthy d k v : dict_get d k = Some v -> truthy (PDict d) = true.
Proof. destruct d; simpl; [discriminate | reflexivity]. Qed.

Lemma getitem_ok_truthy data k v : getitem data k = Ok v -> truthy data = true.
Proof.
  destruct data; simpl; try discriminate.
  destruct (dict_get d k) eqn:H; [|discriminate].
  intros _. eapply dict_get_some_truthy; eassumption.
Qed.

(** ** The weather server *)

Import Weather WeatherSpec.

Section WeatherProps.

Variable net : env.

Lemma make_nws_request_str url t :
  make_nws_request net (PStr url) t
  = (Ok (nws_data (net t url)), (t ++ [HttpGet url nws_headers])%list).
Proof.
  unfold make_nws_request, try_except, bind, client_get, call, lift, nws_data.
  destruct (net t url) as [msg| |status [v|]]; simpl; try reflexivity;
    unfold Http.raise_for_status; simpl;
    destruct ((200 <=? status)%Z && (status <=? 299)%Z); reflexivity.
Qed.

Lemma make_nws_request_total url t :
  exists v t', make_nws_request net url t = (Ok v, t').
Proof.
  destruct url; try (eexists; eexists; reflexivity).
  rewrite make_nws_request_str. eauto.
Qed.

Lemma nws_data_failed o : failed o -> nws_data o = PNone.
Proof.
  destruct o as [msg| |status [v|]]; simpl; try reflexivity.
  intros [H|H]; [|discriminate].
  destruct (200 <=? status)%Z eqn:H1; destruct (status <=? 299)%Z eqn:H2; simpl;
    try reflexivity.
  exfalso. apply H. split; apply Z.leb_le; assumption.
Qed.

Lemma format_alert_ok feature props :
  properties_of feature = Some props -> format_alert feature = Ok (rendered_alert props).
Proof.
  unfold properties_of, format_alert. destruct feature; try discriminate.
  simpl. destruct (dict_get d "properties") as [[]|]; try discriminate.
  intros [= ->]. unfold rendered_alert, field_or. simpl.
  destruct (dict_get props "event"), (dict_get props "areaDesc"),
    (dict_get props "severity"), (dict_get props "description"),
    (dict_get props "instruction"); reflexivity.
Qed.

Lemma format_alerts_ok features propss :
  map properties_of features = map Some propss ->
  map format_alert features = map Ok (map rendered_alert propss).
Proof.
  revert propss. induction features as [|f fs IH]; intros [|p ps] H; simpl in H;
    try discriminate; [reflexivity|].
  injection H as Hf Hfs. simpl. rewrite (format_alert_ok _ _ Hf), (IH _ Hfs). reflexivity.
Qed.

(** C4, amended: with the data the fetch helper got for the alerts url,
    [get_alerts] returns "Unable to fetch alerts or no alerts found." when
    there is no data or the response is an object without a [features]
    field, returns "No active alerts for this state." when [features] is
    the empty list, and for a non-empty list of features that each have a
    [properties] object returns their blocks joined by the separator
    "\n---\n".  A block has the five lines Event, Area, Severity,
    Description and Instructions, and shows each field or, when the field
    is missing, "Unknown" (event, areaDesc, severity),
    "No description available" and "No specific instructions provided". *)
Theorem get_alerts_cases (state : string) (data : pyval) (t : list event) :
  make_nws_request net (PStr (alerts_url state)) [] = (Ok data, t) ->
  (no_features data ->
   get_alerts net state [] = (Ok "Unable to fetch alerts or no alerts found.", t))
  /\ (forall d,
        data = PDict d -> dict_get d "features" = Some (PList []) ->
        get_alerts net state [] = (Ok "No active alerts for this state.", t))
  /\ (forall d feature features propss,
        data = PDict d ->
        dict_get d "features" = Some (PList (feature :: features)) ->
        map properties_of (feature :: features) = map Some propss ->
        get_alerts net state []
        = (Ok (join (nl ++ "---" ++ nl)
                 (map (fun props =>
                         shown_alert (field_or props "event" "Unknown")
                           (field_or props "areaDesc" "Unknown")
                           (field_or props "severity" "Unknown")
                           (field_or props "description" "No description available")
                           (field_or props "instruction"
                              "No specific instructions provided"))
                    propss)),
           t)).
Proof.
  intros Hfetch. unfold get_alerts. rewrite (bind_ok _ _ _ _ _ Hfetch).
  repeat split.
  - intros [-> | [d [-> Hd]]]; [reflexivity|].
    unfold bind, lift, ret, contains, has_key. rewrite Hd.
    destruct (truthy (PDict d)); reflexivity.
  - intros d -> Hd. unfold bind, lift, ret.
    rewrite (dict_get_some_truthy _ _ _ Hd).
    unfold contains, has_key, getitem. rewrite Hd. reflexivity.
  - intros d feature features propss -> Hd Hprops.
    unfold contains, has_key, getitem. rewrite Hd.
    rewrite (dict_get_some_truthy _ _ _ Hd).
    pose proof (mapM_lift_ok format_alert _ _ t (format_alerts_ok _ _ Hprops)) as Hmap.
    unfold bind, lift, ret, iter in *. cbn [negb truthy]. cbv beta iota. rewrite Hmap.
    reflexivity.
Qed.

Lemma format_period_ok period fields :
  fields_of period = Some fields -> format_period period = Ok (rendered_period fields).
Proof.
  unfold fields_of, format_period. destruct period; try discriminate.
  unfold getitem, and_then.
  destruct (dict_get d "name"); [|discriminate].
  destruct (dict_get d "temperature"); [|discriminate].
  destruct (dict_get d "temperatureUnit"); [|discriminate].
  destruct (dict_get d "windSpeed"); [|discriminate].
  destruct (dict_get d "windDirection"); [|discriminate].
  destruct (dict_get d "detailedForecast"); [|discriminate].
  intros [= <-]. reflexivity.
Qed.

Lemma format_periods_ok periods rows :
  map fields_of periods = map Some rows ->
  map format_period periods = map Ok (map rendered_period rows).
Proof.
  revert rows. induction periods as [|p ps IH]; intros [|r rs] H; simpl in H;
    try discriminate; [reflexivity|].
  injection H as Hp Hps. simpl. rewrite (format_period_ok _ _ Hp), (IH _ Hps). reflexivity.
Qed.

Lemma property_ok data key v :
  property data key = Ok v ->
  truthy data = true /\
  exists properties, getitem data "properties" = Ok properties
                     /\ getitem properties key = Ok v.
Proof.
  unfold property, and_then. destruct (getitem data "properties") eqn:H; [|discriminate].
  intros Hk. split; [eapply getitem_ok_truthy; eassumption | eauto].
Qed.

(** When both requests of [get_forecast] bring data and the forecast has
    more than five periods, the result is the first five periods in list
    order, each rendered with its name, its temperature, the two
    characters U+00C2 U+00B0 and the unit, its wind and its detailed
    forecast, and joined by the separator.  Nothing is asked of the
    periods after the fifth: they are not read. *)
Lemma get_forecast_first_five
  (latitude longitude points_data forecast_url forecast_data : pyval)
  (t1 t2 : list event) (periods : list pyval) (rows : list period_fields) :
  make_nws_request net (PStr (points_url latitude longitude)) [] = (Ok points_data, t1) ->
  property points_data "forecast" = Ok forecast_url ->
  make_nws_request net forecast_url t1 = (Ok forecast_data, t2) ->
  property forecast_data "periods" = Ok (PList periods) ->
  (5 < length periods)%nat ->
  map fields_of (firstn 5 periods) = map Some rows ->
  get_forecast net latitude longitude []
  = (Ok (join separator (map rendered_period rows)), t2)
  /\ length rows = 5%nat.
Proof.
  intros Hpoints Hurl Hforecast Hperiods Hlen Hrows.
  apply property_ok in Hurl as [Htp [pp [Hpp Hpf]]].
  apply property_ok in Hperiods as [Htf [fp [Hfp Hfper]]].
  split.
  - pose proof (mapM_lift_ok format_period _ _ t2 (format_periods_ok _ _ Hrows)) as Hmap.
    unfold get_forecast. rewrite (bind_ok _ _ _ _ _ Hpoints). rewrite Htp. cbn [negb].
    rewrite (bind_lift_ok _ _ _ _ Hpp), (bind_lift_ok _ _ _ _ Hpf).
    rewrite (bind_ok _ _ _ _ _ Hforecast). rewrite Htf. cbn [negb].
    rewrite (bind_lift_ok _ _ _ _ Hfp), (bind_lift_ok _ _ _ _ Hfper).
    unfold bind, lift, ret, slice_to, iter in *. cbv beta iota. rewrite Hmap.
    reflexivity.
  - apply (f_equal (@length _)) in Hrows. rewrite !length_map, length_firstn in Hrows.
    lia.
Qed.

(** C9: for a forecast of eight periods [get_forecast] renders the first
    five, in order and joined by "\n---\n", and ignores the other three,
    as the claim says; but between the temperature and its unit it shows
    the two characters U+00C2 U+00B0, "61" then A-circumflex, the degree
    symbol and "F", and not the degree symbol alone.  The first block is
    written out. *)
Theorem get_forecast_temperature_sign :
  fst (get_forecast (two_step points_body (forecast_body eight_periods)) lat lon [])
  = Ok (join (nl ++ "---" ++ nl) (map (period_block shown_degree) [1; 2; 3; 4; 5]%Z))
  /\ period_block shown_degree 1
     = nl ++ "            Period 1:"
       ++ nl ++ "            Temperature: 61"
       ++ String "195"%char (String "130"%char (String "194"%char (String "176"%char "F")))
       ++ nl ++ "            Wind: 5 mph NW"
       ++ nl ++ "            Forecast: Sunny."
       ++ nl ++ "            "
  /\ fst (get_forecast (two_step points_body (forecast_body eight_periods)) lat lon [])
     <> Ok (join (nl ++ "---" ++ nl) (map (period_block degree_symbol) [1; 2; 3; 4; 5]%Z)).
Proof.
  split; [vm_compute; reflexivity|]. split; [vm_compute; reflexivity|].
  vm_compute. discriminate.
Qed.

(** C10: [get_forecast] can raise.  A points response that is an object
    without [properties], or whose [properties] has no [forecast], and a
    forecast response without [properties], without [periods], or with a
    period that lacks a field, each end in a [KeyError] and not in one of
    the two fallback messages. *)
Theorem get_forecast_key_lookup_raises :
  fst (get_forecast (respond (PDict [("status", PInt 404)])) lat lon [])
  = Raise (Exn KeyError "'properties'")
  /\ fst (get_forecast (respond (PDict [("properties", PDict [("cwa", PStr "HNX")])]))
            lat lon [])
     = Raise (Exn KeyError "'forecast'")
  /\ fst (get_forecast (two_step points_body (PDict [("status", PInt 503)])) lat lon [])
     = Raise (Exn KeyError "'properties'")
  /\ fst (get_forecast
            (two_step points_body (PDict [("properties", PDict [("units", PStr "us")])]))
            lat lon [])
     = Raise (Exn KeyError "'periods'")
  /\ fst (get_forecast
            (two_step points_body
               (forecast_body [PDict [("name", PStr "Tonight"); ("temperature", PInt 61)]]))
            lat lon [])
     = Raise (Exn KeyError "'temperatureUnit'").
Proof. repeat split; vm_compute; reflexivity. Qed.

End WeatherProps.

(** The alert of Kern County has no event, no severity and no
    instruction: the block shows "Unknown" and the default text. *)
Lemma get_alerts_cases_witness :
  get_alerts one_alert "CA" []
  = (Ok (nl ++ "        Event: Unknown"
         ++ nl ++ "        Area: Kern County"
         ++ nl ++ "        Severity: Unknown"
         ++ nl ++ "        Description: Heat"
         ++ nl ++ "        Instructions: No specific instructions provided"
         ++ nl ++ "    "),
     [HttpGet "https://api.weather.gov/alerts/active/area/CA"
        [("User-Agent", "weather-app/1.0"); ("Accept", "application/geo+json")]]).
Proof.
  exact (proj2 (proj2 (get_alerts_cases one_alert "CA" _ _ eq_refl))
           _ kern_alert [] [_] eq_refl eq_refl eq_refl).
Defined.

(** C4 as stated fails, for it speaks of every response.  A feature
    without a [properties] object is not rendered with the defaults: the
    call raises.  A [features] field that is null is neither missing nor
    an empty list, and the answer is the message of the empty list.  A
    body that is a number makes the test for the field raise. *)
Lemma get_alerts_not_every_response :
  fst (get_alerts bare_features "CA" []) = Raise (Exn KeyError "'properties'")
  /\ fst (get_alerts null_features "CA" []) = Ok "No active alerts for this state."
  /\ exists message,
       fst (get_alerts number_body "CA" []) = Raise (Exn TypeError message).
Proof.
  split; [vm_compute; reflexivity|]. split; [vm_compute; reflexivity|].
  eexists. vm_compute. reflexivity.
Qed.

(** Eight periods, of which the last three are not even objects: the
    first five are rendered. *)
Lemma get_forecast_first_five_witness :
  get_forecast (two_step points_body (forecast_body eight_periods)) lat lon []
  = (Ok (join separator (map rendered_period (map row [1; 2; 3; 4; 5]%Z))),
     [HttpGet (points_url lat lon) nws_headers; HttpGet forecast_link nws_headers])
  /\ length (map row [1; 2; 3; 4; 5]%Z) = 5%nat.
Proof.
  refine (get_forecast_first_five
            (two_step points_body (forecast_body eight_periods)) lat lon
            points_body (PStr forecast_link) (forecast_body eight_periods)
            _ _ eight_periods (map row [1; 2; 3; 4; 5]%Z)
            eq_refl eq_refl eq_refl eq_refl _ eq_refl).
  simpl. lia.
Defined.

(** ** The space news server *)

Import SpaceNews SpaceNewsSpec.

Section SpaceNewsProps.

Variable w : SpaceNews.env.

Lemma title_and_summary_catchable res : catchable (title_and_summary res).
Proof.
  unfold title_and_summary, and_then.
  pose proof (getitem_catchable res "title") as H1.
  pose proof (getitem_catchable res "summary") as H2.
  destruct (getitem res "title"); [|exact H1].
  destruct (getitem res "summary"); [exact I | exact H2].
Qed.

(** The helper makes one request and returns; a failed request gives
    [None]. *)
Lemma get_spaceflight_news_date_returns date t :
  exists news,
    get_spaceflight_news_date w date t
    = (Ok news, (t ++ [HttpGet (news_endpoint date) news_headers])%list)
    /\ (failed (http w t (news_endpoint date)) -> news = None).
Proof.
  unfold get_spaceflight_news_date, try_except.
  unfold bind at 1. unfold call at 1.
  destruct (http w t (news_endpoint date)) as [msg| |status [body|]] eqn:Ho;
    cbn [Http.as_result];
    try (eexists; split; [reflexivity | reflexivity]).
  - unfold bind at 1. unfold lift at 1, Http.raise_for_status. cbn [fst].
    destruct ((200 <=? status)%Z && (status <=? 299)%Z) eqn:Hs.
    + unfold bind at 1. unfold lift at 1. cbn [Http.json snd].
      unfold bind at 1. unfold lift at 1.
      pose proof (getitem_catchable body "results") as Hr.
      destruct (getitem body "results") as [results|e].
      * unfold bind at 1. unfold lift at 1.
        pose proof (iter_catchable results) as Hi.
        destruct (iter results) as [items|e].
        -- unfold bind at 1.
           destruct (mapM_lift_catchable title_and_summary items
                       (t ++ [HttpGet (news_endpoint date) news_headers])%list
                       title_and_summary_catchable) as [r [Hm Hc]].
           rewrite Hm. destruct r as [l|e].
           ++ eexists. split; [reflexivity|].
              intros [Hf|Hf]; [|discriminate].
              exfalso. apply Hf. apply andb_true_iff in Hs as [H1 H2].
              split; apply Z.leb_le; assumption.
           ++ simpl in Hc. rewrite Hc. eexists. split; [reflexivity | reflexivity].
        -- simpl in Hi. rewrite Hi. eexists. split; reflexivity.
      * simpl in Hr. rewrite Hr. eexists. split; reflexivity.
    + eexists. split; reflexivity.
  - unfold bind at 1. unfold lift at 1, Http.raise_for_status. cbn [fst].
    destruct ((200 <=? status)%Z && (status <=? 299)%Z).
    + eexists. split; reflexivity.
    + eexists. split; reflexivity.
Qed.

(** C7: a call with language "EN" makes no sampling call and, when the
    news API gave at least one item, returns the list of the mappings
    with the keys [title] and [summary], one per item and in order, as it
    is.  With any other language and such news, exactly one sampling call
    is made, with the prompt for that language and these mappings; its
    reply is the result, and if it raises the call fails with
    "Translation failed, LLM Sampling not available.". *)
Theorem spacenews_language_branch :
  sample_calls (snd (get_todays_spacenews w "EN" [])) = 0%nat
  /\ forall first rest,
       fst (get_spaceflight_news_date w (today w) []) = Ok (Some (first :: rest)) ->
       let mappings :=
         map (fun news => PDict [("title", fst news); ("summary", snd news)])
           (first :: rest) in
       get_todays_spacenews w "EN" [] = (Ok (PList mappings), [fetch_event w])
       /\ forall language,
            language <> "EN" ->
            let prompt := translation_prompt language mappings in
            let outcome := get_todays_spacenews w language [] in
            snd outcome = [fetch_event w; Sample prompt]
            /\ sample_calls (snd outcome) = 1%nat
            /\ (forall reply,
                  sample w [fetch_event w] prompt = Ok reply -> fst outcome = Ok reply)
            /\ (forall e,
                  sample w [fetch_event w] prompt = Raise e ->
                  fst outcome
                  = Raise (Exn FastMCPError
                             "Translation failed, LLM Sampling not available.")).
Proof.
  destruct (get_spaceflight_news_date_returns (today w) []) as [news [Hfetch _]].
  simpl app in Hfetch. fold (fetch_event w) in Hfetch.
  split.
  - unfold get_todays_spacenews. rewrite (bind_ok _ _ _ _ _ Hfetch).
    destruct news as [[|first rest]|]; reflexivity.
  - intros first rest Hnews mappings. rewrite Hfetch in Hnews. simpl in Hnews.
    injection Hnews as ->. subst mappings. split.
    + unfold get_todays_spacenews. rewrite (bind_ok _ _ _ _ _ Hfetch). reflexivity.
    + intros language Hlang prompt outcome. subst outcome.
      unfold get_todays_spacenews. rewrite (bind_ok _ _ _ _ _ Hfetch).
      apply String.eqb_neq in Hlang. rewrite Hlang. cbn [negb].
      unfold reformat. fold prompt. unfold try_except, call, raise.
      destruct (sample w [fetch_event w] prompt) as [reply|e]; cbn [fst snd];
        repeat split; try reflexivity; intros ? [=]; subst; reflexivity.
Qed.

(** Without news the call fails after the one request. *)
Lemma no_news_fails (language : string) news :
  get_spaceflight_news_date w (today w) [] = (Ok news, [fetch_event w]) ->
  news = None \/ news = Some [] ->
  get_todays_spacenews w language []
  = (Raise (Exn FastMCPError "API Call Failed."), [fetch_event w]).
Proof.
  intros Hfetch Hnews. unfold get_todays_spacenews. rewrite (bind_ok _ _ _ _ _ Hfetch).
  destruct Hnews as [-> | ->]; reflexivity.
Qed.

Lemma failed_request_fails (language : string) :
  failed (http w [] (news_endpoint (today w))) ->
  get_todays_spacenews w language []
  = (Raise (Exn FastMCPError "API Call Failed."), [fetch_event w]).
Proof.
  intros H.
  destruct (get_spaceflight_news_date_returns (today w) []) as [news [Hfetch Hfailed]].
  apply (no_news_fails language news Hfetch). left. exact (Hfailed H).
Qed.

(** C8: when the request to the news API fails, or the helper has no
    data, or the list of results is empty, the call ends in the error
    "API Call Failed." whatever the language, after the one request to
    the API and without a sampling call. *)
Theorem spacenews_upstream_failure (language : string) :
  failed (http w [] (news_endpoint (today w)))
  \/ fst (get_spaceflight_news_date w (today w) []) = Ok None
  \/ fst (get_spaceflight_news_date w (today w) []) = Ok (Some []) ->
  get_todays_spacenews w language []
  = (Raise (Exn FastMCPError "API Call Failed."), [fetch_event w])
  /\ sample_calls (snd (get_todays_spacenews w language [])) = 0%nat.
Proof.
  intros H.
  assert (Hfails : get_todays_spacenews w language []
                   = (Raise (Exn FastMCPError "API Call Failed."), [fetch_event w])).
  { destruct H as [H | H]; [exact (failed_request_fails language H)|].
    destruct (get_spaceflight_news_date_returns (today w) []) as [news [Hfetch _]].
    apply (no_news_fails language news Hfetch).
    rewrite Hfetch in H. simpl in H.
    destruct H as [H | H]; injection H as ->; [left | right]; reflexivity. }
  rewrite Hfails. split; reflexivity.
Qed.

End SpaceNewsProps.

(** ** The fetch helpers *)

(** C6: the two fetch helpers return for every url and every outcome of
    the request, they never raise; a network error, a timeout, a status
    that is not 2xx and a body that does not parse each give [None]; and
    the tools turn that [None] into their fixed message
    ("Unable to fetch alerts or no alerts found.",
    "Unable to fetch forecast data for this location.",
    "Unable to fetch detailed forecast.") or into the protocol error
    "API Call Failed.". *)
Theorem fetch_helpers_never_raise :
  (forall (net : Weather.env) (url : pyval) t,
      exists data t', make_nws_request net url t = (Ok data, t'))
  /\ (forall (w : SpaceNews.env) (date : string) t,
        exists news t', get_spaceflight_news_date w date t = (Ok news, t'))
  /\ (forall (net : Weather.env) (url : string) t,
        failed (net t url) ->
        make_nws_request net (PStr url) t
        = (Ok PNone, (t ++ [Weather.HttpGet url nws_headers])%list))
  /\ (forall (w : SpaceNews.env) (date : string) t,
        failed (http w t (news_endpoint date)) ->
        get_spaceflight_news_date w date t
        = (Ok None, (t ++ [HttpGet (news_endpoint date) news_headers])%list))
  /\ (forall (net : Weather.env) (state : string),
        failed (net [] (alerts_url state)) ->
        fst (get_alerts net state []) = Ok "Unable to fetch alerts or no alerts found.")
  /\ (forall (net : Weather.env) (latitude longitude : pyval),
        failed (net [] (points_url latitude longitude)) ->
        fst (get_forecast net latitude longitude [])
        = Ok "Unable to fetch forecast data for this location.")
  /\ (forall (net : Weather.env) (latitude longitude : pyval) (forecast_url : string),
        property (nws_data (net [] (points_url latitude longitude))) "forecast"
        = Ok (PStr forecast_url) ->
        failed (net [Weather.HttpGet (points_url latitude longitude) nws_headers]
                  forecast_url) ->
        fst (get_forecast net latitude longitude [])
        = Ok "Unable to fetch detailed forecast.")
  /\ (forall (w : SpaceNews.env) (language : string),
        failed (http w [] (news_endpoint (today w))) ->
        fst (get_todays_spacenews w language [])
        = Raise (Exn FastMCPError "API Call Failed.")).
Proof.
  repeat split.
  - intros net url t. apply make_nws_request_total.
  - intros w date t.
    destruct (get_spaceflight_news_date_returns w date t) as [news [H _]]. eauto.
  - intros net url t H. rewrite make_nws_request_str, (nws_data_failed _ H). reflexivity.
  - intros w date t H.
    destruct (get_spaceflight_news_date_returns w date t) as [news [Hn Hf]].
    rewrite Hn, (Hf H). reflexivity.
  - intros net state H. unfold get_alerts.
    rewrite (bind_ok _ _ _ _ _ (make_nws_request_str net _ _)), (nws_data_failed _ H).
    reflexivity.
  - intros net latitude longitude H. unfold get_forecast.
    rewrite (bind_ok _ _ _ _ _ (make_nws_request_str net _ _)), (nws_data_failed _ H).
    reflexivity.
  - intros net latitude longitude forecast_url Hurl H. unfold get_forecast.
    rewrite (bind_ok _ _ _ _ _ (make_nws_request_str net _ _)).
    apply property_ok in Hurl as [Htruthy [properties [Hp Hf]]].
    rewrite Htruthy. cbn [negb].
    rewrite (bind_lift_ok _ _ _ _ Hp), (bind_lift_ok _ _ _ _ Hf).
    rewrite (bind_ok _ _ _ _ _ (make_nws_request_str net _ _)).
    cbn [app]. rewrite (nws_data_failed _ H). reflexivity.
  - intros w language H. rewrite (failed_request_fails w language H). reflexivity.
Qed.

(** Two articles: in English the two mappings are returned, without the
    other fields of the articles; a German translation is asked for and
    the client cannot sample. *)
Lemma spacenews_language_branch_witness :
  get_todays_spacenews (world (Http.Response 200 (Some two_articles)) no_sampling) "EN" []
  = (Ok (PList [PDict [("title", PStr "Falcon 9 launches");
                       ("summary", PStr "Liftoff at 8:57.")];
                PDict [("title", PStr "Artemis update"); ("summary", PStr "A new date.")]]),
     [fetch_event (world (Http.Response 200 (Some two_articles)) no_sampling)])
  /\ fst (get_todays_spacenews (world (Http.Response 200 (Some two_articles)) no_sampling)
            "DE" [])
     = Raise (Exn FastMCPError "Translation failed, LLM Sampling not available.").
Proof.
  pose (w := world (Http.Response 200 (Some two_articles)) no_sampling).
  destruct (spacenews_language_branch w) as [_ H].
  destruct (H (PStr "Falcon 9 launches", PStr "Liftoff at 8:57.")
              [(PStr "Artemis update", PStr "A new date.")] eq_refl) as [Hen Hde].
  split; [exact Hen|].
  assert (Hneq : "DE" <> "EN") by discriminate.
  destruct (Hde "DE" Hneq) as [_ [_ [_ Hraise]]].
  exact (Hraise _ eq_refl).
Defined.

(** The news API answers 503. *)
Lemma spacenews_upstream_failure_witness :
  get_todays_spacenews (world (Http.Response 503 None) (Ok (PStr "unused"))) "DE" []
  = (Raise (Exn FastMCPError "API Call Failed."),
     [fetch_event (world (Http.Response 503 None) (Ok (PStr "unused")))]).
Proof.
  refine (proj1 (spacenews_upstream_failure
                   (world (Http.Response 503 None) (Ok (PStr "unused"))) "DE" _)).
  left. simpl. left. lia.
Defined.

(** A request that times out. *)
Lemma fetch_helpers_never_raise_witness :
  make_nws_request (fun _ _ => Http.Timeout) (PStr (alerts_url "CA")) []
  = (Ok PNone, [Weather.HttpGet (alerts_url "CA") nws_headers])
  /\ fst (get_alerts (fun _ _ => Http.Timeout) "CA" [])
     = Ok "Unable to fetch alerts or no alerts found."
  /\ fst (get_todays_spacenews (world Http.Timeout no_sampling) "EN" [])
     = Raise (Exn FastMCPError "API Call Failed.").
Proof.
  destruct fetch_helpers_never_raise as [_ [_ [Hnws [_ [Halerts [_ [_ Hnews]]]]]]].
  split; [|split].
  - exact (Hnws (fun _ _ => Http.Timeout) (alerts_url "CA") [] I).
  - exact (Halerts (fun _ _ => Http.Timeout) "CA" I).
  - exact (Hnews (world Http.Timeout no_sampling) "EN" I).
Defined.

(** ** Strings *)

Lemma prefix_app p s : String.prefix p (p ++ s) = true.
Proof.
  induction p as [|c p IH]; simpl.
  - destruct s; reflexivity.
  - destruct (Ascii.ascii_dec c c) as [_|H]; [exact IH | contradiction].
Qed.

Lemma str_contains_prefix p s : str_contains p (p ++ s) = true.
Proof.
  destruct (p ++ s) eqn:H; unfold str_contains; fold str_contains;
    rewrite <- H, prefix_app; reflexivity.
Qed.

Lemma str_contains_right a p s : str_contains p s = true -> str_contains p (a ++ s) = true.
Proof.
  intros H. induction a as [|c a IH]; simpl; [exact H|].
  rewrite IH. apply orb_true_r.
Qed.

(** ** The sales resource server *)

Import Sales SalesSpec.

Lemma get_sales_found (w : Sales.env) year month :
  isfile w (sales_file w year month) = true ->
  get_sales w year month = read_csv_records w (sales_file w year month).
Proof. intros H. unfold get_sales. fold (sales_file w year month). rewrite H. reflexivity. Qed.

Lemma get_sales_missing (w : Sales.env) year month :
  isfile w (sales_file w year month) = false ->
  exists msg,
    get_sales w year month = Raise (Exn FileNotFoundError msg)
    /\ str_contains (sales_file w year month) msg = true
    /\ str_contains "Month must be written" msg = true.
Proof.
  intros H. unfold get_sales. fold (sales_file w year month). rewrite H.
  eexists. split; [reflexivity|]. unfold not_found_message.
  fold (sales_file w year month). split.
  - do 5 apply str_contains_right. apply str_contains_prefix.
  - do 6 apply str_contains_right. reflexivity.
Qed.

(** C3: for March 2024 in a directory without sales files the month is
    lower-cased, the path ends in [data/sales_data/march_2024.csv] and
    the call fails with a [FileNotFoundError] whose message holds that
    path; but the hint of the message names the month twice and never
    the year, so it is not the documented hint. *)
Theorem get_sales_hint_names_month_twice :
  get_sales no_files 2024 "March"
  = Raise (Exn FileNotFoundError
             ("Sales data for march 2024 not found at "
              ++ "/srv/mcp_servers/data/sales_data/march_2024.csv"
              ++ ". Month must be written, month must be numeric"))
  /\ sales_file no_files 2024 "March" = "/srv/mcp_servers/data/sales_data/march_2024.csv"
  /\ str_contains documented_hint (not_found_message "march" 2024
                                     (Path (sales_file no_files 2024 "March"))) = false
  /\ str_contains "year must be numeric"
       (not_found_message "march" 2024 (Path (sales_file no_files 2024 "March"))) = false
  /\ get_sales march_only 2024 "March" = Ok march_rows.
Proof. repeat split; vm_compute; reflexivity. Qed.

(** ** Invariants of traces *)

Section TraceInvariants.

Context {E : Type}.

Variable P : E -> Prop.

Lemma preserves_ret {A : Type} (a : A) : preserves P (ret a).
Proof. intros t H. exact H. Qed.

Lemma preserves_raise {A : Type} e : preserves P (@raise E A e).
Proof. intros t H. exact H. Qed.

Lemma preserves_lift {A : Type} (r : result A) : preserves P (lift r).
Proof. intros t H. exact H. Qed.

Lemma preserves_call {A : Type} ev (oracle : list E -> result A) :
  P ev -> preserves P (call ev oracle).
Proof.
  intros Hev t H. unfold call. simpl. apply Forall_app. split; [exact H|].
  constructor; [exact Hev | constructor].
Qed.

Lemma preserves_bind {A B : Type} (m : M E A) (k : A -> M E B) :
  preserves P m -> (forall a, preserves P (k a)) -> preserves P (bind m k).
Proof.
  intros Hm Hk t H. unfold bind. specialize (Hm t H).
  destruct (m t) as [[a|e] t']; simpl in Hm.
  - apply Hk. exact Hm.
  - exact Hm.
Qed.

Lemma preserves_mapM {A B : Type} (f : A -> M E B) l :
  (forall a, preserves P (f a)) -> preserves P (mapM f l).
Proof.
  intros Hf. induction l as [|a l IH]; simpl.
  - apply preserves_ret.
  - apply preserves_bind; [apply Hf|]. intros b.
    apply preserves_bind; [exact IH|]. intros bs. apply preserves_ret.
Qed.

End TraceInvariants.

Section TraceGrowth.

Context {E : Type}.

Lemma extends_ret {A : Type} (a : A) : extends (@ret E A a).
Proof. intros t ev H. exact H. Qed.

Lemma extends_lift {A : Type} (r : result A) : extends (@lift E A r).
Proof. intros t ev H. exact H. Qed.

Lemma extends_call {A : Type} (e : E) (oracle : list E -> result A) :
  extends (call e oracle).
Proof. intros t ev H. unfold call. simpl. apply in_or_app. left. exact H. Qed.

Lemma extends_bind {A B : Type} (m : M E A) (k : A -> M E B) :
  extends m -> (forall a, extends (k a)) -> extends (bind m k).
Proof.
  intros Hm Hk t ev H. unfold bind. specialize (Hm t ev H).
  destruct (m t) as [[a|e] t']; simpl in Hm.
  - apply Hk. exact Hm.
  - exact Hm.
Qed.

Lemma bind_ok_inv {A B : Type} (m : M E A) (k : A -> M E B) t b t2 :
  bind m k t = (Ok b, t2) -> exists a t1, m t = (Ok a, t1) /\ k a t1 = (Ok b, t2).
Proof.
  unfold bind. destruct (m t) as [[a|e] t1]; [eauto | discriminate].
Qed.

End TraceGrowth.

(** ** The blog client *)

Import BlogClient BlogSpec.

Section BlogProps.

Variable w : BlogClient.env.

Lemma round_trip_preserves (P : event -> Prop) name arguments :
  P (GetPrompt name arguments) ->
  (forall model messages, P (Converse model messages)) ->
  preserves P (prompt_round_trip w name arguments).
Proof.
  intros Hp Hc. unfold prompt_round_trip.
  apply preserves_bind; [apply preserves_call; exact Hp|]. intros prompt.
  apply preserves_bind; [apply preserves_call; apply Hc|]. intros res.
  apply preserves_lift.
Qed.

Lemma round_trip_extends name arguments : extends (prompt_round_trip w name arguments).
Proof.
  unfold prompt_round_trip.
  apply extends_bind; [apply extends_call|]. intros prompt.
  apply extends_bind; [apply extends_call|]. intros res. apply extends_lift.
Qed.

(** A round trip that returns has asked for its prompt. *)
Lemma round_trip_asks name arguments t reply t' :
  prompt_round_trip w name arguments t = (Ok reply, t') ->
  In (GetPrompt name arguments) t'.
Proof.
  unfold prompt_round_trip. intros H.
  apply bind_ok_inv in H as [prompt [t1 [H1 H]]].
  apply bind_ok_inv in H as [res [t2 [H2 H]]].
  unfold lift in H. injection H as _ <-.
  unfold call in H1, H2. injection H1 as _ <-. injection H2 as _ <-.
  apply in_or_app. left. apply in_or_app. right. left. reflexivity.
Qed.

Lemma with_client_preserves (P : event -> Prop) {A : Type} (body : M event A) :
  P Connect -> P Disconnect -> preserves P body -> preserves P (with_client w body).
Proof.
  intros Hc Hd Hb. unfold with_client.
  apply preserves_bind; [apply preserves_call; exact Hc|]. intros _ t H.
  specialize (Hb t H). destruct (body t) as [r t']. simpl in *.
  apply Forall_app. split; [exact Hb|]. constructor; [exact Hd | constructor].
Qed.

(** A run that returns a blog post has asked for the intro prompt and for
    the main prompt with the literal list. *)
Lemma run_ok_asks code_file blogpost tr :
  run w code_file [] = (Ok blogpost, tr) ->
  exists code,
    read_file w code_file = Ok code
    /\ In (GetPrompt "Get Intro From Keywords" [("keywords", literal_keywords)]) tr
    /\ In (GetPrompt "Get Main Section From Code"
             [("keywords", literal_keywords); ("code", PStr code)]) tr.
Proof.
  unfold run. intros H.
  destruct (negb (isfile w code_file)); [discriminate|].
  apply bind_ok_inv in H as [code [t' [Hread H]]].
  unfold lift in Hread. injection Hread as Hread <-.
  exists code. split; [exact Hread|].
  unfold with_client in H.
  apply bind_ok_inv in H as [? [t0 [_ H]]]. cbv beta in H.
  match type of H with
  | (let (r, t') := ?body t0 in _) = _ => destruct (body t0) as [r tb] eqn:Hbody
  end.
  injection H as -> <-.
  apply bind_ok_inv in Hbody as [? [t1 [_ Hbody]]].
  apply bind_ok_inv in Hbody as [prompts [t2 [_ Hbody]]].
  apply bind_ok_inv in Hbody as [? [t3 [_ Hbody]]].
  apply bind_ok_inv in Hbody as [? [t4 [_ Hbody]]].
  apply bind_ok_inv in Hbody as [? [t5 [_ Hbody]]].
  apply bind_ok_inv in Hbody as [keywords [t6 [_ Hbody]]].
  apply bind_ok_inv in Hbody as [intro [t7 [Hintro Hbody]]].
  apply bind_ok_inv in Hbody as [main_part [t8 [Hmain Hbody]]].
  apply bind_ok_inv in Hbody as [post [t9 [Hagg Hbody]]].
  unfold ret in Hbody. injection Hbody as _ <-.
  unfold run_intro_prompt in Hintro. unfold run_main_prompt in Hmain.
  unfold run_aggregate_prompt in Hagg.
  pose proof (round_trip_asks _ _ _ _ _ Hintro) as Iintro.
  pose proof (round_trip_asks _ _ _ _ _ Hmain) as Imain.
  assert (E8 : t8 = snd (prompt_round_trip w "Get Main Section From Code"
                           [("keywords", fixed_keywords); ("code", PStr code)] t7))
    by (rewrite Hmain; reflexivity).
  assert (E9 : t9 = snd (prompt_round_trip w "Aggregate Blog Sections"
                           [("intro", intro); ("main", main_part);
                            ("outlook", PStr outlook_text)] t8))
    by (rewrite Hagg; reflexivity).
  split; apply in_or_app; left; rewrite E9; apply round_trip_extends;
    [|exact Imain].
  rewrite E8. apply round_trip_extends. exact Iintro.
Qed.

Lemma run_preserves code_file : preserves fixed_keyword_event (run w code_file).
Proof.
  assert (Hrt : forall name arguments,
             fixed_keyword_event (GetPrompt name arguments) ->
             preserves fixed_keyword_event (prompt_round_trip w name arguments)).
  { intros name arguments H. apply round_trip_preserves; [exact H|]. intros; exact I. }
  unfold run. destruct (negb (isfile w code_file)); [apply preserves_raise|].
  apply preserves_bind; [apply preserves_lift|]. intros code.
  apply with_client_preserves; try exact I.
  apply preserves_bind; [apply preserves_call; exact I|]. intros _.
  apply preserves_bind; [apply preserves_call; exact I|]. intros prompts.
  apply preserves_bind; [apply preserves_call; exact I|]. intros _.
  apply preserves_bind; [apply preserves_call; exact I|]. intros _.
  apply preserves_bind.
  { apply preserves_mapM. intros name. apply preserves_call. exact I. }
  intros _. apply preserves_bind.
  { unfold run_keyword_prompt. apply preserves_bind; [|intros; apply preserves_lift].
    apply Hrt. split; discriminate. }
  intros keywords. apply preserves_bind.
  { apply Hrt. split; [reflexivity | discriminate]. }
  intros intro. apply preserves_bind.
  { apply Hrt. split; [discriminate | eauto]. }
  intros main_part. apply preserves_bind; [|intros; apply preserves_ret].
  apply Hrt. split; discriminate.
Qed.

(** C1: in every run, whatever the file, the servers and the model do,
    each prompt request of the intro step and of the main step carries
    the literal list ["MCP", "FastMCP", "Prompts"]; and a run that returns
    a blog post has made both requests with that list, whatever its
    keyword step returned. *)
Theorem run_fixed_keywords (code_file : string) :
  Forall fixed_keyword_event (snd (run w code_file []))
  /\ forall blogpost,
       fst (run w code_file []) = Ok blogpost ->
       exists code,
         read_file w code_file = Ok code
         /\ In (GetPrompt "Get Intro From Keywords"
                  [("keywords", PList [PStr "MCP"; PStr "FastMCP"; PStr "Prompts"])])
              (snd (run w code_file []))
         /\ In (GetPrompt "Get Main Section From Code"
                  [("keywords", PList [PStr "MCP"; PStr "FastMCP"; PStr "Prompts"]);
                   ("code", PStr code)])
              (snd (run w code_file [])).
Proof.
  split.
  - apply run_preserves. constructor.
  - intros blogpost Hok.
    destruct (run w code_file []) as [r tr] eqn:Hrun. simpl in Hok. subst r.
    exact (run_ok_asks code_file blogpost tr Hrun).
Qed.

Lemma loads_raises_exception s e : Json.loads s = Raise e -> is_Exception e = true.
Proof.
  unfold Json.loads.
  destruct (Json.value _ _) as [[v rest]|]; [destruct (Json.skip_ws rest)|];
    intros [= <-]; reflexivity.
Qed.

(** The part of the keyword step that is as documented: a reply that is
    not valid JSON once the fences are gone ends in
    [ValueError("Error Loading Keyword Response")]. *)
Lemma run_keyword_prompt_invalid code t text t' e :
  prompt_round_trip w "Get Keywords From Code" [("code", PStr code)] t
  = (Ok (PStr text), t') ->
  Json.loads (replace (replace text "```json" "") "```" "") = Raise e ->
  run_keyword_prompt w code t
  = (Raise (Exn ValueError "Error Loading Keyword Response"), t').
Proof.
  intros Hreply Hloads. unfold run_keyword_prompt. rewrite (bind_ok _ _ _ _ _ Hreply).
  unfold lift, load_keywords, strip_fences, replace_method, and_then.
  rewrite Hloads, (loads_raises_exception _ _ Hloads). reflexivity.
Qed.

End BlogProps.

(** C2: for the reply with fences around [{"keywords": ["A","B"]}] the
    fences are stripped and the text parses, but the keyword step
    returns the parsed object with its [keywords] key, not the list
    ["A","B"] that its docstring and return annotation promise. *)
Theorem keyword_step_returns_object :
  strip_fences (PStr fenced_reply)
  = Ok (nl ++ "{" ++ dq ++ "keywords" ++ dq ++ ": [" ++ dq ++ "A" ++ dq ++ ","
        ++ dq ++ "B" ++ dq ++ "]}" ++ nl)
  /\ fst (run_keyword_prompt (world fenced_reply) "from fastmcp import FastMCP" [])
     = Ok (PDict [("keywords", PList [PStr "A"; PStr "B"])])
  /\ fst (run_keyword_prompt (world fenced_reply) "from fastmcp import FastMCP" [])
     <> Ok (PList [PStr "A"; PStr "B"])
  /\ fst (run_keyword_prompt (world "Here are the keywords: A, B")
            "from fastmcp import FastMCP" [])
     = Raise (Exn ValueError "Error Loading Keyword Response").
Proof.
  repeat split; try (vm_compute; reflexivity).
  vm_compute. discriminate.
Qed.

(** The model answers with the fenced object; the intro prompt is asked
    for with the literal list all the same. *)
Lemma run_fixed_keywords_witness :
  In (GetPrompt "Get Intro From Keywords"
        [("keywords", PList [PStr "MCP"; PStr "FastMCP"; PStr "Prompts"])])
    (snd (run (world fenced_reply) "server.py" [])).
Proof.
  assert (Hok : fst (run (world fenced_reply) "server.py" []) = Ok (PStr fenced_reply))
    by (vm_compute; reflexivity).
  destruct (proj2 (run_fixed_keywords (world fenced_reply) "server.py") _ Hok)
    as [code [_ [H _]]].
  exact H.
Defined.

(** ** The tool clients *)

Import ToolClient ToolSpec.

Section ToolProps.

Variable w : ToolClient.env.
Variables system config : pyval.

Lemma handle_contents_app st l1 l2 t :
  handle_contents w system config st (l1 ++ l2) t
  = bind (handle_contents w system config st l1)
      (fun st' => handle_contents w system config st' l2) t.
Proof.
  revert st t. induction l1 as [|c l1 IH]; intros st t; simpl.
  - reflexivity.
  - unfold bind.
    destruct (handle_content w system config st c t) as [[st'|e] t']; [|reflexivity].
    rewrite IH. reflexivity.
Qed.

Lemma handle_text_block st block s t :
  block_text block = Some s ->
  handle_content w system config st block t
  = (Ok {| final_text := (final_text st ++ [PStr s])%list;
           assistant_message_content := (assistant_message_content st ++ [block])%list;
           messages := messages st |}, t).
Proof.
  unfold block_text. destruct block; try discriminate.
  destruct (dict_get d "toolUse") eqn:Htool; [discriminate|].
  destruct (dict_get d "text") as [[]|] eqn:Htext; try discriminate.
  intros [= ->]. unfold handle_content, contains, has_key, getitem.
  rewrite Htext, Htool. reflexivity.
Qed.

Lemma handle_text_blocks blocks : forall st texts t,
  map block_text blocks = map Some texts ->
  handle_contents w system config st blocks t
  = (Ok {| final_text := (final_text st ++ map PStr texts)%list;
           assistant_message_content := (assistant_message_content st ++ blocks)%list;
           messages := messages st |}, t).
Proof.
  induction blocks as [|b blocks IH]; intros st [|s texts] t H; simpl in H;
    try discriminate.
  - simpl. rewrite !app_nil_r. destruct st; reflexivity.
  - injection H as Hb Hbs. simpl.
    rewrite (bind_ok _ _ _ _ _ (handle_text_block st b s t Hb)).
    rewrite (IH _ texts t Hbs). simpl. rewrite <- !app_assoc. reflexivity.
Qed.

Lemma strings_of_strs l : strings_of (map PStr l) = Some l.
Proof. induction l as [|s l IH]; simpl; [|rewrite IH]; reflexivity. Qed.

(** The iteration on a tool-use block: one tool call, one follow-up
    request that carries the blocks so far and the tool result, and two
    more lines of output. *)
Lemma handle_tool_use st block name args id items follow_up text t :
  tool_use_of block = Some (name, args, id) ->
  call_tool w t name args = Ok items ->
  let st2 :=
    {| final_text := (final_text st ++ [PStr (calling_line name args)])%list;
       assistant_message_content := (assistant_message_content st ++ [block])%list;
       messages :=
         (messages st
          ++ [AssistantMessage;
              Message "user"
                [PDict [("toolResult",
                         PDict [("toolUseId", id);
                                ("content", PList (tool_result_content items))])]]])%list |} in
  let sent := map (resolve (assistant_message_content st2)) (messages st2) in
  converse w (t ++ [CallTool name args])%list BEDROCK_MODEL_ID sent system config
  = Ok follow_up ->
  first_text follow_up = Ok text ->
  handle_content w system config st block t
  = (Ok {| final_text := (final_text st2 ++ [text])%list;
           assistant_message_content := assistant_message_content st2;
           messages := messages st2 |},
     ((t ++ [CallTool name args]) ++ [Converse BEDROCK_MODEL_ID sent system config])%list).
Proof.
  unfold tool_use_of. destruct block; try discriminate.
  destruct (dict_get d "text") eqn:Htext; [discriminate|].
  destruct (dict_get d "toolUse") as [[]|] eqn:Htool; try discriminate.
  rename d0 into u.
  destruct (dict_get u "name") as [name'|] eqn:Hname; [|discriminate].
  destruct (dict_get u "input") as [args'|] eqn:Hargs; [|discriminate].
  destruct (dict_get u "toolUseId") as [id'|] eqn:Hid; [|discriminate].
  intros [= -> -> ->] Hcall Hconverse Hfirst.
  cbn [assistant_message_content messages final_text] in *.
  unfold handle_content, contains, has_key, getitem, and_then.
  rewrite Htext, Htool, Hname, Hargs, Hid.
  unfold send. unfold bind, lift, ret, call. cbv beta iota.
  rewrite Hcall. cbv beta iota zeta. cbn [assistant_message_content messages final_text].
  rewrite Hconverse, Hfirst. reflexivity.
Qed.

End ToolProps.

(** C5, amended: when the first reply has exactly one tool-use block,
    among text blocks, and the tool call and the follow-up request
    succeed with a follow-up reply that starts with a text block, then
    [process_query] makes exactly one tool call and exactly one follow-up
    request, and returns, joined by newlines, the texts before the
    tool-use block, the line "[Calling tool <name> with args <args>]",
    the first text of the follow-up reply, and then the texts of the
    blocks that come after the tool-use block in the first reply.  Both
    clients are instances: they differ in [system_text] only. *)
Theorem process_query_single_follow_up
  (system_text : string) (w : ToolClient.env) (query : string) (tools : list tool)
  (reply follow_up : pyval) (before after : list pyval) (tool_use : pyval)
  (before_texts after_texts : list string) (name args id : pyval)
  (items : list content_item) (text : string) :
  let ask := request system_text tools [user_query query] in
  let again := follow_up_messages query (before ++ [tool_use]) id items in
  list_tools w [] = Ok tools ->
  converse w [ListTools] BEDROCK_MODEL_ID [user_query query]
    (system_prompts system_text) (tool_config tools) = Ok reply ->
  response_content reply = Ok (PList (before ++ tool_use :: after)) ->
  map block_text before = map Some before_texts ->
  tool_use_of tool_use = Some (name, args, id) ->
  map block_text after = map Some after_texts ->
  call_tool w [ListTools; ask] name args = Ok items ->
  converse w [ListTools; ask; CallTool name args] BEDROCK_MODEL_ID again
    (system_prompts system_text) (tool_config tools) = Ok follow_up ->
  first_text follow_up = Ok (PStr text) ->
  let outcome := process_query_with system_text w query [] in
  outcome
  = (Ok (join nl (before_texts ++ [calling_line name args; text] ++ after_texts)%list),
     [ListTools; ask; CallTool name args; request system_text tools again])
  /\ tool_calls (snd outcome) = 1%nat
  /\ llm_calls (snd outcome) = 2%nat.
Proof.
  intros ask again Htools Hreply Hcontent Hbefore Htool Hafter Hcall Hfollow Hfirst outcome.
  assert (Hout : outcome
                 = (Ok (join nl (before_texts ++ [calling_line name args; text]
                                 ++ after_texts)%list),
                    [ListTools; ask; CallTool name args; request system_text tools again])).
  { subst outcome. unfold process_query_with.
    unfold bind at 1. unfold call at 1. rewrite Htools. cbn [app].
    unfold bind at 1. unfold send at 1, call at 1.
    cbn [assistant_message_content messages map resolve app].
    fold (user_query query). fold (system_prompts system_text).
    rewrite Hreply. fold ask.
    rewrite (bind_lift_ok _ _ _ _ Hcontent). cbn [iter].
    rewrite (bind_lift_ok (E := event) _ _ _ _ eq_refl).
    unfold bind at 1. rewrite handle_contents_app. unfold bind at 1.
    rewrite (handle_text_blocks _ _ _ _ _ before_texts _ Hbefore).
    cbn [final_text assistant_message_content messages app handle_contents].
    unfold bind at 1.
    rewrite (handle_tool_use w _ _ _ tool_use name args id items follow_up (PStr text)
               [ListTools; ask] Htool Hcall).
    - cbn [final_text assistant_message_content messages app].
      rewrite (handle_text_blocks _ _ _ _ _ after_texts _ Hafter).
      cbn [final_text assistant_message_content messages app].
      unfold lift, join_values.
      replace (((map PStr before_texts ++ [PStr (calling_line name args)])
                ++ [PStr text]) ++ map PStr after_texts)%list
        with (map PStr (before_texts ++ [calling_line name args; text] ++ after_texts)%list)
        by (rewrite !map_app, <- !app_assoc; reflexivity).
      rewrite strings_of_strs. reflexivity.
    - exact Hfollow.
    - exact Hfirst. }
  rewrite Hout. repeat split.
Qed.

(** The local client on a first reply with text on both sides of the
    tool-use block. *)
Lemma process_query_single_follow_up_witness :
  fst (ToolClient.process_query (world text_around_call [text_block "No alerts in CA."])
         "Any alerts in CA?" [])
  = Ok (join nl ["Checking."; alerts_line; "No alerts in CA."; "One moment."])
  /\ tool_calls (snd (ToolClient.process_query
                        (world text_around_call [text_block "No alerts in CA."])
                        "Any alerts in CA?" [])) = 1%nat.
Proof.
  pose proof (process_query_single_follow_up system_prompt_local
                (world text_around_call [text_block "No alerts in CA."])
                "Any alerts in CA?" weather_tools
                (reply_of text_around_call) (reply_of [text_block "No alerts in CA."])
                [text_block "Checking."] [text_block "One moment."] alerts_call
                ["Checking."] ["One moment."]
                (PStr "get_alerts") (PDict [("state", PStr "CA")]) (PStr "tooluse_1")
                [TextContent "No active alerts for this state."] "No alerts in CA."
                eq_refl eq_refl eq_refl eq_refl eq_refl eq_refl eq_refl eq_refl eq_refl)
    as [Hout [Hcalls _]].
  split; [|exact Hcalls].
  unfold ToolClient.process_query. rewrite Hout. reflexivity.
Defined.

(** C5 as stated fails: with the same first reply, which has exactly one
    tool-use block, the OAuth client returns the text of the last block
    after the follow-up text, which is neither the join of the texts
    before the tool-use block, the diagnostic line and the follow-up
    text, nor that join with all texts of the first reply in front. *)
Lemma process_query_text_after_tool_use :
  List.length (filter has_tool_use text_around_call) = 1%nat
  /\ fst (OAuthToolClient.process_query
            (world text_around_call [text_block "No alerts in CA."])
            "Any alerts in CA?" [])
     = Ok (join nl ["Checking."; alerts_line; "No alerts in CA."; "One moment."])
  /\ join nl ["Checking."; alerts_line; "No alerts in CA."; "One moment."]
     <> claimed_text ["Checking."] alerts_line "No alerts in CA."
  /\ join nl ["Checking."; alerts_line; "No alerts in CA."; "One moment."]
     <> claimed_text ["Checking."; "One moment."] alerts_line "No alerts in CA.".
Proof.
  split; [reflexivity|]. split; [vm_compute; reflexivity|].
  split; vm_compute; discriminate.
Qed.

(* ===================================================================== *)
(** * Further properties                                                  *)
(* ===================================================================== *)

(** ** The monad, continued *)

Section EffMore.

Context {E : Type}.

Lemma mapM_lift_trace {A B : Type} (f : A -> result B) (l : list A) (t : list E) :
  snd (mapM (fun a => lift (f a)) l t) = t.
Proof.
  induction l as [|a l IH]; simpl; [reflexivity|].
  unfold bind at 1. unfold lift at 1. destruct (f a); [|reflexivity].
  unfold bind at 1. destruct (mapM _ l t) as [[bs|e] t'] eqn:H; simpl in IH; subst t';
    reflexivity.
Qed.

(** A list with an item on which [f] raises makes the whole loop raise. *)
Lemma mapM_lift_raise {A B : Type} (Q : exn -> Prop) (f : A -> result B) (l : list A)
  (x : A) (t : list E) :
  (forall a e, f a = Raise e -> Q e) ->
  In x l -> (exists e, f x = Raise e) ->
  exists e, mapM (fun a => lift (f a)) l t = (Raise e, t) /\ Q e.
Proof.
  intros HQ Hin [ex Hx]. induction l as [|a l IH]; [contradiction|]. simpl.
  unfold bind at 1. unfold lift at 1. destruct (f a) as [b|e] eqn:Ha.
  - destruct Hin as [-> | Hin]; [congruence|].
    destruct (IH Hin) as [e [Hm He]]. unfold bind at 1. rewrite Hm. eauto.
  - exists e. split; [reflexivity | eapply HQ; eassumption].
Qed.

End EffMore.

(** ** The weather server, continued *)

Import Weather WeatherSpec WeatherMore.

Section WeatherMoreProps.

Variable net : Weather.env.

Lemma make_nws_request_trace url t :
  exists data, make_nws_request net url t = (Ok data, (t ++ request_of url)%list).
Proof.
  destruct url; try (exists PNone; simpl; rewrite app_nil_r; reflexivity).
  rewrite make_nws_request_str. eauto.
Qed.

Lemma make_nws_request_not_text url t :
  is_text url = false -> make_nws_request net url t = (Ok PNone, t).
Proof. destruct url; try discriminate; reflexivity. Qed.

Lemma format_alert_raises feature e :
  format_alert feature = Raise e -> lookup_error e.
Proof.
  unfold format_alert, and_then, lookup_error.
  destruct (getitem feature "properties") as [props|e0] eqn:Hp.
  - destruct props; simpl; try (intros [= <-]; auto).
    destruct (dict_get d "event"), (dict_get d "areaDesc"), (dict_get d "severity"),
      (dict_get d "description"), (dict_get d "instruction"); discriminate.
  - intros [= <-]. destruct feature; simpl in Hp; try (injection Hp as <-; auto).
    destruct (dict_get d "properties"); [discriminate | injection Hp as <-; auto].
Qed.

Lemma format_alert_needs_properties feature :
  properties_of feature = None -> exists e, format_alert feature = Raise e.
Proof.
  unfold properties_of, format_alert, and_then.
  destruct feature; try (intros _; eexists; reflexivity).
  unfold getitem. destruct (dict_get d "properties") as [[]|]; try discriminate;
    intros _; eexists; reflexivity.
Qed.

(** X1: a [features] field that is there but empty in Python's sense
    (null, false, zero, an empty string, list or object) gives
    "No active alerts for this state.", not only the empty list. *)
Theorem get_alerts_falsy_features (state : string) (d : dict) (features : pyval)
  (t : list event) :
  make_nws_request net (PStr (alerts_url state)) [] = (Ok (PDict d), t) ->
  dict_get d "features" = Some features ->
  truthy features = false ->
  get_alerts net state [] = (Ok "No active alerts for this state.", t).
Proof.
  intros Hfetch Hd Hfalsy. unfold get_alerts. rewrite (bind_ok _ _ _ _ _ Hfetch).
  rewrite (dict_get_some_truthy _ _ _ Hd).
  unfold contains, has_key, getitem. rewrite Hd.
  unfold bind, lift, ret. cbn [negb]. cbv beta iota. rewrite Hfalsy. reflexivity.
Qed.

(** X2: [get_alerts] gives no partial text: when any feature of the list
    has no [properties] object, the call ends in a KeyError, a TypeError
    or an AttributeError, after the one request. *)
Theorem get_alerts_malformed_feature (state : string) (d : dict)
  (features : list pyval) (bad : pyval) (t : list event) :
  make_nws_request net (PStr (alerts_url state)) [] = (Ok (PDict d), t) ->
  dict_get d "features" = Some (PList features) ->
  In bad features ->
  properties_of bad = None ->
  exists e, get_alerts net state [] = (Raise e, t) /\ lookup_error e.
Proof.
  intros Hfetch Hd Hin Hbad.
  destruct (mapM_lift_raise lookup_error format_alert features bad t
              format_alert_raises Hin (format_alert_needs_properties _ Hbad))
    as [e [Hm He]].
  exists e. split; [|exact He].
  unfold get_alerts. rewrite (bind_ok _ _ _ _ _ Hfetch).
  rewrite (dict_get_some_truthy _ _ _ Hd).
  unfold contains, has_key, getitem. rewrite Hd.
  destruct features as [|f fs]; [contradiction|].
  unfold bind, lift, ret, iter in *. cbn [negb truthy]. cbv beta iota. rewrite Hm.
  reflexivity.
Qed.

(** X3: a default is shown for a missing field only.  A field that is
    there is shown as Python prints it, so a null instruction or
    description reads "None". *)
Theorem format_alert_shows_null (feature : pyval) (props : dict) :
  properties_of feature = Some props ->
  (dict_get props "instruction" = Some PNone ->
   format_alert feature
   = Ok (alert_text (field_or props "event" "Unknown")
           (field_or props "areaDesc" "Unknown") (field_or props "severity" "Unknown")
           (field_or props "description" "No description available") "None"))
  /\ (dict_get props "description" = Some PNone ->
      format_alert feature
      = Ok (alert_text (field_or props "event" "Unknown")
              (field_or props "areaDesc" "Unknown") (field_or props "severity" "Unknown")
              "None" (field_or props "instruction" "No specific instructions provided"))).
Proof.
  intros Hp. rewrite (format_alert_ok _ _ Hp). unfold rendered_alert.
  split; intros H; unfold field_or; rewrite H; reflexivity.
Qed.

Lemma getitem_raises_class v k e :
  getitem v k = Raise e -> exn_cls e = KeyError \/ exn_cls e = TypeError.
Proof.
  destruct v; simpl; try (intros [= <-]; auto).
  destruct (dict_get d k); [discriminate | intros [= <-]; auto].
Qed.

Lemma format_period_raises_class period e :
  format_period period = Raise e -> exn_cls e = KeyError \/ exn_cls e = TypeError.
Proof.
  unfold format_period, and_then.
  repeat match goal with
         | |- context [getitem period ?k] =>
             let H := fresh "H" in
             destruct (getitem period k) eqn:H;
             [|intros [= <-]; eapply getitem_raises_class; eassumption]
         end.
  discriminate.
Qed.

Lemma format_period_needs_fields period :
  fields_of period = None -> exists e, format_period period = Raise e.
Proof.
  unfold fields_of, format_period, and_then.
  destruct period; try (intros _; eexists; reflexivity).
  unfold getitem.
  destruct (dict_get d "name"); [|intros _; eexists; reflexivity].
  destruct (dict_get d "temperature"); [|intros _; eexists; reflexivity].
  destruct (dict_get d "temperatureUnit"); [|intros _; eexists; reflexivity].
  destruct (dict_get d "windSpeed"); [|intros _; eexists; reflexivity].
  destruct (dict_get d "windDirection"); [|intros _; eexists; reflexivity].
  destruct (dict_get d "detailedForecast"); [discriminate | intros _; eexists; reflexivity].
Qed.

(** The steps of [get_forecast] after its two requests brought data. *)
Lemma get_forecast_fetched latitude longitude points_data forecast_url forecast_data
  t1 t2 periods :
  make_nws_request net (PStr (points_url latitude longitude)) [] = (Ok points_data, t1) ->
  property points_data "forecast" = Ok forecast_url ->
  make_nws_request net forecast_url t1 = (Ok forecast_data, t2) ->
  property forecast_data "periods" = Ok (PList periods) ->
  get_forecast net latitude longitude []
  = bind (mapM (fun period => lift (format_period period)) (firstn 5 periods))
      (fun forecasts => ret (join separator forecasts)) t2.
Proof.
  intros Hpoints Hurl Hforecast Hperiods.
  apply property_ok in Hurl as [Htp [pp [Hpp Hpf]]].
  apply property_ok in Hperiods as [Htf [fp [Hfp Hfper]]].
  unfold get_forecast. rewrite (bind_ok _ _ _ _ _ Hpoints). rewrite Htp. cbn [negb].
  rewrite (bind_lift_ok _ _ _ _ Hpp), (bind_lift_ok _ _ _ _ Hpf).
  rewrite (bind_ok _ _ _ _ _ Hforecast). rewrite Htf. cbn [negb].
  rewrite (bind_lift_ok _ _ _ _ Hfp), (bind_lift_ok _ _ _ _ Hfper).
  reflexivity.
Qed.

(** X4: whatever the number of periods, [get_forecast] renders the first
    five or, when there are fewer, all of them, in order; a forecast
    without periods gives the empty string. *)
Theorem get_forecast_up_to_five
  (latitude longitude points_data forecast_url forecast_data : pyval)
  (t1 t2 : list event) (periods : list pyval) (rows : list period_fields) :
  make_nws_request net (PStr (points_url latitude longitude)) [] = (Ok points_data, t1) ->
  property points_data "forecast" = Ok forecast_url ->
  make_nws_request net forecast_url t1 = (Ok forecast_data, t2) ->
  property forecast_data "periods" = Ok (PList periods) ->
  map fields_of (firstn 5 periods) = map Some rows ->
  get_forecast net latitude longitude []
  = (Ok (join separator (map rendered_period rows)), t2)
  /\ length rows = Nat.min 5 (length periods)
  /\ (periods = [] -> get_forecast net latitude longitude [] = (Ok "", t2)).
Proof.
  intros Hpoints Hurl Hforecast Hperiods Hrows.
  rewrite (get_forecast_fetched _ _ _ _ _ _ _ _ Hpoints Hurl Hforecast Hperiods).
  repeat split.
  - rewrite (bind_ok _ _ _ _ _
               (mapM_lift_ok format_period _ _ t2 (format_periods_ok _ _ Hrows))).
    reflexivity.
  - apply (f_equal (@length _)) in Hrows. rewrite !length_map, length_firstn in Hrows.
    symmetry. exact Hrows.
  - intros ->. reflexivity.
Qed.

(** X5: [get_forecast] gives no partial forecast: when one of the first
    five periods is not an object or lacks one of the six fields, the call
    ends in a KeyError or a TypeError. *)
Theorem get_forecast_malformed_period
  (latitude longitude points_data forecast_url forecast_data : pyval)
  (t1 t2 : list event) (periods : list pyval) (bad : pyval) :
  make_nws_request net (PStr (points_url latitude longitude)) [] = (Ok points_data, t1) ->
  property points_data "forecast" = Ok forecast_url ->
  make_nws_request net forecast_url t1 = (Ok forecast_data, t2) ->
  property forecast_data "periods" = Ok (PList periods) ->
  In bad (firstn 5 periods) ->
  fields_of bad = None ->
  exists e,
    get_forecast net latitude longitude [] = (Raise e, t2)
    /\ (exn_cls e = KeyError \/ exn_cls e = TypeError).
Proof.
  intros Hpoints Hurl Hforecast Hperiods Hin Hbad.
  rewrite (get_forecast_fetched _ _ _ _ _ _ _ _ Hpoints Hurl Hforecast Hperiods).
  destruct (mapM_lift_raise (fun e => exn_cls e = KeyError \/ exn_cls e = TypeError)
              format_period (firstn 5 periods) bad t2
              format_period_raises_class Hin (format_period_needs_fields _ Hbad))
    as [e [Hm He]].
  exists e. split; [|exact He]. unfold bind. rewrite Hm. reflexivity.
Qed.

(** X6: when the forecast link of the points response is not a string
    (null, a number, an object), no second request is made and the
    result is "Unable to fetch detailed forecast.". *)
Theorem get_forecast_link_not_text
  (latitude longitude points_data link : pyval) (t1 : list event) :
  make_nws_request net (PStr (points_url latitude longitude)) [] = (Ok points_data, t1) ->
  property points_data "forecast" = Ok link ->
  is_text link = false ->
  get_forecast net latitude longitude [] = (Ok "Unable to fetch detailed forecast.", t1).
Proof.
  intros Hpoints Hurl Hlink.
  apply property_ok in Hurl as [Htp [pp [Hpp Hpf]]].
  unfold get_forecast. rewrite (bind_ok _ _ _ _ _ Hpoints). rewrite Htp. cbn [negb].
  rewrite (bind_lift_ok _ _ _ _ Hpp), (bind_lift_ok _ _ _ _ Hpf).
  rewrite (bind_ok _ _ _ _ _ (make_nws_request_not_text _ _ Hlink)). reflexivity.
Qed.

(** The steps of a tool after its requests do not touch the network. *)
Lemma pure_tail_trace {A : Type} (f : pyval -> result A) (g : list A -> string)
  (r : result (list pyval)) (t : list event) :
  snd (bind (lift r)
         (fun items => bind (mapM (fun x => lift (f x)) items)
                         (fun out => ret (g out))) t) = t.
Proof.
  destruct r as [items|e]; [|reflexivity].
  rewrite (bind_lift_ok _ _ _ _ eq_refl). unfold bind.
  pose proof (mapM_lift_trace f items t) as H.
  destruct (mapM _ items t) as [[out|e] t']; simpl in H; subst t'; reflexivity.
Qed.

(** X7: the weather tools never make a request of their own accord:
    [get_alerts] makes exactly one GET, to the alerts url of the state,
    and [get_forecast] makes one GET to the points url and at most one
    more, to the forecast link of the points response, all with the same
    two headers, whatever the network answers. *)
Theorem weather_requests_bounded :
  (forall state,
      snd (get_alerts net state []) = [HttpGet (alerts_url state) nws_headers])
  /\ (forall latitude longitude,
        snd (get_forecast net latitude longitude [])
        = [HttpGet (points_url latitude longitude) nws_headers]
        \/ exists link,
             property (nws_data (net [] (points_url latitude longitude))) "forecast"
             = Ok (PStr link)
             /\ snd (get_forecast net latitude longitude [])
                = [HttpGet (points_url latitude longitude) nws_headers;
                   HttpGet link nws_headers]).
Proof.
  split.
  - intros state. unfold get_alerts.
    rewrite (bind_ok _ _ _ _ _ (make_nws_request_str net _ _)). cbn [app].
    set (data := nws_data _). set (t := [HttpGet _ _]).
    unfold bind at 1.
    destruct (negb (truthy data)); [reflexivity|].
    unfold bind at 1. unfold lift at 1.
    destruct (contains "features" data) as [[|]|e]; cbn [ret negb snd]; try reflexivity.
    unfold bind at 1. unfold lift at 1.
    destruct (getitem data "features") as [features|e]; [|reflexivity].
    destruct (negb (truthy features)); [reflexivity|].
    apply pure_tail_trace.
  - intros latitude longitude.
    remember (snd (get_forecast net latitude longitude [])) as tr eqn:Htr.
    unfold get_forecast in Htr.
    rewrite (bind_ok _ _ _ _ _ (make_nws_request_str net _ _)) in Htr. cbn [app] in Htr.
    set (data := nws_data _) in *.
    destruct (negb (truthy data)); [left; exact Htr|].
    unfold bind at 1 in Htr. unfold lift at 1 in Htr.
    destruct (getitem data "properties") as [properties|e] eqn:Hp; [|left; exact Htr].
    unfold bind at 1 in Htr. unfold lift at 1 in Htr.
    destruct (getitem properties "forecast") as [link|e] eqn:Hl; [|left; exact Htr].
    destruct (is_text link) eqn:Htext.
    + destruct link; try discriminate. right. exists s. split.
      * unfold property, and_then. rewrite Hp. exact Hl.
      * rewrite (bind_ok _ _ _ _ _ (make_nws_request_str net _ _)) in Htr.
        cbn [app] in Htr.
        set (fdata := nws_data (net _ s)) in *.
        destruct (negb (truthy fdata)); [exact Htr|].
        unfold bind at 1 in Htr. unfold lift at 1 in Htr.
        destruct (getitem fdata "properties") as [fp|e]; [|exact Htr].
        unfold bind at 1 in Htr. unfold lift at 1 in Htr.
        destruct (getitem fp "periods") as [periods|e]; [|exact Htr].
        unfold bind at 1 in Htr. unfold lift at 1 in Htr.
        destruct (slice_to periods 5) as [shown|e]; [|exact Htr].
        rewrite Htr. apply pure_tail_trace.
    + left. rewrite (bind_ok _ _ _ _ _ (make_nws_request_not_text _ _ Htext)) in Htr.
      exact Htr.
Qed.

End WeatherMoreProps.

(** A response whose [features] is null. *)
Lemma get_alerts_falsy_features_witness :
  get_alerts (respond (PDict [("features", PNone)])) "CA" []
  = (Ok "No active alerts for this state.", [HttpGet (alerts_url "CA") nws_headers]).
Proof.
  exact (get_alerts_falsy_features (respond (PDict [("features", PNone)])) "CA"
           [("features", PNone)] PNone _ eq_refl eq_refl eq_refl).
Defined.

(** A well-formed alert followed by a feature without properties. *)
Lemma get_alerts_malformed_feature_witness :
  exists e,
    get_alerts (respond (PDict [("features", PList [kern_alert; bare_feature])])) "CA" []
    = (Raise e, [HttpGet (alerts_url "CA") nws_headers])
    /\ lookup_error e.
Proof.
  refine (get_alerts_malformed_feature
            (respond (PDict [("features", PList [kern_alert; bare_feature])])) "CA"
            [("features", PList [kern_alert; bare_feature])]
            [kern_alert; bare_feature] bare_feature _ eq_refl eq_refl _ eq_refl).
  simpl. right. left. reflexivity.
Defined.

Lemma format_alert_shows_null_witness :
  format_alert null_instruction
  = Ok (alert_text "Heat Advisory" "Kern County" "Moderate" "Hot." "None").
Proof.
  exact (proj1 (format_alert_shows_null null_instruction _ eq_refl) eq_refl).
Defined.

(** Two periods: both are rendered. *)
Lemma get_forecast_up_to_five_witness :
  get_forecast (two_step points_body (forecast_body [period 1; period 2])) lat lon []
  = (Ok (join separator (map rendered_period (map row [1; 2]%Z))),
     [HttpGet (points_url lat lon) nws_headers; HttpGet forecast_link nws_headers]).
Proof.
  exact (proj1 (get_forecast_up_to_five
                  (two_step points_body (forecast_body [period 1; period 2])) lat lon
                  points_body (PStr forecast_link) (forecast_body [period 1; period 2])
                  _ _ [period 1; period 2] (map row [1; 2]%Z)
                  eq_refl eq_refl eq_refl eq_refl eq_refl)).
Defined.

(** The second of three periods is null. *)
Lemma get_forecast_malformed_period_witness :
  exists e,
    get_forecast (two_step points_body (forecast_body [period 1; PNone; period 3]))
      lat lon []
    = (Raise e,
       [HttpGet (points_url lat lon) nws_headers; HttpGet forecast_link nws_headers])
    /\ (exn_cls e = KeyError \/ exn_cls e = TypeError).
Proof.
  refine (get_forecast_malformed_period
            (two_step points_body (forecast_body [period 1; PNone; period 3])) lat lon
            points_body (PStr forecast_link) (forecast_body [period 1; PNone; period 3])
            _ _ [period 1; PNone; period 3] PNone
            eq_refl eq_refl eq_refl eq_refl _ eq_refl).
  simpl. right. left. reflexivity.
Defined.

Lemma get_forecast_link_not_text_witness :
  get_forecast (respond null_link) lat lon []
  = (Ok "Unable to fetch detailed forecast.", [HttpGet (points_url lat lon) nws_headers]).
Proof.
  exact (get_forecast_link_not_text (respond null_link) lat lon null_link PNone _
           eq_refl eq_refl eq_refl).
Defined.

(** ** The space news server, continued *)

Import SpaceNews SpaceNewsSpec SpaceNewsMore.

Section SpaceNewsMoreProps.

Variable w : SpaceNews.env.

Lemma raise_for_status_2xx status (json : option pyval) :
  (200 <= status <= 299)%Z -> Http.raise_for_status (status, json) = Ok tt.
Proof.
  intros [H1 H2]. unfold Http.raise_for_status. simpl.
  apply Z.leb_le in H1. apply Z.leb_le in H2. rewrite H1, H2. reflexivity.
Qed.

Lemma title_and_summary_fields res :
  title_and_summary res
  = match article_fields res with
    | Some fields => Ok fields
    | None => title_and_summary res
    end.
Proof.
  unfold article_fields, title_and_summary, and_then, getitem.
  destruct res; try reflexivity.
  destruct (dict_get d "title"), (dict_get d "summary"); reflexivity.
Qed.

Lemma title_and_summary_ok results pairs :
  map article_fields results = map Some pairs ->
  map title_and_summary results = map Ok pairs.
Proof.
  revert pairs. induction results as [|r rs IH]; intros [|p ps] H; simpl in H;
    try discriminate; [reflexivity|].
  injection H as Hr Hrs. simpl. rewrite title_and_summary_fields, Hr, (IH _ Hrs).
  reflexivity.
Qed.

Lemma title_and_summary_needs_fields res :
  article_fields res = None -> exists e, title_and_summary res = Raise e.
Proof.
  unfold article_fields, title_and_summary, and_then, getitem.
  destruct res; try (intros _; eexists; reflexivity).
  destruct (dict_get d "title"), (dict_get d "summary"); try discriminate;
    intros _; eexists; reflexivity.
Qed.

(** What the helper returns for a 2xx response with a [results] list. *)
Lemma news_of_results date t status body results :
  http w t (news_endpoint date) = Http.Response status (Some body) ->
  (200 <= status <= 299)%Z ->
  getitem body "results" = Ok (PList results) ->
  get_spaceflight_news_date w date t
  = try_except
      (bind (mapM (fun res => lift (title_and_summary res)) results)
         (fun news => ret (Some news)))
      is_Exception (ret None)
      (t ++ [HttpGet (news_endpoint date) news_headers])%list.
Proof.
  intros Ho Hs Hr. unfold get_spaceflight_news_date, try_except.
  unfold bind at 1. unfold call at 1. rewrite Ho. cbn [Http.as_result].
  unfold bind at 1. unfold lift at 1. rewrite (raise_for_status_2xx _ _ Hs).
  unfold bind at 1. unfold lift at 1. cbn [Http.json snd].
  unfold bind at 1. unfold lift at 1. rewrite Hr.
  unfold bind at 1. unfold lift at 1. cbn [iter]. reflexivity.
Qed.

(** X8: from a 2xx response whose results each have a title and a
    summary, a call with language "EN" returns one mapping per result, in
    the order of the results, with the two keys [title] and [summary] and
    nothing else of the article. *)
Theorem spacenews_keeps_title_and_summary
  (status : Z) (body : pyval) (results : list pyval) (pairs : list (pyval * pyval)) :
  http w [] (news_endpoint (today w)) = Http.Response status (Some body) ->
  (200 <= status <= 299)%Z ->
  getitem body "results" = Ok (PList results) ->
  results <> [] ->
  map article_fields results = map Some pairs ->
  get_todays_spacenews w "EN" []
  = (Ok (PList (map (fun p => PDict [("title", fst p); ("summary", snd p)]) pairs)),
     [fetch_event w])
  /\ length pairs = length results.
Proof.
  intros Ho Hs Hr Hne Hfields.
  assert (Hlen : length pairs = length results).
  { apply (f_equal (@length _)) in Hfields. rewrite !length_map in Hfields.
    symmetry. exact Hfields. }
  split; [|exact Hlen].
  unfold get_todays_spacenews.
  assert (Hfetch : get_spaceflight_news_date w (today w) [] = (Ok (Some pairs), [fetch_event w])).
  { rewrite (news_of_results _ _ _ _ _ Ho Hs Hr). unfold try_except.
    rewrite (bind_ok _ _ _ _ _
               (mapM_lift_ok title_and_summary _ _ _ (title_and_summary_ok _ _ Hfields))).
    reflexivity. }
  rewrite (bind_ok _ _ _ _ _ Hfetch).
  destruct pairs as [|p ps].
  - destruct results; [contradiction | discriminate].
  - reflexivity.
Qed.

(** X9: one article without a title or without a summary spoils the
    whole call: the helper gives up all results and the tool fails with
    "API Call Failed.", in every language and without a sampling call. *)
Theorem spacenews_one_bad_article
  (language : string) (status : Z) (body : pyval) (results : list pyval) (bad : pyval) :
  http w [] (news_endpoint (today w)) = Http.Response status (Some body) ->
  (200 <= status <= 299)%Z ->
  getitem body "results" = Ok (PList results) ->
  In bad results ->
  article_fields bad = None ->
  get_todays_spacenews w language []
  = (Raise (Exn FastMCPError "API Call Failed."), [fetch_event w]).
Proof.
  intros Ho Hs Hr Hin Hbad.
  apply (no_news_fails w language None); [|left; reflexivity].
  rewrite (news_of_results _ _ _ _ _ Ho Hs Hr). unfold try_except.
  destruct (mapM_lift_raise (fun e => is_Exception e = true) title_and_summary results bad
              ([] ++ [HttpGet (news_endpoint (today w)) news_headers])%list
              (fun a e H => eq_ind _ catchable (title_and_summary_catchable a) _ H)
              Hin (title_and_summary_needs_fields _ Hbad))
    as [e [Hm He]].
  unfold bind. rewrite Hm, He. reflexivity.
Qed.

(** X10: a call of the tool talks to the outside in one fixed order:
    first the one request to the news API, then at most one sampling
    request, made only for a language other than "EN" and after news
    arrived, with the prompt built from that language and those news. *)
Theorem spacenews_call_order (language : string) :
  snd (get_todays_spacenews w language []) = [fetch_event w]
  \/ (language <> "EN"
      /\ exists first rest,
           fst (get_spaceflight_news_date w (today w) []) = Ok (Some (first :: rest))
           /\ snd (get_todays_spacenews w language [])
              = [fetch_event w;
                 Sample (translation_prompt language (reformat (first :: rest)))]).
Proof.
  destruct (get_spaceflight_news_date_returns w (today w) []) as [news [Hfetch _]].
  simpl app in Hfetch. fold (fetch_event w) in Hfetch.
  unfold get_todays_spacenews. rewrite (bind_ok _ _ _ _ _ Hfetch). rewrite Hfetch.
  destruct news as [[|first rest]|]; try (left; reflexivity).
  destruct (String.eqb_spec language "EN") as [->|Hneq]; [left; reflexivity|].
  right. split; [exact Hneq|]. exists first, rest. split; [reflexivity|].
  cbn [negb]. unfold try_except, call, raise.
  destruct (sample w _ _); reflexivity.
Qed.

End SpaceNewsMoreProps.

Lemma spacenews_keeps_title_and_summary_witness :
  get_todays_spacenews (world (Http.Response 200 (Some two_articles)) no_sampling) "EN" []
  = (Ok (PList [PDict [("title", PStr "Falcon 9 launches");
                       ("summary", PStr "Liftoff at 8:57.")];
                PDict [("title", PStr "Artemis update"); ("summary", PStr "A new date.")]]),
     [fetch_event (world (Http.Response 200 (Some two_articles)) no_sampling)]).
Proof.
  refine (proj1 (spacenews_keeps_title_and_summary
                   (world (Http.Response 200 (Some two_articles)) no_sampling)
                   200 two_articles _ two_news eq_refl _ eq_refl _ eq_refl)).
  - lia.
  - discriminate.
Defined.

(** The second article has no summary. *)
Lemma spacenews_one_bad_article_witness :
  get_todays_spacenews (world (Http.Response 200 (Some one_bad_article)) no_sampling) "EN" []
  = (Raise (Exn FastMCPError "API Call Failed."),
     [fetch_event (world (Http.Response 200 (Some one_bad_article)) no_sampling)]).
Proof.
  refine (spacenews_one_bad_article
            (world (Http.Response 200 (Some one_bad_article)) no_sampling) "EN"
            200 one_bad_article _ (PDict [("id", PInt 2); ("title", PStr "Artemis update")])
            eq_refl _ eq_refl _ eq_refl).
  - lia.
  - simpl. right. left. reflexivity.
Defined.

(** ** Strings, continued *)

Lemma append_assoc (a b c : string) : ((a ++ b) ++ c = a ++ (b ++ c))%string.
Proof. induction a as [|x a IH]; simpl; [|rewrite IH]; reflexivity. Qed.

Lemma append_length (a b : string) :
  String.length (a ++ b) = (String.length a + String.length b)%nat.
Proof. induction a as [|x a IH]; simpl; [|rewrite IH]; reflexivity. Qed.

Lemma lower_ascii_idempotent c : lower_ascii (lower_ascii c) = lower_ascii c.
Proof. destruct c as [[] [] [] [] [] [] [] []]; reflexivity. Qed.

Lemma lower_idempotent s : lower (lower s) = lower s.
Proof.
  induction s as [|c s IH]; simpl; [|rewrite lower_ascii_idempotent, IH]; reflexivity.
Qed.

Lemma lower_ascii_slash c : Ascii.eqb (lower_ascii c) "/"%char = Ascii.eqb c "/"%char.
Proof. destruct c as [[] [] [] [] [] [] [] []]; reflexivity. Qed.

(** ** The sales resource server, continued *)

Import Sales SalesSpec SalesMore.

Lemma has_slash_app a b : has_slash (a ++ b) = has_slash a || has_slash b.
Proof.
  induction a as [|c a IH]; simpl; [reflexivity|]. rewrite IH. apply orb_assoc.
Qed.

Lemma has_slash_lower s : has_slash (lower s) = has_slash s.
Proof.
  induction s as [|c s IH]; simpl; [|rewrite lower_ascii_slash, IH]; reflexivity.
Qed.

Lemma has_slash_digits d : has_slash (NilEmpty.string_of_uint d) = false.
Proof. induction d; simpl; assumption || reflexivity. Qed.

Lemma has_slash_int_str n : has_slash (int_str n) = false.
Proof.
  unfold int_str, NilZero.string_of_int, NilZero.string_of_uint.
  destruct (Z.to_int n) as [d|d]; destruct d; simpl; try reflexivity;
    apply has_slash_digits.
Qed.

Lemma split_slash_plain s : forall cur,
  has_slash s = false -> split_slash s cur = [(cur ++ s)%string].
Proof.
  induction s as [|c s IH]; intros cur H; simpl in *.
  - destruct cur; simpl; [reflexivity|]. f_equal. f_equal.
    clear. induction cur; simpl; [|rewrite <- IHcur]; reflexivity.
  - apply orb_false_iff in H as [Hc Hs]. rewrite Hc, (IH _ Hs), append_assoc.
    reflexivity.
Qed.

(** [Path] of a name without a slash that is longer than one character. *)
Lemma Path_plain s :
  has_slash s = false -> (2 <= String.length s)%nat ->
  Path s = {| anchor := EmptyString; parts := [s] |}.
Proof.
  intros Hs Hlen. unfold Path. rewrite (split_slash_plain _ _ Hs). simpl.
  destruct s as [|c [|c' s]]; simpl in Hlen; try lia.
  simpl in Hs. apply orb_false_iff in Hs as [Hc _].
  assert (Hp : forall p, String.prefix (String "/"%char p) (String c (String c' s)) = false).
  { intros p. cbn [String.prefix].
    destruct (Ascii.ascii_dec "/"%char c) as [<-|_]; [|reflexivity].
    rewrite Ascii.eqb_refl in Hc. discriminate. }
  rewrite !Hp. unfold keep_part. simpl.
  destruct (Ascii.eqb c "."%char); reflexivity.
Qed.

Lemma file_name_plain year month :
  has_slash month = false ->
  has_slash (file_name year month) = false /\ (2 <= String.length (file_name year month))%nat.
Proof.
  intros H. unfold file_name. split.
  - rewrite !has_slash_app, has_slash_lower, H, has_slash_int_str. reflexivity.
  - rewrite !append_length. simpl. lia.
Qed.

(** X11: the month is matched without regard to the case of its ASCII
    letters: two months that differ in case only read the same file and
    give the same result. *)
Theorem get_sales_ignores_case (w : Sales.env) (year : Z) (month month' : string) :
  lower month = lower month' ->
  get_sales w year month = get_sales w year month'
  /\ get_sales w year (lower month) = get_sales w year month.
Proof.
  intros H. unfold get_sales. rewrite lower_idempotent, H. split; reflexivity.
Qed.

(** X12: for a month of ASCII characters without a slash the file that is
    read lies directly in [data/sales_data] under the directory of the
    server, and its name is the lower-cased month, an underscore, the year
    in decimal and ".csv". *)
Theorem get_sales_stays_in_directory (w : Sales.env) (year : Z) (month : string) :
  is_ascii month = true ->
  has_slash month = false ->
  sales_file w year month
  = as_posix {| anchor := anchor (base_path w);
                parts := (parts (base_path w)
                          ++ ["data"; "sales_data"; file_name year month])%list |}.
Proof.
  intros _ H. destruct (file_name_plain year month H) as [Hs Hlen].
  unfold sales_file. fold (file_name year month). rewrite (Path_plain _ Hs Hlen).
  unfold sales_base_path.
  change (Path "data/sales_data")
    with {| anchor := EmptyString; parts := ["data"; "sales_data"] |}.
  unfold joinpath. cbn [anchor parts]. rewrite <- app_assoc. reflexivity.
Qed.

(** X13: a month of ASCII characters that starts with a slash leaves the
    directory of the server: the file that is looked for is the absolute
    path made of the month text alone, the same for every server
    directory. *)
Theorem get_sales_absolute_month (w w' : Sales.env) (year : Z) (rest : string) :
  is_ascii rest = true ->
  let month := String "/"%char rest in
  sales_file w year month = as_posix (Path (file_name year month))
  /\ sales_file w year month = sales_file w' year month
  /\ String.prefix "/" (sales_file w year month) = true.
Proof.
  intros _ month.
  assert (Hanchor : exists a r, anchor (Path (file_name year month)) = String a r
                                /\ a = "/"%char).
  { unfold Path, file_name, month. cbn [lower append anchor].
    change (lower_ascii "/"%char) with "/"%char.
    destruct (String.prefix "///" _); [eauto|].
    destruct (String.prefix "//" _); [eauto|].
    cbn [String.prefix]. destruct (lower rest ++ _)%string; simpl; eauto. }
  destruct Hanchor as [a [r [Ha ->]]].
  assert (Hfile : forall v, sales_file v year month = as_posix (Path (file_name year month))).
  { intros v. unfold sales_file. fold (file_name year month). unfold joinpath at 1.
    rewrite Ha. reflexivity. }
  split; [apply Hfile|]. split; [rewrite !Hfile; reflexivity|].
  rewrite Hfile. unfold as_posix. rewrite Ha. cbn [append String.prefix].
  destruct (Ascii.ascii_dec "/"%char "/"%char) as [_|Hne]; [|contradiction].
  destruct (r ++ _)%string; reflexivity.
Qed.

Lemma get_sales_ignores_case_witness :
  get_sales march_only 2024 "MARCH" = get_sales march_only 2024 "march".
Proof. exact (proj1 (get_sales_ignores_case march_only 2024 "MARCH" "march" eq_refl)). Defined.

Lemma get_sales_stays_in_directory_witness :
  sales_file no_files 2024 "March" = "/srv/mcp_servers/data/sales_data/march_2024.csv".
Proof. exact (get_sales_stays_in_directory no_files 2024 "March" eq_refl eq_refl). Defined.

(** The month "/Tmp/Report" is looked for at the root of the file system,
    from either server directory. *)
Lemma get_sales_absolute_month_witness :
  sales_file no_files 2024 "/Tmp/Report" = "/tmp/report_2024.csv"
  /\ sales_file no_files 2024 "/Tmp/Report" = sales_file elsewhere 2024 "/Tmp/Report"
  /\ String.prefix "/" (sales_file no_files 2024 "/Tmp/Report") = true.
Proof. exact (get_sales_absolute_month no_files elsewhere 2024 "Tmp/Report" eq_refl). Defined.

(** ** Traces, continued *)

Section TraceAdditions.

Context {E : Type}.

Variable P : E -> Prop.

Lemma adds_ret {A : Type} (a : A) : adds P (@ret E A a).
Proof. intros t. exists []. rewrite app_nil_r. split; [reflexivity | constructor]. Qed.

Lemma adds_lift {A : Type} (r : result A) : adds P (@lift E A r).
Proof. intros t. exists []. rewrite app_nil_r. split; [reflexivity | constructor]. Qed.

Lemma adds_call {A : Type} ev (oracle : list E -> result A) :
  P ev -> adds P (call ev oracle).
Proof. intros H t. exists [ev]. split; [reflexivity | constructor; [exact H | constructor]]. Qed.

Lemma adds_bind {A B : Type} (m : M E A) (k : A -> M E B) :
  adds P m -> (forall a, adds P (k a)) -> adds P (bind m k).
Proof.
  intros Hm Hk t. unfold bind. destruct (Hm t) as [added [Ht Hadded]].
  destruct (m t) as [[a|e] t']; simpl in Ht; subst t'.
  - destruct (Hk a (t ++ added)%list) as [more [Ht' Hmore]].
    exists (added ++ more)%list. rewrite Ht', app_assoc.
    split; [reflexivity | apply Forall_app; split; assumption].
  - exists added. split; [reflexivity | exact Hadded].
Qed.

Lemma adds_mapM {A B : Type} (f : A -> M E B) l :
  (forall a, adds P (f a)) -> adds P (mapM f l).
Proof.
  intros Hf. induction l as [|a l IH]; simpl.
  - apply adds_ret.
  - apply adds_bind; [apply Hf|]. intros b.
    apply adds_bind; [exact IH|]. intros bs. apply adds_ret.
Qed.

End TraceAdditions.

(** ** The blog client, continued *)

Import BlogClient BlogSpec BlogMore.

Section BlogMoreProps.

Variable w : BlogClient.env.

Lemma round_trip_adds name arguments : adds inside_session (prompt_round_trip w name arguments).
Proof.
  unfold prompt_round_trip.
  apply adds_bind; [apply adds_call; split; discriminate|]. intros prompt.
  apply adds_bind; [apply adds_call; split; discriminate|]. intros res.
  apply adds_lift.
Qed.

(** X14: the connection to the prompt server is released on every way
    out of [run]: either nothing was contacted (the code file is missing
    or unreadable), or the connection attempt failed, or the trace is one
    [Connect], then the calls of the session, then one [Disconnect] as
    the last event, whether the session ended with a blog post or with
    an exception. *)
Theorem run_releases_connection (code_file : string) :
  snd (run w code_file []) = []
  \/ snd (run w code_file []) = [Connect]
  \/ exists session,
       snd (run w code_file []) = (Connect :: session ++ [Disconnect])%list
       /\ Forall inside_session session.
Proof.
  remember (snd (run w code_file [])) as tr eqn:Htr. unfold run in Htr.
  destruct (negb (isfile w code_file)); [left; exact Htr|].
  unfold bind at 1 in Htr. unfold lift at 1 in Htr.
  destruct (read_file w code_file) as [code|e]; [|left; exact Htr].
  right. unfold with_client in Htr. unfold bind at 1 in Htr. unfold call at 1 in Htr.
  cbn [app] in Htr.
  destruct (connect w []) as [[]|e]; [|left; exact Htr].
  right.
  match type of Htr with
  | context [let (r, t') := ?body [Connect] in _] =>
      assert (Hadds : adds inside_session body)
  end.
  { apply adds_bind; [apply adds_call; split; discriminate|]. intros _.
    apply adds_bind; [apply adds_call; split; discriminate|]. intros prompts.
    apply adds_bind; [apply adds_call; split; discriminate|]. intros _.
    apply adds_bind; [apply adds_call; split; discriminate|]. intros _.
    apply adds_bind.
    { apply adds_mapM. intros name. apply adds_call. split; discriminate. }
    intros _. apply adds_bind.
    { unfold run_keyword_prompt. apply adds_bind; [apply round_trip_adds|].
      intros; apply adds_lift. }
    intros keywords. apply adds_bind; [apply round_trip_adds|].
    intros intro. apply adds_bind; [apply round_trip_adds|].
    intros main_part. apply adds_bind; [apply round_trip_adds|].
    intros; apply adds_ret. }
  destruct (Hadds [Connect]) as [session [Ht Hsession]].
  match type of Htr with
  | context [let (r, t') := ?body [Connect] in _] =>
      destruct (body [Connect]) as [r t']
  end.
  simpl in Ht. subst t'. exists session. split; [exact Htr | exact Hsession].
Qed.

Lemma print_lines_trace (lines : list string) (t : list event) :
  mapM (fun name => print ("- " ++ name)) lines t
  = (Ok (map (fun _ => tt) lines),
     (t ++ map (fun name => Print ("- " ++ name)) lines)%list).
Proof.
  revert t. induction lines as [|l lines IH]; intros t; simpl.
  - rewrite app_nil_r. reflexivity.
  - unfold bind at 1. unfold print at 1, call at 1. unfold bind at 1.
    rewrite IH, <- app_assoc. reflexivity.
Qed.

(** A round trip records its prompt request first, and its request to
    the model when the prompt arrived. *)
Lemma round_trip_trace name arguments t :
  (exists e, prompt_round_trip w name arguments t
             = (Raise e, (t ++ [GetPrompt name arguments])%list))
  \/ exists prompt r,
       get_prompt w t name arguments = Ok prompt
       /\ prompt_round_trip w name arguments t
          = (r, (t ++ [GetPrompt name arguments; ask prompt])%list).
Proof.
  unfold prompt_round_trip, bind, call, lift.
  destruct (get_prompt w t name arguments) as [prompt|e]; [|left; eauto].
  right. exists prompt. rewrite <- app_assoc. cbn [app]. unfold ask.
  destruct (converse w _ _ _) as [res|e]; [|eauto].
  destruct (reply_text res); eauto.
Qed.

Lemma round_trip_ok_trace name arguments t reply t' :
  prompt_round_trip w name arguments t = (Ok reply, t') ->
  exists prompt, t' = (t ++ [GetPrompt name arguments; ask prompt])%list.
Proof.
  intros H. destruct (round_trip_trace name arguments t) as [[e He] | [prompt [r [_ Hr]]]].
  - rewrite He in H. discriminate.
  - rewrite Hr in H. injection H as _ <-. eauto.
Qed.

Lemma prompt_names_app a b : prompt_names (a ++ b) = (prompt_names a ++ prompt_names b)%list.
Proof. apply flat_map_app. Qed.

Lemma prompt_names_preamble prompts : prompt_names (preamble prompts) = [].
Proof.
  unfold preamble. rewrite prompt_names_app. simpl.
  induction prompts as [|p ps IH]; simpl; [reflexivity | exact IH].
Qed.

(** The run up to its first prompt request, when the file is read and the
    server answers. *)
Lemma run_session code_file code prompts :
  isfile w code_file = true ->
  read_file w code_file = Ok code ->
  connect w [] = Ok tt ->
  ping w [Connect] = Ok tt ->
  list_prompts w [Connect; Ping] = Ok prompts ->
  run w code_file []
  = (let (r, t') :=
       (keywords <- run_keyword_prompt w code ;;
        intro <- run_intro_prompt w fixed_keywords ;;
        main_part <- run_main_prompt w fixed_keywords code ;;
        blogpost <- run_aggregate_prompt w intro main_part (PStr outlook_text) ;;
        ret blogpost) (preamble prompts) in
     (r, (t' ++ [Disconnect])%list)).
Proof.
  intros Hfile Hread Hconnect Hping Hlist. unfold run. rewrite Hfile. cbn [negb].
  rewrite (bind_lift_ok _ _ _ _ Hread). unfold with_client.
  unfold bind at 1. unfold call at 1. rewrite Hconnect. cbn [app].
  unfold bind at 1. unfold call at 1. rewrite Hping. cbn [app].
  unfold bind at 1. unfold call at 1. rewrite Hlist. cbn [app].
  unfold bind at 1. unfold print at 1, call at 1. cbn [app].
  unfold bind at 1. unfold print at 1, call at 1. cbn [app].
  unfold bind at 1. rewrite print_lines_trace. reflexivity.
Qed.

(** X15: although the keywords are not used afterwards, a keyword step
    that fails stops the run: the exception leaves [run] after the
    connection is released, and the keyword prompt is the only prompt
    that was asked for. *)
Theorem run_stops_at_keyword_failure
  (code_file code : string) (prompts : list string) (e : exn) (t : list event) :
  isfile w code_file = true ->
  read_file w code_file = Ok code ->
  connect w [] = Ok tt ->
  ping w [Connect] = Ok tt ->
  list_prompts w [Connect; Ping] = Ok prompts ->
  run_keyword_prompt w code (preamble prompts) = (Raise e, t) ->
  run w code_file [] = (Raise e, (t ++ [Disconnect])%list)
  /\ prompt_names (snd (run w code_file [])) = ["Get Keywords From Code"].
Proof.
  intros Hfile Hread Hconnect Hping Hlist Hkw.
  assert (Hrun : run w code_file [] = (Raise e, (t ++ [Disconnect])%list)).
  { rewrite (run_session _ _ _ Hfile Hread Hconnect Hping Hlist).
    unfold bind at 1. rewrite Hkw. reflexivity. }
  rewrite Hrun. split; [reflexivity|].
  cbn [snd]. rewrite prompt_names_app. cbn [prompt_names flat_map app].
  rewrite app_nil_r.
  unfold run_keyword_prompt, bind in Hkw.
  destruct (round_trip_trace "Get Keywords From Code" [("code", PStr code)] (preamble prompts))
    as [[e' He] | [prompt [r [_ Hr]]]].
  - rewrite He in Hkw.
    assert (Ht : t = (preamble prompts
                      ++ [GetPrompt "Get Keywords From Code" [("code", PStr code)]])%list)
      by congruence.
    rewrite Ht, prompt_names_app, prompt_names_preamble. reflexivity.
  - rewrite Hr in Hkw.
    assert (Ht : t = (preamble prompts
                      ++ [GetPrompt "Get Keywords From Code" [("code", PStr code)];
                          ask prompt])%list).
    { destruct r; [unfold lift in Hkw|]; congruence. }
    rewrite Ht, prompt_names_app, prompt_names_preamble. reflexivity.
Qed.

(** X16: a run that returns a blog post has made exactly four round
    trips, in the order keywords, intro, main, aggregate, each a prompt
    request followed by one request to the model; the aggregate prompt is
    asked for with the texts the intro and the main step returned and
    with the fixed outlook, and the blog post is what the aggregate step
    returned. *)
Theorem run_makes_four_round_trips (code_file : string) (blogpost : pyval) :
  fst (run w code_file []) = Ok blogpost ->
  exists code prompts p1 p2 p3 p4 keywords intro main_part t1 t2 t3,
    read_file w code_file = Ok code
    /\ run_keyword_prompt w code (preamble prompts) = (Ok keywords, t1)
    /\ run_intro_prompt w fixed_keywords t1 = (Ok intro, t2)
    /\ run_main_prompt w fixed_keywords code t2 = (Ok main_part, t3)
    /\ fst (run_aggregate_prompt w intro main_part (PStr outlook_text) t3) = Ok blogpost
    /\ snd (run w code_file [])
       = (preamble prompts
          ++ [GetPrompt "Get Keywords From Code" [("code", PStr code)]; ask p1;
              GetPrompt "Get Intro From Keywords" [("keywords", fixed_keywords)]; ask p2;
              GetPrompt "Get Main Section From Code"
                [("keywords", fixed_keywords); ("code", PStr code)]; ask p3;
              GetPrompt "Aggregate Blog Sections"
                [("intro", intro); ("main", main_part); ("outlook", PStr outlook_text)];
              ask p4;
              Disconnect])%list.
Proof.
  intros Hok. destruct (run w code_file []) as [r tr] eqn:Hrun. simpl in Hok. subst r.
  cbn [snd]. unfold run in Hrun.
  destruct (isfile w code_file) eqn:Hfile; [|discriminate]. cbn [negb] in Hrun.
  apply bind_ok_inv in Hrun as [code [t' [Hread Hrun]]].
  unfold lift in Hread. injection Hread as Hread <-.
  unfold with_client in Hrun.
  apply bind_ok_inv in Hrun as [[] [t0 [Hconnect Hrun]]]. cbv beta in Hrun.
  unfold call in Hconnect. injection Hconnect as Hconnect <-. cbn [app] in Hrun.
  match type of Hrun with
  | (let (r, t') := ?body _ in _) = _ => destruct (body [Connect]) as [r tb] eqn:Hbody
  end.
  injection Hrun as -> <-.
  apply bind_ok_inv in Hbody as [[] [t1 [Hping Hbody]]].
  unfold call in Hping. injection Hping as Hping <-. cbn [app] in Hbody.
  apply bind_ok_inv in Hbody as [prompts [t2 [Hlist Hbody]]].
  unfold call in Hlist. injection Hlist as Hlist <-. cbn [app] in Hbody.
  pose proof (run_session _ _ _ Hfile Hread Hconnect Hping Hlist) as Hsession.
  apply bind_ok_inv in Hbody as [? [t3 [Hp1 Hbody]]].
  unfold print, call in Hp1. injection Hp1 as _ <-. cbn [app] in Hbody.
  apply bind_ok_inv in Hbody as [? [t4 [Hp2 Hbody]]].
  unfold print, call in Hp2. injection Hp2 as _ <-. cbn [app] in Hbody.
  apply bind_ok_inv in Hbody as [? [t5 [Hlines Hbody]]].
  rewrite print_lines_trace in Hlines. injection Hlines as _ <-.
  fold (preamble prompts) in Hbody.
  apply bind_ok_inv in Hbody as [keywords [t6 [Hkw Hbody]]].
  apply bind_ok_inv in Hbody as [intro [t7 [Hintro Hbody]]].
  apply bind_ok_inv in Hbody as [main_part [t8 [Hmain Hbody]]].
  apply bind_ok_inv in Hbody as [post [t9 [Hagg Hbody]]].
  unfold ret in Hbody. injection Hbody as -> <-.
  assert (Hkw' := Hkw). unfold run_keyword_prompt in Hkw'.
  apply bind_ok_inv in Hkw' as [reply [t6' [Hround Hload]]].
  assert (t6' = t6) as -> by (unfold lift in Hload; congruence).
  destruct (round_trip_ok_trace _ _ _ _ _ Hround) as [p1 ->].
  destruct (round_trip_ok_trace _ _ _ _ _ Hintro) as [p2 E7].
  destruct (round_trip_ok_trace _ _ _ _ _ Hmain) as [p3 E8].
  destruct (round_trip_ok_trace _ _ _ _ _ Hagg) as [p4 E9].
  exists code, prompts, p1, p2, p3, p4, keywords, intro, main_part.
  eexists. eexists. eexists.
  split; [exact Hread|]. split; [exact Hkw|]. split; [exact Hintro|].
  split; [exact Hmain|]. split; [rewrite Hagg; reflexivity|].
  rewrite E9, E8, E7. rewrite <- !app_assoc. reflexivity.
Qed.

(** X17: only a failure of stripping or parsing becomes the ValueError of
    the keyword step.  A reply text that is not a string does, since it
    has no [replace]; a failure before that, such as a reply whose first
    content block has no [text], leaves the keyword step as it is. *)
Theorem keyword_step_errors :
  (forall v, is_text v = false ->
             load_keywords v = Raise (Exn ValueError "Error Loading Keyword Response"))
  /\ (forall code t e t',
        prompt_round_trip w "Get Keywords From Code" [("code", PStr code)] t
        = (Raise e, t') ->
        run_keyword_prompt w code t = (Raise e, t'))
  /\ (forall res output message blocks first_block,
        getitem res "output" = Ok output ->
        getitem output "message" = Ok message ->
        getitem message "content" = Ok (PList (PDict first_block :: blocks)) ->
        dict_get first_block "text" = None ->
        reply_text res = Raise (Exn KeyError "'text'")).
Proof.
  repeat split.
  - intros v Hv. destruct v; try discriminate; reflexivity.
  - intros code t e t' H. unfold run_keyword_prompt, bind. rewrite H. reflexivity.
  - intros res output message blocks first_block Ho Hm Hc Ht.
    unfold reply_text, and_then. rewrite Ho, Hm, Hc. cbn [getitem_int nth_error getitem].
    rewrite Ht. reflexivity.
Qed.

End BlogMoreProps.

(** ** Stripping the fences *)

Lemma append_empty (s : string) : (s ++ "")%string = s.
Proof. induction s as [|c s IH]; simpl; [|rewrite IH]; reflexivity. Qed.

Lemma prefix_weaken a b s : String.prefix (a ++ b) s = true -> String.prefix a s = true.
Proof.
  revert s. induction a as [|x a IH]; intros s H; [destruct s; reflexivity|].
  destruct s as [|y s]; [discriminate|]. cbn [append String.prefix] in *.
  destruct (Ascii.ascii_dec x y); [apply IH; exact H | discriminate].
Qed.

Lemma str_contains_weaken a b s :
  str_contains a s = false -> str_contains (a ++ b) s = false.
Proof.
  induction s as [|c s IH]; cbn [str_contains]; intros H;
    apply orb_false_iff in H as [Hp Hs]; apply orb_false_iff; split;
    try (destruct (String.prefix (a ++ b) _) eqn:E; [|reflexivity];
         apply prefix_weaken in E; congruence).
  - reflexivity.
  - apply IH. exact Hs.
Qed.

(** Text without an occurrence of [old] is left as it is. *)
Lemma replace_from_absent old new s :
  str_contains old s = false -> replace_from old new s 0 = s.
Proof.
  induction s as [|c s IH]; [reflexivity|]. cbn [str_contains replace_from]. intros H.
  apply orb_false_iff in H as [Hp Hs]. rewrite Hp, (IH Hs). reflexivity.
Qed.

Lemma replace_from_skip old new a rest :
  replace_from old new (a ++ rest) (String.length a) = replace_from old new rest 0.
Proof.
  induction a as [|x a IH]; [reflexivity|]. cbn [append String.length replace_from].
  exact IH.
Qed.

(** An occurrence at the start is replaced, and the search goes on behind
    it. *)
Lemma replace_from_first c old new rest :
  replace_from (String c old) new (String c old ++ rest) 0
  = (new ++ replace_from (String c old) new rest 0)%string.
Proof.
  cbn [append replace_from]. change (String c (old ++ rest)) with (String c old ++ rest)%string.
  rewrite prefix_app. cbn [String.length Nat.sub]. rewrite Nat.sub_0_r.
  rewrite replace_from_skip. reflexivity.
Qed.

(** Text without a backtick is stepped over when a fence is looked for. *)
Lemma replace_from_plain old new a rest :
  no_backtick a = true ->
  replace_from (String "`"%char old) new (a ++ rest) 0
  = (a ++ replace_from (String "`"%char old) new rest 0)%string.
Proof.
  induction a as [|x a IH]; [reflexivity|]. cbn [no_backtick]. intros H.
  apply andb_true_iff in H as [Hx Ha]. cbn [append replace_from String.prefix].
  destruct (Ascii.ascii_dec "`"%char x) as [<-|_]; [discriminate|].
  rewrite (IH Ha). reflexivity.
Qed.

(** X18: the fences are stripped as one expects on the two usual shapes
    of a reply.  A reply without three backticks in a row is parsed as it
    is; a reply that is an opening json fence, a body without backticks
    and a closing fence is parsed as its body.  In both cases a parse
    error becomes the ValueError of the keyword step. *)
Theorem strip_fences_unwraps (body : string) :
  (str_contains "```" body = false ->
   strip_fences (PStr body) = Ok body
   /\ load_keywords (PStr body) = as_value_error (Json.loads body))
  /\ (no_backtick body = true ->
      strip_fences (PStr ("```json" ++ body ++ "```")) = Ok body
      /\ load_keywords (PStr ("```json" ++ body ++ "```"))
         = as_value_error (Json.loads body)).
Proof.
  split.
  - intros H.
    assert (Hs : strip_fences (PStr body) = Ok body).
    { unfold strip_fences, replace_method, and_then, replace.
      rewrite (replace_from_absent "```json" "" body
                 (str_contains_weaken "```" "json" body H)).
      rewrite (replace_from_absent _ _ _ H). reflexivity. }
    split; [exact Hs|]. unfold load_keywords. rewrite Hs. reflexivity.
  - intros H.
    assert (Hs : strip_fences (PStr ("```json" ++ body ++ "```")) = Ok body).
    { unfold strip_fences, replace_method, and_then, replace.
      rewrite (replace_from_first "`"%char "``json" "" (body ++ "```")).
      rewrite (replace_from_plain "``json" "" body "```" H).
      change (replace_from "```json" "" "```" 0) with "```".
      cbn [append].
      rewrite (replace_from_plain "``" "" body "```" H).
      change (replace_from "```" "" "```" 0) with "".
      rewrite append_empty. reflexivity. }
    split; [exact Hs|]. unfold load_keywords. rewrite Hs. reflexivity.
Qed.

Lemma strip_fences_unwraps_witness :
  load_keywords (PStr ("```json" ++ "[1, 2]" ++ "```")) = Ok (PList [PInt 1; PInt 2]).
Proof. exact (proj2 (proj2 (strip_fences_unwraps "[1, 2]") eq_refl)). Defined.

(** The model answers in prose: the run ends in the ValueError of the
    keyword step. *)
Lemma run_stops_at_keyword_failure_witness :
  fst (run (world "Here are the keywords: A, B") "server.py" [])
  = Raise (Exn ValueError "Error Loading Keyword Response").
Proof.
  assert (Hkw : run_keyword_prompt (world "Here are the keywords: A, B")
                  "from fastmcp import FastMCP"
                  (preamble ["Greet MCP Server"; "Get Keywords From Code"])
                = (Raise (Exn ValueError "Error Loading Keyword Response"),
                   snd (run_keyword_prompt (world "Here are the keywords: A, B")
                          "from fastmcp import FastMCP"
                          (preamble ["Greet MCP Server"; "Get Keywords From Code"]))))
    by (vm_compute; reflexivity).
  rewrite (proj1 (run_stops_at_keyword_failure (world "Here are the keywords: A, B")
                    "server.py" _ _ _ _ eq_refl eq_refl eq_refl eq_refl eq_refl Hkw)).
  reflexivity.
Defined.

Lemma run_makes_four_round_trips_witness :
  prompt_names (snd (run (world fenced_reply) "server.py" []))
  = ["Get Keywords From Code"; "Get Intro From Keywords"; "Get Main Section From Code";
     "Aggregate Blog Sections"].
Proof.
  assert (Hok : fst (run (world fenced_reply) "server.py" []) = Ok (PStr fenced_reply))
    by (vm_compute; reflexivity).
  destruct (run_makes_four_round_trips (world fenced_reply) "server.py" _ Hok)
    as (code & prompts & p1 & p2 & p3 & p4 & kw & intro & main_part & t1 & t2 & t3
        & _ & _ & _ & _ & _ & Htrace).
  rewrite Htrace, prompt_names_app, prompt_names_preamble. reflexivity.
Defined.

(** ** The tool clients, continued *)

Import ToolClient ToolSpec ToolMore.

Lemma tool_calls_app a b : tool_calls (a ++ b) = (tool_calls a + tool_calls b)%nat.
Proof. unfold tool_calls. rewrite filter_app, length_app. reflexivity. Qed.

Lemma llm_calls_app a b : llm_calls (a ++ b) = (llm_calls a + llm_calls b)%nat.
Proof. unfold llm_calls. rewrite filter_app, length_app. reflexivity. Qed.

Lemma strings_of_app a b :
  strings_of (a ++ b)
  = match strings_of a, strings_of b with
    | Some x, Some y => Some (x ++ y)%list
    | _, _ => None
    end.
Proof.
  induction a as [|v a IH]; simpl.
  - destruct (strings_of b); reflexivity.
  - destruct v; try reflexivity. rewrite IH.
    destruct (strings_of a), (strings_of b); reflexivity.
Qed.

Section ToolMoreProps.

Variable system_text : string.
Variable w : ToolClient.env.

(** [process_query] up to its loop over the blocks of the first reply. *)
Lemma process_query_start query tools reply blocks :
  list_tools w [] = Ok tools ->
  converse w [ListTools] BEDROCK_MODEL_ID [user_query query]
    (system_prompts system_text) (tool_config tools) = Ok reply ->
  response_content reply = Ok (PList blocks) ->
  process_query_with system_text w query []
  = bind (handle_contents w (system_prompts system_text) (tool_config tools)
            (start query) blocks)
      (fun st => lift (join_values nl (final_text st)))
      [ListTools; request system_text tools [user_query query]].
Proof.
  intros Htools Hreply Hcontent. unfold process_query_with.
  unfold bind at 1. unfold call at 1. rewrite Htools. cbn [app].
  unfold bind at 1. unfold send at 1, call at 1.
  cbn [assistant_message_content messages map resolve app].
  fold (user_query query). fold (system_prompts system_text).
  rewrite Hreply.
  rewrite (bind_lift_ok _ _ _ _ Hcontent). cbn [iter].
  rewrite (bind_lift_ok (E := event) _ _ _ _ eq_refl). reflexivity.
Qed.

(** X19: when the first reply has no tool-use block, the query costs one
    request to the model and no tool call, and the answer is the texts of
    the reply joined by newlines; a reply without blocks gives the empty
    string. *)
Theorem process_query_without_tools
  (query : string) (tools : list tool) (reply : pyval) (blocks : list pyval)
  (texts : list string) :
  list_tools w [] = Ok tools ->
  converse w [ListTools] BEDROCK_MODEL_ID [user_query query]
    (system_prompts system_text) (tool_config tools) = Ok reply ->
  response_content reply = Ok (PList blocks) ->
  map block_text blocks = map Some texts ->
  process_query_with system_text w query []
  = (Ok (join nl texts), [ListTools; request system_text tools [user_query query]])
  /\ (blocks = [] ->
      fst (process_query_with system_text w query []) = Ok "").
Proof.
  intros Htools Hreply Hcontent Htexts.
  assert (H : process_query_with system_text w query []
              = (Ok (join nl texts),
                 [ListTools; request system_text tools [user_query query]])).
  { rewrite (process_query_start _ _ _ _ Htools Hreply Hcontent).
    unfold bind. rewrite (handle_text_blocks _ _ _ _ _ texts _ Htexts).
    cbn [final_text start app]. unfold lift, join_values.
    rewrite strings_of_strs. reflexivity. }
  split; [exact H|]. intros ->. rewrite H. destruct texts; [reflexivity | discriminate].
Qed.

(** The loop over known blocks in an obliging world: it returns, and each
    tool-use block costs one tool call and one request to the model. *)
Lemma handle_contents_counts system config blocks :
  obliging w ->
  Forall known_block blocks ->
  forall st t,
    strings_of (final_text st) <> None ->
    exists st' t',
      handle_contents w system config st blocks t = (Ok st', t')
      /\ strings_of (final_text st') <> None
      /\ tool_calls t' = (tool_calls t + length (filter is_tool_use blocks))%nat
      /\ llm_calls t' = (llm_calls t + length (filter is_tool_use blocks))%nat.
Proof.
  intros [Hcall Hconverse] Hblocks.
  induction Hblocks as [|b blocks Hb _ IH]; intros st t Hst.
  - exists st, t. simpl. rewrite !Nat.add_0_r. auto.
  - cbn [handle_contents filter].
    assert (Hkind : is_tool_use b
                    = match tool_use_of b with Some _ => true | None => false end)
      by reflexivity.
    destruct (tool_use_of b) as [[[name args] id]|] eqn:Htool; rewrite Hkind.
    + destruct (Hcall t name args) as [items Hitems].
      destruct (Hconverse t name args BEDROCK_MODEL_ID
                  (map (resolve (assistant_message_content st ++ [b]))
                     (messages st
                      ++ [AssistantMessage;
                          Message "user"
                            [PDict [("toolResult",
                                     PDict [("toolUseId", id);
                                            ("content",
                                             PList (tool_result_content items))])]]]))
                  system config) as [follow_up [text [Hfollow Hfirst]]].
      pose proof (handle_tool_use w system config st b name args id items follow_up
                    (PStr text) t Htool Hitems Hfollow Hfirst) as Hstep.
      cbv zeta in Hstep. cbn [final_text assistant_message_content messages] in Hstep.
      rewrite (bind_ok _ _ _ _ _ Hstep).
      match goal with
      | |- context [handle_contents w system config ?s blocks ?u] =>
          destruct (IH s u) as [st' [t' [Hrun [Hs' [Ht' Hl']]]]]
      end.
      { cbn [final_text]. rewrite !strings_of_app. simpl.
        destruct (strings_of (final_text st)); [discriminate | contradiction]. }
      exists st', t'. split; [exact Hrun|]. split; [exact Hs'|].
      rewrite Ht', Hl', !tool_calls_app, !llm_calls_app.
      change (tool_calls [CallTool name args]) with 1%nat.
      change (llm_calls [CallTool name args]) with 0%nat.
      match goal with
      | |- context [tool_calls [?e]] =>
          change (tool_calls [e]) with 0%nat; change (llm_calls [e]) with 1%nat
      end.
      cbn [length]. split; lia.
    + destruct Hb as [Hb | Hb]; [|contradiction].
      destruct (block_text b) as [s|] eqn:Htext; [|contradiction].
      rewrite (bind_ok _ _ _ _ _ (handle_text_block w system config st b s t Htext)).
      match goal with
      | |- context [handle_contents w system config ?s0 blocks ?u] =>
          destruct (IH s0 u) as [st' [t' [Hrun [Hs' [Ht' Hl']]]]]
      end.
      { cbn [final_text]. rewrite strings_of_app. simpl.
        destruct (strings_of (final_text st)); [discriminate | contradiction]. }
      exists st', t'. auto.
Qed.

(** X20: in a world where tool calls return and follow-up replies start
    with text, a first reply made of text blocks and tool-use blocks, in
    any order and also without any text, always leads to an answer, with as many tool calls as the reply has
    tool-use blocks and one request to the model more than that: one
    follow-up per tool-use block, and no tool use asked for by a
    follow-up reply is ever carried out. *)
Theorem process_query_one_follow_up_per_tool_use
  (query : string) (tools : list tool) (reply : pyval) (blocks : list pyval) :
  obliging w ->
  list_tools w [] = Ok tools ->
  converse w [ListTools] BEDROCK_MODEL_ID [user_query query]
    (system_prompts system_text) (tool_config tools) = Ok reply ->
  response_content reply = Ok (PList blocks) ->
  Forall known_block blocks ->
  exists answer tr,
    process_query_with system_text w query [] = (Ok answer, tr)
    /\ tool_calls tr = length (filter is_tool_use blocks)
    /\ llm_calls tr = S (length (filter is_tool_use blocks)).
Proof.
  intros Hw Htools Hreply Hcontent Hblocks.
  rewrite (process_query_start _ _ _ _ Htools Hreply Hcontent).
  destruct (handle_contents_counts (system_prompts system_text) (tool_config tools) blocks
              Hw Hblocks (start query)
              [ListTools; request system_text tools [user_query query]])
    as [st' [t' [Hrun [Hs' [Ht' Hl']]]]]; [discriminate|].
  rewrite (bind_ok _ _ _ _ _ Hrun). unfold lift, join_values.
  destruct (strings_of (final_text st')) as [l|]; [|contradiction].
  exists (join nl l), t'. split; [reflexivity|]. split; [exact Ht' | exact Hl'].
Qed.

(** The iteration on a tool-use block up to the tool call. *)
Lemma handle_tool_use_call system config st block name args id t :
  tool_use_of block = Some (name, args, id) ->
  handle_content w system config st block t
  = bind (call (CallTool name args) (fun t0 => call_tool w t0 name args))
      (fun tool_result =>
         let st2 :=
           {| final_text := (final_text st ++ [PStr (calling_line name args)])%list;
              assistant_message_content := (assistant_message_content st ++ [block])%list;
              messages :=
                (messages st
                 ++ [AssistantMessage;
                     Message "user"
                       [PDict [("toolResult",
                                PDict [("toolUseId", id);
                                       ("content",
                                        PList (tool_result_content tool_result))])]]])%list |} in
         response <- send w system config st2 ;;
         text <- lift (first_text response) ;;
         ret {| final_text := (final_text st2 ++ [text])%list;
                assistant_message_content := assistant_message_content st2;
                messages := messages st2 |}) t.
Proof.
  unfold tool_use_of. destruct block; try discriminate.
  destruct (dict_get d "text") eqn:Htext; [discriminate|].
  destruct (dict_get d "toolUse") as [[]|] eqn:Htool; try discriminate.
  rename d0 into u.
  destruct (dict_get u "name") as [name'|] eqn:Hname; [|discriminate].
  destruct (dict_get u "input") as [args'|] eqn:Hargs; [|discriminate].
  destruct (dict_get u "toolUseId") as [id'|] eqn:Hid; [|discriminate].
  intros [= -> -> ->].
  unfold handle_content, contains, has_key, getitem, and_then.
  rewrite Htext, Htool, Hname, Hargs, Hid. reflexivity.
Qed.

(** X21: a failure in the round of a tool-use block ends the query with
    that exception, and the texts collected so far are lost.  When the
    tool call raises, no follow-up request is made.  When the follow-up
    reply does not start with a text block, for instance because the
    model asks for another tool, the lookup of its text raises after the
    follow-up request was made. *)
Theorem process_query_tool_round_fails
  (query : string) (tools : list tool) (reply : pyval) (before after : list pyval)
  (tool_use : pyval) (before_texts : list string) (name args id : pyval) (e : exn) :
  let ask := request system_text tools [user_query query] in
  list_tools w [] = Ok tools ->
  converse w [ListTools] BEDROCK_MODEL_ID [user_query query]
    (system_prompts system_text) (tool_config tools) = Ok reply ->
  response_content reply = Ok (PList (before ++ tool_use :: after)) ->
  map block_text before = map Some before_texts ->
  tool_use_of tool_use = Some (name, args, id) ->
  (call_tool w [ListTools; ask] name args = Raise e ->
   process_query_with system_text w query []
   = (Raise e, [ListTools; ask; CallTool name args]))
  /\ (forall items follow_up,
        let again := follow_up_messages query (before ++ [tool_use]) id items in
        call_tool w [ListTools; ask] name args = Ok items ->
        converse w [ListTools; ask; CallTool name args] BEDROCK_MODEL_ID again
          (system_prompts system_text) (tool_config tools) = Ok follow_up ->
        first_text follow_up = Raise e ->
        process_query_with system_text w query []
        = (Raise e, [ListTools; ask; CallTool name args;
                     request system_text tools again])).
Proof.
  intros ask Htools Hreply Hcontent Hbefore Htool.
  assert (Hstart : process_query_with system_text w query []
                   = bind (handle_content w (system_prompts system_text) (tool_config tools)
                             {| final_text := map PStr before_texts;
                                assistant_message_content := before;
                                messages := messages (start query) |} tool_use)
                       (fun st' =>
                          bind (handle_contents w (system_prompts system_text)
                                  (tool_config tools) st' after)
                            (fun st => lift (join_values nl (final_text st))))
                       [ListTools; ask]).
  { rewrite (process_query_start _ _ _ _ Htools Hreply Hcontent).
    unfold bind at 1. rewrite handle_contents_app. unfold bind at 1.
    rewrite (handle_text_blocks _ _ _ _ _ before_texts _ Hbefore).
    cbn [final_text assistant_message_content messages start app handle_contents].
    unfold bind. fold ask.
    destruct (handle_content _ _ _ _ tool_use [ListTools; ask]) as [[st'|e'] t'];
      [|reflexivity].
    destruct (handle_contents _ _ _ st' after t') as [[st''|e'] t'']; reflexivity. }
  rewrite Hstart. split.
  - intros Hcall. unfold bind at 1.
    rewrite (handle_tool_use_call _ _ _ _ _ _ _ _ Htool).
    unfold bind, call. rewrite Hcall. reflexivity.
  - intros items follow_up. cbv zeta. intros Hcall Hfollow Hfirst.
    unfold bind at 1. rewrite (handle_tool_use_call _ _ _ _ _ _ _ _ Htool).
    unfold bind at 1. unfold call at 1. rewrite Hcall.
    unfold bind at 1. unfold send at 1, call at 1.
    cbn [assistant_message_content messages start map resolve app].
    fold (user_query query).
    change (follow_up_messages query (before ++ [tool_use]) id items)
      with [user_query query;
            PDict [("role", PStr "assistant"); ("content", PList (before ++ [tool_use]))];
            PDict [("role", PStr "user");
                   ("content",
                    PList [PDict [("toolResult",
                                   PDict [("toolUseId", id);
                                          ("content",
                                           PList (tool_result_content items))])]])]]
      in Hfollow |- *.
    rewrite Hfollow. unfold bind, lift. rewrite Hfirst. reflexivity.
Qed.

(** X22: the assistant messages of one query share one list of blocks.
    With two tool-use blocks in the first reply, the second follow-up
    request shows both assistant messages with both tool-use blocks, the
    first one too, although it was sent with only the first block
    before. *)
Theorem process_query_shares_assistant_blocks
  (query : string) (tools : list tool) (reply follow_up1 follow_up2 : pyval)
  (use1 use2 : pyval) (name1 args1 id1 name2 args2 id2 : pyval)
  (items1 items2 : list content_item) (text1 text2 : string) :
  let ask := request system_text tools [user_query query] in
  let again1 :=
    [user_query query; assistant_message [use1]; tool_result_message id1 items1] in
  let again2 :=
    [user_query query;
     assistant_message [use1; use2]; tool_result_message id1 items1;
     assistant_message [use1; use2]; tool_result_message id2 items2] in
  let t1 := [ListTools; ask; CallTool name1 args1] in
  let t2 := (t1 ++ [request system_text tools again1; CallTool name2 args2])%list in
  list_tools w [] = Ok tools ->
  converse w [ListTools] BEDROCK_MODEL_ID [user_query query]
    (system_prompts system_text) (tool_config tools) = Ok reply ->
  response_content reply = Ok (PList [use1; use2]) ->
  tool_use_of use1 = Some (name1, args1, id1) ->
  tool_use_of use2 = Some (name2, args2, id2) ->
  call_tool w [ListTools; ask] name1 args1 = Ok items1 ->
  converse w t1 BEDROCK_MODEL_ID again1 (system_prompts system_text) (tool_config tools)
  = Ok follow_up1 ->
  first_text follow_up1 = Ok (PStr text1) ->
  call_tool w (t1 ++ [request system_text tools again1])%list name2 args2 = Ok items2 ->
  converse w t2 BEDROCK_MODEL_ID again2 (system_prompts system_text) (tool_config tools)
  = Ok follow_up2 ->
  first_text follow_up2 = Ok (PStr text2) ->
  process_query_with system_text w query []
  = (Ok (join nl [calling_line name1 args1; text1; calling_line name2 args2; text2]),
     (t2 ++ [request system_text tools again2])%list).
Proof.
  intros ask again1 again2 t1 t2 Htools Hreply Hcontent Huse1 Huse2 Hcall1 Hfollow1
    Hfirst1 Hcall2 Hfollow2 Hfirst2.
  rewrite (process_query_start _ _ _ _ Htools Hreply Hcontent). fold ask.
  cbn [handle_contents]. unfold bind at 1. unfold bind at 1.
  rewrite (handle_tool_use w _ _ (start query) use1 name1 args1 id1 items1 follow_up1
             (PStr text1) [ListTools; ask] Huse1 Hcall1 Hfollow1 Hfirst1).
  cbn [final_text assistant_message_content messages start app].
  unfold bind at 1.
  match goal with
  | |- context [handle_content w ?s ?c ?st use2 ?t] =>
      pose proof (handle_tool_use w s c st use2 name2 args2 id2 items2 follow_up2
                    (PStr text2) t Huse2 Hcall2 Hfollow2 Hfirst2) as Hsecond
  end.
  cbv zeta in Hsecond. rewrite Hsecond.
  reflexivity.
Qed.

End ToolMoreProps.

Lemma keyword_step_errors_witness :
  load_keywords (PList [PStr "MCP"])
  = Raise (Exn ValueError "Error Loading Keyword Response").
Proof. exact (proj1 (keyword_step_errors (BlogSpec.world "")) (PList [PStr "MCP"]) eq_refl). Defined.

(** A query that is not about the weather. *)
Lemma process_query_without_tools_witness :
  ToolClient.process_query
    (world [text_block "I am just a simple weather app :("] []) "Tell me a joke" []
  = (Ok "I am just a simple weather app :(",
     [ListTools; request system_prompt_local weather_tools [user_query "Tell me a joke"]]).
Proof.
  exact (proj1 (process_query_without_tools system_prompt_local
                  (world [text_block "I am just a simple weather app :("] [])
                  "Tell me a joke" weather_tools _
                  [text_block "I am just a simple weather app :("]
                  ["I am just a simple weather app :("] eq_refl eq_refl eq_refl eq_refl)).
Defined.

Lemma world_obliging first later text :
  first_text (reply_of later) = Ok (PStr text) ->
  obliging (world first later).
Proof.
  intros Hlater. split.
  - intros t name args. eexists. reflexivity.
  - intros t name args model sent system config. cbn [converse world].
    destruct t as [|[] [|]]; cbn [app]; eauto.
Qed.

(** A first reply that is two tool-use blocks and no text: two tool calls
    and three requests to the model. *)
Lemma process_query_one_follow_up_per_tool_use_witness :
  exists answer tr,
    OAuthToolClient.process_query (world calls_only [text_block "Done."]) "CA?" []
    = (Ok answer, tr)
    /\ tool_calls tr = 2%nat /\ llm_calls tr = 3%nat.
Proof.
  refine (process_query_one_follow_up_per_tool_use system_prompt_oauth
            (world calls_only [text_block "Done."]) "CA?" weather_tools
            (reply_of calls_only) calls_only
            (world_obliging calls_only [text_block "Done."] "Done." eq_refl)
            eq_refl eq_refl eq_refl _).
  apply Forall_cons; [right; vm_compute; discriminate|].
  apply Forall_cons; [right; vm_compute; discriminate|].
  apply Forall_nil.
Defined.

(** The tool call fails. *)
Lemma process_query_tool_round_fails_witness :
  ToolClient.process_query (failing_tool text_around_call tool_error) "CA?" []
  = (Raise tool_error,
     [ListTools; request system_prompt_local weather_tools [user_query "CA?"];
      CallTool (PStr "get_alerts") (PDict [("state", PStr "CA")])]).
Proof.
  exact (proj1 (process_query_tool_round_fails system_prompt_local
                  (failing_tool text_around_call tool_error) "CA?" weather_tools
                  (reply_of text_around_call) [text_block "Checking."]
                  [text_block "One moment."] alerts_call ["Checking."]
                  (PStr "get_alerts") (PDict [("state", PStr "CA")]) (PStr "tooluse_1")
                  tool_error eq_refl eq_refl eq_refl eq_refl eq_refl) eq_refl).
Defined.

Lemma process_query_shares_assistant_blocks_witness :
  fst (ToolClient.process_query (world [alerts_call; forecast_call] [text_block "Done."])
         "CA?" [])
  = Ok (join nl [alerts_line; "Done.";
                 "[Calling tool get_forecast with args "
                 ++ "{'latitude': 35.37, 'longitude': -119.02}]"; "Done."]).
Proof.
  unfold ToolClient.process_query.
  rewrite (process_query_shares_assistant_blocks system_prompt_local
             (world [alerts_call; forecast_call] [text_block "Done."]) "CA?" weather_tools
             (reply_of [alerts_call; forecast_call]) (reply_of [text_block "Done."])
             (reply_of [text_block "Done."]) alerts_call forecast_call
             (PStr "get_alerts") (PDict [("state", PStr "CA")]) (PStr "tooluse_1")
             (PStr "get_forecast")
             (PDict [("latitude", PFloat "35.37"); ("longitude", PFloat "-119.02")])
             (PStr "tooluse_2")
             [TextContent "No active alerts for this state."]
             [TextContent "No active alerts for this state."] "Done." "Done."
             eq_refl eq_refl eq_refl eq_refl eq_refl eq_refl eq_refl eq_refl eq_refl
             eq_refl eq_refl).
  reflexivity.
Defined.

(* ===================================================================== *)
(** * The resource client                                                 *)
(* ===================================================================== *)

Section CallLemmas.
Context {E : Type}.

Lemma bind_call {A B : Type} (ev : E) (oracle : list E -> result A) (k : A -> M E B) t :
  bind (call ev oracle) k t
  = match oracle t with
    | Ok a => k a (t ++ [ev])%list
    | Raise e => (Raise e, (t ++ [ev])%list)
    end.
Proof. unfold bind, call. destruct (oracle t); reflexivity. Qed.

Lemma bind_lift {A B : Type} (r : result A) (k : A -> M E B) t :
  bind (lift r) k t
  = match r with
    | Ok a => k a t
    | Raise e => (Raise e, t)
    end.
Proof. unfold bind, lift. destruct r; reflexivity. Qed.

End CallLemmas.

Import ResourceClient ResourceSpec.

Lemma get_resource_spec {A : Type} `{Listed A} (resources : list A) (resource_name : string) :
  match _get_resource resources resource_name with
  | Ok found =>
      exists before after,
        resources = (before ++ found :: after)%list
        /\ name found = resource_name
        /\ Forall (fun r => name r <> resource_name) before
  | Raise e =>
      e = not_found resource_name
      /\ Forall (fun r => name r <> resource_name) resources
  end.
Proof.
  induction resources as [|r rest IH]; simpl.
  - split; [reflexivity | constructor].
  - destruct (String.eqb_spec resource_name (name r)) as [Heq|Hne].
    + exists [], rest. repeat split; [symmetry; exact Heq | constructor].
    + destruct (_get_resource rest resource_name) as [found|e].
      * destruct IH as [before [after [Hl [Hn Hb]]]].
        exists (r :: before), after. rewrite Hl. repeat split; [exact Hn|].
        constructor; [congruence | exact Hb].
      * destruct IH as [He Hall]. split; [exact He|].
        constructor; [congruence | exact Hall].
Qed.

Lemma listing_trace {A : Type} `{Listed A} (entries : list A) (t : list event) :
  listing entries t = (Ok (map (fun _ => tt) entries), (t ++ listed entries)%list).
Proof.
  revert t. unfold listing, listed. induction entries as [|a l IH]; intros t; simpl.
  - rewrite app_nil_r. reflexivity.
  - unfold print at 1. rewrite bind_call. unfold bind at 1. rewrite IH.
    unfold ret. rewrite <- app_assoc. reflexivity.
Qed.

(** X23: [_get_resource] returns the first entry of the list that carries
    the name: the entries before it carry another name, and later entries
    of the same name are never returned.  It raises [KeyError], with the
    message [Resource <name> not found], exactly when no entry carries the
    name.  This holds for resources and for resource templates alike. *)
Theorem get_resource_first_match {A : Type} `{Listed A} (resources : list A)
  (resource_name : string) :
  (forall found,
     _get_resource resources resource_name = Ok found
     <-> exists before after,
           resources = (before ++ found :: after)%list
           /\ name found = resource_name
           /\ Forall (fun r => name r <> resource_name) before)
  /\ (forall e,
        _get_resource resources resource_name = Raise e
        <-> e = not_found resource_name
            /\ Forall (fun r => name r <> resource_name) resources).
Proof.
  pose proof (get_resource_spec resources resource_name) as Hspec.
  split.
  - intros found. split.
    + intros Hok. rewrite Hok in Hspec. exact Hspec.
    + intros [before [after [Hl [Hn Hb]]]]. subst resources. clear Hspec.
      induction before as [|b before IH]; simpl.
      * rewrite Hn, String.eqb_refl. reflexivity.
      * apply Forall_cons_iff in Hb as [Hb1 Hb2].
        destruct (String.eqb_spec resource_name (name b)) as [Heq|_];
          [exfalso; apply Hb1; symmetry; exact Heq | apply IH; exact Hb2].
  - intros e. split.
    + intros Hr. rewrite Hr in Hspec. exact Hspec.
    + intros [He Hall]. subst e. clear Hspec.
      induction Hall as [|r rest Hr _ IH]; simpl; [reflexivity|].
      destruct (String.eqb_spec resource_name (name r)) as [Heq|_];
        [exfalso; apply Hr; symmetry; exact Heq | exact IH].
Qed.

Lemma listed_quiet {A : Type} `{Listed A} (entries : list A) :
  forallb (fun ev => negb (is_request ev)) (listed entries) = true.
Proof. induction entries as [|a l IH]; [reflexivity | exact IH]. Qed.

(** The run up to the lookup of the README, against a server that lists
    [resources] and [templates]. *)
Lemma run_preamble (w : env) query year month resources templates :
  serves w resources templates ->
  run w query year month []
  = (let (r, t') :=
       (readme_resource <- lift (_get_resource resources "README") ;;
        readme_content <- call (ReadResource (uri readme_resource))
                            (fun t => read_resource w t (uri readme_resource)) ;;
        let system_prompts := [PDict [("text", PStr (system_text readme_content))]] in
        sales_data_resource <- lift (_get_resource templates "get_sales") ;;
        resource_uri <- lift (format_uri w (uriTemplate sales_data_resource) year month) ;;
        fetched <- read_sales w resource_uri ;;
        match fetched with
        | inr status => ret (Exit status)
        | inl month_sales =>
            let messages :=
              [PDict [("role", PStr "user");
                      ("content",
                       PList [PDict [("text", PStr (user_text query month_sales))]])]] in
            response <- call (Converse BEDROCK_MODEL_ID messages system_prompts)
                          (fun t => converse w t BEDROCK_MODEL_ID messages system_prompts) ;;
            text <- lift (model_response response) ;;
            ret (Answer text)
        end) (preamble resources templates) in
     (r, (t' ++ [Disconnect])%list)).
Proof.
  intros [Hc [Hp [Hr Ht]]]. unfold run, with_client.
  rewrite bind_call, Hc. rewrite bind_call, Hp. rewrite bind_call, Hr.
  unfold print at 1. rewrite bind_call.
  unfold bind at 1. rewrite listing_trace.
  rewrite bind_call, Ht.
  unfold print at 1. rewrite bind_call.
  unfold bind at 1. rewrite listing_trace.
  unfold preamble. cbn [app]. repeat rewrite <- app_assoc. cbn [app]. reflexivity.
Qed.

(** X24: against a server that is connected to and answers both listings,
    [run] fails with the [KeyError] of the lookup when no resource is named
    README, whatever the templates are (a template of that name does not
    count).  Both listings have been printed by then; no resource is read,
    the model is not asked, and the connection is released. *)
Theorem run_without_readme (w : env) query year month resources templates :
  serves w resources templates ->
  Forall (fun r => resource_name r <> "README") resources ->
  run w query year month []
  = (Raise (not_found "README"), (preamble resources templates ++ [Disconnect])%list)
  /\ forallb (fun ev => negb (is_request ev)) (preamble resources templates) = true.
Proof.
  intros Hw Hno. split.
  - rewrite (run_preamble _ _ _ _ _ _ Hw).
    pose proof (get_resource_spec resources "README") as Hspec.
    destruct (_get_resource resources "README") as [found|e] eqn:Hget.
    + destruct Hspec as [before [after [Hl [Hn _]]]]. exfalso.
      rewrite Forall_forall in Hno. apply (Hno found); [|exact Hn].
      rewrite Hl. apply in_or_app. right. left. reflexivity.
    + destruct Hspec as [He _]. subst e. rewrite bind_lift. reflexivity.
  - unfold preamble. rewrite !forallb_app, !listed_quiet. reflexivity.
Qed.

Lemma run_without_readme_witness :
  run (world [] [sales_template] (Ok "[]")) "Which product sold best?" 2024 "march" []
  = (Raise (not_found "README"), (preamble [] [sales_template] ++ [Disconnect])%list)
  /\ forallb (fun ev => negb (is_request ev)) (preamble [] [sales_template]) = true.
Proof.
  apply (run_without_readme (world [] [sales_template] (Ok "[]"))).
  - unfold serves. repeat split.
  - constructor.
Defined.

Lemma read_sales_eq (w : env) address t :
  read_sales w address t
  = match read_resource w t address with
    | Ok month_sales => (Ok (inl month_sales), (t ++ [ReadResource address])%list)
    | Raise e =>
        if is_Exception e
        then (Ok (inr 1%Z),
              (t ++ [ReadResource address; Print ("Error fetching sales data: " ++ exn_msg e)])%list)
        else (Raise e, (t ++ [ReadResource address])%list)
    end.
Proof.
  unfold read_sales, call. destruct (read_resource w t address) as [s|e]; [reflexivity|].
  destruct (is_Exception e); [|reflexivity].
  unfold print, bind, call, ret. rewrite <- app_assoc. reflexivity.
Qed.

Lemma preamble_quiet resources templates :
  forallb (fun ev => negb (is_request ev)) (preamble resources templates) = true.
Proof. unfold preamble. rewrite !forallb_app, !listed_quiet. reflexivity. Qed.

(** X25: the two outcomes of [run] that are not an exception.  In both,
    the server has answered the two listings, the resources it listed
    have one named README and the templates it listed have one named
    get_sales, and [run] has read exactly two resources, one after the
    other and after both listings: the uri of that README, and then the
    uri made from that template, the year and the month.  When [run]
    returns an answer, it has then asked the model exactly once, with what
    was read from the README in the system prompt and the query and the
    sales data in the single user message; the answer is the first text
    of the reply.  When [run] ends the process, the status is 1, the
    sales data could not be read, the error has been printed and the
    model has not been asked.  The connection is released on both. *)
Theorem run_outcomes (w : env) query year month :
  let (r, t) := run w query year month [] in
  match r with
  | Ok outcome =>
      exists resources templates found template address,
        list_resources w [Connect; Ping] = Ok resources
        /\ list_resource_templates w
             ([Connect; Ping; ListResources; Print "Available Resources:"]
              ++ listed resources)%list
           = Ok templates
        /\ _get_resource resources "README" = Ok found
        /\ _get_resource templates "get_sales" = Ok template
        /\ format_uri w (uriTemplate template) year month = Ok address
        /\ let front := preamble resources templates in
           let reads := (front ++ [ReadResource (uri found); ReadResource address])%list in
           match outcome with
           | Answer text =>
               exists readme_content month_sales response,
                 let request :=
                   Converse BEDROCK_MODEL_ID [user_message query month_sales]
                     [system_message readme_content] in
                 t = (reads ++ [request; Disconnect])%list
                 /\ read_resource w front (uri found) = Ok readme_content
                 /\ read_resource w (front ++ [ReadResource (uri found)])%list address
                    = Ok month_sales
                 /\ converse w reads BEDROCK_MODEL_ID [user_message query month_sales]
                      [system_message readme_content] = Ok response
                 /\ model_response response = Ok text
           | Exit status =>
               exists e,
                 status = 1%Z
                 /\ t = (reads ++ [Print ("Error fetching sales data: " ++ exn_msg e);
                                   Disconnect])%list
                 /\ read_resource w (front ++ [ReadResource (uri found)])%list address
                    = Raise e
                 /\ is_Exception e = true
           end
  | Raise _ => True
  end.
Proof.
  unfold run, with_client.
  rewrite bind_call. destruct (connect w []) as [[]|e]; [|exact I].
  rewrite bind_call. destruct (ping w _) as [[]|e]; [|exact I].
  rewrite bind_call. cbn [app].
  destruct (list_resources w [Connect; Ping]) as [resources|e] eqn:Hresources; [|exact I].
  unfold print at 1. rewrite bind_call.
  unfold bind at 1. rewrite listing_trace. cbn [app].
  rewrite bind_call.
  destruct (list_resource_templates w
              (Connect :: Ping :: ListResources :: Print "Available Resources:"
               :: listed resources)) as [templates|e] eqn:Htemplates; [|exact I].
  unfold print at 1. rewrite bind_call.
  unfold bind at 1. rewrite listing_trace.
  assert (Hfront :
            ((((Connect :: Ping :: ListResources :: Print "Available Resources:"
                :: listed resources)
               ++ [ListResourceTemplates]) ++ [Print "Available Resources Templates"])
             ++ listed templates)%list
            = preamble resources templates).
  { unfold preamble. cbn [app]. repeat rewrite <- app_assoc. reflexivity. }
  rewrite Hfront. clear Hfront. set (front := preamble resources templates).
  rewrite bind_lift. destruct (_get_resource resources "README") as [found|e] eqn:Hfound;
    [|exact I].
  rewrite bind_call.
  destruct (read_resource w front (uri found)) as [readme_content|e] eqn:Hreadme; [|exact I].
  cbv zeta.
  rewrite bind_lift.
  destruct (_get_resource templates "get_sales") as [template|e] eqn:Htemplate; [|exact I].
  rewrite bind_lift.
  destruct (format_uri w (uriTemplate template) year month) as [address|e] eqn:Haddress;
    [|exact I].
  assert (Hreads : ((front ++ [ReadResource (uri found)]) ++ [ReadResource address]
                    = front ++ [ReadResource (uri found); ReadResource address])%list).
  { rewrite <- app_assoc. reflexivity. }
  unfold bind at 1. rewrite read_sales_eq.
  destruct (read_resource w (front ++ [ReadResource (uri found)])%list address)
    as [month_sales|e] eqn:Hsales.
  - rewrite bind_call, Hreads.
    destruct (converse w _ BEDROCK_MODEL_ID _ _) as [response|e] eqn:Hconverse; [|exact I].
    rewrite bind_lift. destruct (model_response response) as [text|e] eqn:Htext; [|exact I].
    unfold ret.
    exists resources, templates, found, template, address.
    split; [first [reflexivity | exact Hresources]|].
    split; [first [reflexivity | exact Htemplates]|].
    split; [exact Hfound|]. split; [exact Htemplate|]. split; [exact Haddress|].
    exists readme_content, month_sales, response.
    split; [rewrite <- !app_assoc; reflexivity|].
    split; [exact Hreadme|]. split; [exact Hsales|]. split; [exact Hconverse | exact Htext].
  - destruct (is_Exception e) eqn:Hcaught; [|exact I].
    unfold ret.
    exists resources, templates, found, template, address.
    split; [first [reflexivity | exact Hresources]|].
    split; [first [reflexivity | exact Htemplates]|].
    split; [exact Hfound|]. split; [exact Htemplate|]. split; [exact Haddress|].
    exists e. split; [reflexivity|].
    split; [rewrite <- !app_assoc; reflexivity|].
    split; [exact Hsales | exact Hcaught].
Qed.

Example run_answers :
  fst (run (world [readme] [sales_template] (Ok "[]")) "Which product sold best?" 2024 "march" [])
  = Ok (Answer (PStr "March was the best month.")).
Proof. vm_compute. reflexivity. Qed.

Example run_exits :
  fst (run (world [readme] [sales_template] (Raise (Exn ValueError "no such month")))
         "Which product sold best?" 2024 "march" [])
  = Ok (Exit 1).
Proof. vm_compute. reflexivity. Qed.

(* ===================================================================== *)
(** * The entry point of the blog client                                  *)
(* ===================================================================== *)

Import BlogClient BlogMain BlogMainSpec.

(** X26: [main] of the blog client checks for one command-line argument
    and uses two.  With fewer than two arguments after the program name
    it never reaches [run]: no connection is opened and it does not
    return normally.  With none it prints the usage line and ends the
    process with status 1; with exactly one, the server script, it prints
    the start line and, the client once constructed, fails with
    [IndexError] on [sys.argv[2]]. *)
Theorem main_needs_two_arguments (p : process) (argv : list string) :
  (List.length argv < 3)%nat ->
  let (r, t) := main p argv [] in
  r <> Ok Returned
  /\ ~ In Connect t
  /\ ((List.length argv < 2)%nat -> r = Ok (Exit 1) /\ t = [Print usage])
  /\ (forall program script,
        argv = [program; script] ->
        new_bedrock_client p = Ok tt ->
        isfile (world p) script = true ->
        new_client p script = Ok tt ->
        r = Raise (Exn IndexError "list index out of range")
        /\ t = [Print "Starting the MCP Client for EvoPromptServer"]).
Proof.
  intros Hlen.
  assert (Hno : forall line, ~ In Connect [Print line]).
  { intros line [H|[]]. discriminate H. }
  destruct argv as [|program [|script [|code rest]]].
  - unfold main. cbn [List.length Nat.ltb Nat.leb].
    unfold print. rewrite bind_call. unfold ret. cbn [app].
    split; [discriminate|]. split; [apply Hno|].
    split; [intros _; split; reflexivity | intros ? ? H; discriminate H].
  - unfold main. cbn [List.length Nat.ltb Nat.leb].
    unfold print. rewrite bind_call. unfold ret. cbn [app].
    split; [discriminate|]. split; [apply Hno|].
    split; [intros _; split; reflexivity | intros ? ? H; discriminate H].
  - assert (Hshort : ~ (List.length [program; script] < 2)%nat) by (cbn; lia).
    unfold main. cbn [List.length Nat.ltb Nat.leb].
    unfold print at 1. rewrite bind_call. cbn [app].
    unfold argv_item at 1. cbn [nth_error]. rewrite bind_lift.
    unfold MCPClient. unfold bind at 1. rewrite bind_lift.
    destruct (new_bedrock_client p) as [[]|e1] eqn:Hbedrock.
    + destruct (isfile (world p) script) eqn:Hfile; cbn [negb].
      * unfold lift at 1. destruct (new_client p script) as [[]|e2] eqn:Hclient.
        -- unfold argv_item. cbn [nth_error]. rewrite bind_lift.
           split; [discriminate|]. split; [apply Hno|].
           split; [intros H; contradiction|].
           intros ? ? _ _ _ _. split; reflexivity.
        -- split; [discriminate|]. split; [apply Hno|].
           split; [intros H; contradiction|].
           intros program' script' Heq _ _ Hc. injection Heq as _ <-. congruence.
      * unfold raise.
        split; [discriminate|]. split; [apply Hno|].
        split; [intros H; contradiction|].
        intros program' script' Heq _ Hf. injection Heq as _ <-. congruence.
    + split; [discriminate|]. split; [apply Hno|].
      split; [intros H; contradiction|].
      intros program' script' Heq Hb. congruence.
  - cbn [List.length] in Hlen. lia.
Qed.

Lemma main_needs_two_arguments_witness :
  let (r, t) := main (ready "{}") ["io_prompt_client_bedrock.py"; "io_prompt_server.py"] [] in
  r <> Ok Returned
  /\ ~ In Connect t
  /\ ((2 < 2)%nat -> r = Ok (Exit 1) /\ t = [Print usage])
  /\ (forall program script,
        ["io_prompt_client_bedrock.py"; "io_prompt_server.py"] = [program; script] ->
        new_bedrock_client (ready "{}") = Ok tt ->
        isfile (world (ready "{}")) script = true ->
        new_client (ready "{}") script = Ok tt ->
        r = Raise (Exn IndexError "list index out of range")
        /\ t = [Print "Starting the MCP Client for EvoPromptServer"]).
Proof.
  apply (main_needs_two_arguments
           (ready "{}") ["io_prompt_client_bedrock.py"; "io_prompt_server.py"]).
  simpl. lia.
Defined.

(* ===================================================================== *)
(** * The chat loops                                                      *)
(* ===================================================================== *)

Import ChatLoop ChatSpec.

Lemma inputs_app (t more : list event) : inputs (t ++ more) = (inputs t + inputs more)%nat.
Proof. unfold inputs. rewrite filter_app, length_app. reflexivity. Qed.

Lemma inputs_session (l : list ToolClient.event) : inputs (map Session l) = 0%nat.
Proof. induction l as [|a l IH]; [reflexivity | exact IH]. Qed.

Lemma session_events_app (t more : list event) :
  session_events (t ++ more) = (session_events t ++ session_events more)%list.
Proof. unfold session_events. apply flat_map_app. Qed.

Lemma in_session_trace {A : Type} (m : M ToolClient.event A) (t : list event) :
  exists added, snd (in_session m t) = (t ++ map Session added)%list.
Proof.
  unfold in_session. destruct (m (session_events t)) as [r t']. simpl. eauto.
Qed.

Lemma turn_cases (process_query : string -> M ToolClient.event string) (w : env) t :
  turn process_query w t
  = match input w t with
    | Ok line =>
        if (lower (strip line) =? "quit")%string then (Ok true, (t ++ [Input prompt])%list)
        else
          let (r, t1) := in_session (process_query (strip line)) (t ++ [Input prompt])%list in
          match r with
          | Ok response => (Ok false, (t1 ++ [Print (nl ++ response)])%list)
          | Raise e =>
              if is_Exception e then (Ok false, (t1 ++ [error_line e])%list)
              else (Raise e, t1)
          end
    | Raise e =>
        if is_Exception e then (Ok false, (t ++ [Input prompt; error_line e])%list)
        else (Raise e, (t ++ [Input prompt])%list)
    end.
Proof.
  unfold turn, try_except_as. rewrite bind_call. fold prompt.
  destruct (input w t) as [line|e].
  - cbv zeta. destruct (lower (strip line) =? "quit")%string; [reflexivity|].
    unfold bind at 1.
    destruct (in_session (process_query (strip line)) (t ++ [Input prompt])%list)
      as [[response|e] t1].
    + unfold print. rewrite bind_call. reflexivity.
    + destruct (is_Exception e); [|reflexivity].
      unfold print. rewrite bind_call. reflexivity.
  - destruct (is_Exception e); [|reflexivity].
    unfold print. rewrite bind_call. unfold ret. rewrite <- app_assoc. reflexivity.
Qed.

(** One pass through the loop: a line is asked for, and nothing else is;
    the pass breaks only on [quit], and lets through only what is not an
    [Exception]. *)
Lemma turn_spec (process_query : string -> M ToolClient.event string) (w : env) t :
  exists more,
    snd (turn process_query w t) = (t ++ Input prompt :: more)%list
    /\ inputs more = 0%nat
    /\ match fst (turn process_query w t) with
       | Ok true =>
           more = [] /\ exists line, input w t = Ok line /\ lower (strip line) = "quit"
       | Ok false => True
       | Raise e => is_Exception e = false
       end.
Proof.
  rewrite turn_cases.
  destruct (input w t) as [line|e] eqn:Hline.
  - destruct (String.eqb_spec (lower (strip line)) "quit") as [Hquit|Hother].
    + exists []. simpl. repeat split; eauto.
    + destruct (in_session_trace (process_query (strip line)) (t ++ [Input prompt])%list)
        as [added Hadded].
      destruct (in_session (process_query (strip line)) (t ++ [Input prompt])%list)
        as [[response|e] t1]; simpl in Hadded; subst t1.
      * exists (map Session added ++ [Print (nl ++ response)])%list. simpl.
        split; [rewrite <- !app_assoc; reflexivity|].
        split; [rewrite inputs_app, inputs_session; reflexivity | exact I].
      * destruct (is_Exception e) eqn:Hcaught.
        -- exists (map Session added ++ [error_line e])%list. simpl.
           split; [rewrite <- !app_assoc; reflexivity|].
           split; [rewrite inputs_app, inputs_session; reflexivity | exact I].
        -- exists (map Session added). simpl.
           split; [rewrite <- !app_assoc; reflexivity|].
           split; [apply inputs_session | exact Hcaught].
  - destruct (is_Exception e) eqn:Hcaught.
    + exists [error_line e]. simpl.
      split; [reflexivity|]. split; [reflexivity | exact I].
    + exists []. simpl. repeat split. exact Hcaught.
Qed.

(** X27: the chat loop of both tool clients is left in two ways only.  It
    returns when a line was read that is [quit] once stripped and
    lower-cased, and the prompt for that line is the last thing it did; or
    an error that is not an [Exception], such as a keyboard interrupt,
    passes through it.  Every other error is caught, so that while the
    loop is running each pass has asked for exactly one line. *)
Theorem chat_loop_leaves_on_quit_only (process_query : string -> M ToolClient.event string)
  (w : env) (turns : nat) (t : list event) :
  let (r, t') := while_true (turn process_query w) turns t in
  match r with
  | Ok Finished =>
      (inputs t' <= inputs t + turns)%nat
      /\ exists front line,
           t' = (front ++ [Input prompt])%list
           /\ input w front = Ok line
           /\ lower (strip line) = "quit"
  | Ok Running => inputs t' = (inputs t + turns)%nat
  | Raise e => is_Exception e = false
  end.
Proof.
  revert t. induction turns as [|turns IH]; intros t.
  - simpl. unfold ret. lia.
  - cbn [while_true]. unfold bind.
    destruct (turn_spec process_query w t) as [more [Htrace [Hmore Hr]]].
    destruct (turn process_query w t) as [[[|]|e] t1]; simpl in Htrace, Hr; subst t1.
    + destruct Hr as [-> [line [Hline Hquit]]]. unfold ret. split.
      * rewrite inputs_app. unfold inputs at 2. simpl. lia.
      * exists t, line. repeat split; assumption.
    + specialize (IH (t ++ Input prompt :: more)%list).
      assert (Hn : inputs (t ++ Input prompt :: more) = S (inputs t)).
      { rewrite inputs_app.
        change (Input prompt :: more) with ([Input prompt] ++ more)%list.
        rewrite inputs_app, Hmore. unfold inputs at 2. simpl. lia. }
      destruct (while_true (turn process_query w) turns (t ++ Input prompt :: more)%list)
        as [[[|]|e] t2].
      * destruct IH as [Hle Hex]. split; [lia | exact Hex].
      * lia.
      * exact IH.
    + exact Hr.
Qed.

Lemma while_true_spins (process_query : string -> M ToolClient.event string)
  (w : env) (turns : nat) (t : list event) :
  closed w ->
  let (r, t') := while_true (turn process_query w) turns t in
  r = Ok Running
  /\ inputs t' = (inputs t + turns)%nat
  /\ List.length t' = (List.length t + 2 * turns)%nat
  /\ session_events t' = session_events t.
Proof.
  intros Hclosed. revert t. induction turns as [|turns IH]; intros t.
  - simpl. unfold ret. repeat split; lia.
  - cbn [while_true]. unfold bind at 1.
    destruct (Hclosed t) as [e [Hinput Hcaught]].
    assert (Hturn : turn process_query w t = (Ok false, (t ++ [Input prompt; error_line e])%list)).
    { rewrite turn_cases, Hinput, Hcaught. reflexivity. }
    rewrite Hturn. specialize (IH (t ++ [Input prompt; error_line e])%list).
    destruct (while_true (turn process_query w) turns (t ++ [Input prompt; error_line e])%list)
      as [r t'].
    destruct IH as [Hr [Hin [Hlen Hs]]]. split; [exact Hr|].
    rewrite Hin, Hlen, Hs, inputs_app, length_app, session_events_app.
    unfold inputs at 2. simpl. rewrite app_nil_r. repeat split; lia.
Qed.

(** X28: when the console gives no line any more, as at the end of a piped
    input, the chat loop does not end: [input] raises in every pass, the
    loop prints the error and asks again.  However many passes are allowed,
    the loop is still running after them, has asked for a line and printed
    an error in each, and has sent nothing to the session.  This holds for
    the loop of either client from any point, and so for [chat_loop] from
    its start. *)
Theorem chat_loop_spins_without_input (w : env) (turns : nat) :
  closed w ->
  (forall (process_query : string -> M ToolClient.event string) (t : list event),
     let (r, t') := while_true (turn process_query w) turns t in
     r = Ok Running
     /\ inputs t' = (inputs t + turns)%nat
     /\ List.length t' = (List.length t + 2 * turns)%nat
     /\ session_events t' = session_events t)
  /\ (let (r, t') := chat_loop w turns [] in
      r = Ok Running
      /\ inputs t' = turns
      /\ List.length t' = (2 + 2 * turns)%nat
      /\ session_events t' = []).
Proof.
  intros Hclosed. split.
  - intros process_query t. apply while_true_spins. exact Hclosed.
  - unfold chat_loop, banner, print. unfold bind at 1. rewrite bind_call.
    unfold call. cbn [app].
    exact (while_true_spins (ToolClient.process_query (session w)) w turns banner_lines Hclosed).
Qed.

Lemma chat_loop_spins_without_input_witness :
  let (r, t') := chat_loop at_end_of_input 3 [] in
  r = Ok Running
  /\ inputs t' = 3%nat
  /\ List.length t' = (2 + 2 * 3)%nat
  /\ session_events t' = [].
Proof.
  apply (chat_loop_spins_without_input at_end_of_input 3).
  intros t. exists end_of_input. split; reflexivity.
Defined.

Example strip_examples :
  strip ("  QUIT" ++ bytes [9; 13; 10]) = "QUIT"
  /\ strip (bytes [194; 160; 32] ++ "new york" ++ bytes [226; 128; 131]) = "new york"
  /\ strip "   " = ""
  /\ strip "" = "".
Proof. vm_compute. repeat split. Qed.

Example chat_loop_quits :
  while_true (turn (ToolClient.process_query (session (console " Quit " []))) (console " Quit " []))
    5 []
  = (Ok Finished, [Input prompt]).
Proof. vm_compute. reflexivity. Qed.

Lemma smoke_test_cases (w : env) (t : list event) :
  smoke_test w t
  = match user_info w t with
    | Ok data =>
        match getitem data "github_user" with
        | Ok github_user =>
            (Ok tt, (t ++ [user_info_call; Print ("GitHub user: " ++ str github_user)])%list)
        | Raise e => (Ok tt, (t ++ [user_info_call; error_line e])%list)
        end
    | Raise e =>
        if is_Exception e then (Ok tt, (t ++ [user_info_call; error_line e])%list)
        else (Raise e, (t ++ [user_info_call])%list)
    end.
Proof.
  unfold smoke_test, try_except_as. rewrite bind_call. fold user_info_call.
  destruct (user_info w t) as [data|e].
  - rewrite bind_lift.
    pose proof (getitem_catchable data "github_user") as Hc.
    destruct (getitem data "github_user") as [github_user|e].
    + unfold print, call. rewrite <- app_assoc. reflexivity.
    + simpl in Hc. rewrite Hc. unfold print, call. rewrite <- app_assoc. reflexivity.
  - destruct (is_Exception e); [|reflexivity].
    unfold print, call. rewrite <- app_assoc. reflexivity.
Qed.

Lemma get_user_info_claims (claims : dict) :
  UserInfo.get_user_info (Some claims)
  = Ok (PDict [("github_user", claim claims "login"); ("name", claim claims "name")]).
Proof.
  unfold UserInfo.get_user_info, get_method, claim.
  destruct (dict_get claims "login"); destruct (dict_get claims "name"); reflexivity.
Qed.

Lemma main_opening (w : env) (turns : nat) (tools : list ToolClient.tool) :
  connect w [] = Ok tt ->
  ToolClient.list_tools (session w) [] = Ok tools ->
  main w turns []
  = released ((smoke_test w ;;;
               banner ;;;
               while_true (turn (OAuthToolClient.process_query (session w)) w) turns)
                (connected tools)).
Proof.
  intros Hconnect Htools. unfold main. rewrite bind_call, Hconnect. cbn [app].
  unfold print at 1. rewrite bind_call. cbn [app].
  unfold bind at 1. unfold in_session at 1. cbn [session_events flat_map app].
  unfold call at 1. rewrite Htools. cbn [List.length skipn map app].
  unfold print at 1. rewrite bind_call. cbn [app]. fold (connected tools).
  unfold released.
  destruct ((smoke_test w ;;; banner ;;;
             while_true (turn (OAuthToolClient.process_query (session w)) w) turns)
              (connected tools)) as [[[|]|e] t']; reflexivity.
Qed.

(** X29: [main] of the OAuth client starts the chat loop whatever the
    call of [get_user_info] gives, short of an error that is not an
    [Exception].  Against the server's own [get_user_info], which always
    answers with the keys [github_user] and [name], it prints the login of
    the token's claims, and [None] when the claims have none; when the
    call fails, or its data has no key [github_user], it prints the error
    instead.  In each case the two banner lines follow and the loop runs
    from there; the connection is released once the loop is left. *)
Theorem main_starts_loop (w : env) (turns : nat) (tools : list ToolClient.tool) :
  connect w [] = Ok tt ->
  ToolClient.list_tools (session w) [] = Ok tools ->
  let loop := while_true (turn (OAuthToolClient.process_query (session w)) w) turns in
  (forall claims,
     user_info w (connected tools) = UserInfo.get_user_info (Some claims) ->
     main w turns []
     = released (loop (opening tools
                       ++ Print ("GitHub user: " ++ str (claim claims "login"))
                          :: banner_lines)%list))
  /\ (forall e,
        user_info w (connected tools) = Raise e ->
        is_Exception e = true ->
        main w turns [] = released (loop (opening tools ++ error_line e :: banner_lines)%list))
  /\ (forall data e,
        user_info w (connected tools) = Ok data ->
        getitem data "github_user" = Raise e ->
        main w turns [] = released (loop (opening tools ++ error_line e :: banner_lines)%list)).
Proof.
  intros Hconnect Htools loop.
  assert (Hbanner : forall t,
             (banner ;;; loop) t = loop (t ++ banner_lines)%list).
  { intros t. unfold banner, print. unfold bind at 1. rewrite bind_call.
    unfold call. rewrite <- app_assoc. reflexivity. }
  rewrite (main_opening w turns tools Hconnect Htools). fold loop.
  split; [|split].
  - intros claims Hinfo. unfold bind at 1. rewrite smoke_test_cases, Hinfo.
    rewrite get_user_info_claims.
    change (getitem (PDict [("github_user", claim claims "login");
                            ("name", claim claims "name")]) "github_user")
      with (Ok (claim claims "login")).
    cbv beta iota. rewrite Hbanner. unfold opening. rewrite <- !app_assoc. reflexivity.
  - intros e Hinfo Hcaught. unfold bind at 1. rewrite smoke_test_cases, Hinfo, Hcaught.
    cbv beta iota. rewrite Hbanner. unfold opening. rewrite <- !app_assoc. reflexivity.
  - intros data e Hinfo Hget. unfold bind at 1. rewrite smoke_test_cases, Hinfo, Hget.
    cbv beta iota. rewrite Hbanner. unfold opening. rewrite <- !app_assoc. reflexivity.
Qed.

Lemma main_starts_loop_witness :
  let w := console "quit" [("login", PStr "octocat"); ("email", PStr "octocat@github.com")] in
  main w 3 []
  = released
      (while_true (turn (OAuthToolClient.process_query (session w)) w) 3
         (opening ToolSpec.weather_tools
          ++ Print "GitHub user: octocat" :: banner_lines)%list).
Proof.
  exact (proj1 (main_starts_loop
                  (console "quit" [("login", PStr "octocat");
                                   ("email", PStr "octocat@github.com")])
                  3 ToolSpec.weather_tools eq_refl eq_refl)
           [("login", PStr "octocat"); ("email", PStr "octocat@github.com")] eq_refl).
Defined.

(* ===================================================================== *)
(** * The keyword prompt and the client that reads its answer             *)
(* ===================================================================== *)

Import PromptServer.

Lemma prefix_left p a s : String.prefix p a = true -> String.prefix p (a ++ s) = true.
Proof.
  revert a. induction p as [|x p IH]; intros a H; [destruct (a ++ s)%string; reflexivity|].
  destruct a as [|y a]; [discriminate|]. cbn [append String.prefix] in *.
  destruct (Ascii.ascii_dec x y); [apply IH; exact H | discriminate].
Qed.

Lemma str_contains_left p a s : str_contains p a = true -> str_contains p (a ++ s) = true.
Proof.
  induction a as [|c a IH]; cbn [str_contains append]; intros H.
  - destruct p; [|discriminate]. destruct s; reflexivity.
  - apply orb_true_iff in H as [H|H]; apply orb_true_iff.
    + left. apply (prefix_left p (String c a) s). exact H.
    + right. apply IH. exact H.
Qed.

(** X30: the keyword prompt and the client that reads its answer disagree
    on the format.  Whatever the code, the prompt of
    [get_keywords_from_code] shows the code verbatim and asks for strict
    JSON by an example written with single quotes.  That example is not
    JSON: [json.loads] rejects it, with and without a code fence, so the
    keyword step of the client raises its [ValueError], and a run against
    a model that answers with the example ends with that error. *)
Theorem keywords_example_is_rejected (code code_file : string) :
  str_contains code (get_keywords_from_code code) = true
  /\ str_contains keywords_example (get_keywords_from_code code) = true
  /\ BlogClient.load_keywords (PStr keywords_example)
     = Raise (Exn ValueError "Error Loading Keyword Response")
  /\ BlogClient.load_keywords (PStr ("```json" ++ nl ++ keywords_example ++ nl ++ "```"))
     = Raise (Exn ValueError "Error Loading Keyword Response")
  /\ fst (BlogClient.run (BlogSpec.world keywords_example) code_file [])
     = Raise (Exn ValueError "Error Loading Keyword Response").
Proof.
  split; [|split; [|split; [|split]]].
  - unfold get_keywords_from_code. apply str_contains_right, str_contains_prefix.
  - unfold get_keywords_from_code. apply str_contains_left. vm_compute. reflexivity.
  - vm_compute. reflexivity.
  - vm_compute. reflexivity.
  - vm_compute. reflexivity.
Qed.
